(** * SQL polyglot tools: a shallow embedding of the six Dify tools that
    wrap the sqlglot library, and the properties of their invocation
    protocol.

    Every tool is a Python generator [_invoke(tool_parameters)] that
    yields [ToolInvokeMessage]s.  The tools call into sqlglot (parser,
    generator, optimizer, executor), into [json.loads] and into the
    builtin [str]; none of these is part of the repository, so they are
    the methods of the type class [Library] below and every theorem holds
    for every implementation of that interface. *)

From Stdlib Require Import List String Ascii ZArith Bool Lia.
From Stdlib Require Import DecimalString SpecFloat FinFun.
Import ListNotations.
Open Scope string_scope.
Open Scope Z_scope.

Set Implicit Arguments.
Set Warnings "-register-all".

(* ------------------------------------------------------------------ *)
(** ** Python values *)

(** A Python value as the tools see it: what arrives in
    [tool_parameters], what [json.loads] produces, what the executor puts
    in a row and what is handed to [create_json_message].  A dict keeps
    its insertion order.  [PDict] is a dict whose keys are all text, as
    the keys of a JSON object and of every payload the tools build are;
    [PMap] is a dict with keys of any class, as a value in a row of the
    executor may be.  [POther s] is an object of any other class, carried
    by its [str()]. *)
Inductive pyval : Type :=
| PNone
| PBool (b : bool)
| PInt (z : Z)
| PFloat (f : spec_float)
| PStr (s : string)
| PList (l : list pyval)
| PTuple (l : list pyval)
| PDict (d : list (string * pyval))
| PMap (d : list (pyval * pyval))
| POther (repr : string).

Definition kwargs := list (string * pyval).

(** Truth value of an object, as [if x] / [not x] compute it. *)
Definition truthy (v : pyval) : bool :=
  match v with
  | PNone => false
  | PBool b => b
  | PInt z => negb (z =? 0)
  | PFloat f => match f with S754_zero _ => false | _ => true end
  | PStr s => match s with EmptyString => false | _ => true end
  | PList l | PTuple l => match l with [] => false | _ => true end
  | PDict d => match d with [] => false | _ => true end
  | PMap d => match d with [] => false | _ => true end
  | POther _ => true
  end.

(** [d.get(key, default)] *)
Fixpoint dict_get (d : list (string * pyval)) (key : string) (default : pyval)
  : pyval :=
  match d with
  | [] => default
  | (k, v) :: d' => if String.eqb k key then v else dict_get d' key default
  end.

(** [d.get(key, default)] with a text [key], on a dict with keys of any
    class: only a key that is text can be equal to it. *)
Fixpoint map_get (d : list (pyval * pyval)) (key : string) (default : pyval)
  : pyval :=
  match d with
  | [] => default
  | (PStr k, v) :: d' =>
      if String.eqb k key then v else map_get d' key default
  | _ :: d' => map_get d' key default
  end.

(** [key in d] *)
Definition dict_has (d : list (string * pyval)) (key : string) : bool :=
  existsb (fun kv => String.eqb (fst kv) key) d.

(** [d[key] = v]: an existing key keeps its place, a new one goes last. *)
Fixpoint dict_set (d : list (string * pyval)) (key : string) (v : pyval)
  : list (string * pyval) :=
  match d with
  | [] => [(key, v)]
  | (k, w) :: d' =>
      if String.eqb k key then (k, v) :: d' else (k, w) :: dict_set d' key v
  end.

Definition nl : string := String (ascii_of_nat 10) EmptyString.

(** [sep.join(parts)] *)
Definition join (sep : string) (parts : list string) : string :=
  String.concat sep parts.

Definition str_of_Z (z : Z) : string := NilZero.string_of_int (Z.to_int z).

(* ------------------------------------------------------------------ *)
(** ** Exceptions and generators *)

(** The classes the handlers of the tools tell apart.  Every exception
    of the model is an instance of [Exception]. *)
Inductive exn_class : Type :=
| ParseError
| JSONDecodeError
| TypeError
| OtherException.

(** An exception object: its class, [type(e).__name__], [str(e)] and its
    [errors] attribute ([None] when the object has no such attribute). *)
Record exn : Type := mk_exn {
  exn_class_of : exn_class;
  exn_type_name : string;
  exn_str : string;
  exn_errors : option (list pyval)
}.

Definition is_ParseError (e : exn) : bool :=
  match exn_class_of e with ParseError => true | _ => false end.
Definition is_JSONDecodeError (e : exn) : bool :=
  match exn_class_of e with JSONDecodeError => true | _ => false end.
Definition is_TypeError (e : exn) : bool :=
  match exn_class_of e with TypeError => true | _ => false end.

(** Result of a call that either returns a value or raises. *)
Inductive result (A : Type) : Type :=
| Ok (a : A)
| Err (e : exn).
Arguments Ok {A} a.
Arguments Err {A} e.

Inductive ToolInvokeMessage : Type :=
| TextMessage (text : string)
| JsonMessage (json : pyval).

Definition create_text_message (text : string) : ToolInvokeMessage :=
  TextMessage text.
Definition create_json_message (json : pyval) : ToolInvokeMessage :=
  JsonMessage json.

(** How a piece of a generator body ends: it falls through with a value,
    executes [return], or raises. *)
Inductive outcome (A : Type) : Type :=
| Normal (a : A)
| Returned
| Raised (e : exn).
Arguments Normal {A} a.
Arguments Returned {A}.
Arguments Raised {A} e.

(** What a generator body does that its environment can observe: it
    yields a message to the caller, or it calls the library.  [Called]
    records every library call written with keyword arguments, under the
    name of the function and with the keywords as passed. *)
Inductive event : Type :=
| Yielded (m : ToolInvokeMessage)
| Called (fn : string) (kw : kwargs).

(** A generator body: its events so far, in order, and how it ended. *)
Definition Gen (A : Type) : Type := (list event * outcome A)%type.

Definition pure {A} (a : A) : Gen A := ([], Normal a).
Definition yield (m : ToolInvokeMessage) : Gen unit := ([Yielded m], Normal tt).
Definition return_ {A} : Gen A := ([], Returned).
Definition raise {A} (e : exn) : Gen A := ([], Raised e).

Definition bind {A B} (m : Gen A) (k : A -> Gen B) : Gen B :=
  let (events, o) := m in
  match o with
  | Normal a => let (events', o') := k a in ((events ++ events')%list, o')
  | Returned => (events, Returned)
  | Raised e => (events, Raised e)
  end.

(** [try: body except ... as e: handler e]; a handler that does not
    match the class re-raises. *)
Definition try_except {A} (body : Gen A) (handler : exn -> Gen A) : Gen A :=
  let (events, o) := body in
  match o with
  | Raised e =>
      let (events', o') := handler e in ((events ++ events')%list, o')
  | _ => (events, o)
  end.

Definition call {A} (r : result A) : Gen A :=
  match r with
  | Ok a => pure a
  | Err e => raise e
  end.

(** A library call with keyword arguments: recorded, then as [call]. *)
Definition lib_call {A} (fn : string) (kw : kwargs) (r : result A) : Gen A :=
  ([Called fn kw], match r with Ok a => Normal a | Err e => Raised e end).

Declare Scope gen_scope.
Delimit Scope gen_scope with gen.
Notation "x <- m ;; k" := (bind m (fun x => k))
  (at level 61, m at next level, right associativity) : gen_scope.
Notation "m ;;; k" := (bind m (fun _ => k))
  (at level 61, right associativity) : gen_scope.
Open Scope gen_scope.

(** [for x in xs: body x] *)
Fixpoint for_each {A} (xs : list A) (body : A -> Gen unit) : Gen unit :=
  match xs with
  | [] => pure tt
  | x :: xs' => body x ;;; for_each xs' body
  end.

(** A loop that builds a list: [acc.append(f x) for x in xs], where
    [f x] may raise. *)
Fixpoint map_result {A B} (f : A -> result B) (xs : list A) : result (list B) :=
  match xs with
  | [] => Ok []
  | x :: xs' =>
      match f x with
      | Err e => Err e
      | Ok b =>
          match map_result f xs' with
          | Err e => Err e
          | Ok bs => Ok (b :: bs)
          end
      end
  end.

(** A loop that builds a list from calls that yield or are recorded. *)
Fixpoint map_gen {A B} (f : A -> Gen B) (xs : list A) : Gen (list B) :=
  match xs with
  | [] => pure []
  | x :: xs' => b <- f x ;; bs <- map_gen f xs' ;; pure (b :: bs)
  end.

(** What the caller of the generator observes, and what the library
    was asked. *)
Definition messages {A} (g : Gen A) : list ToolInvokeMessage :=
  flat_map (fun ev => match ev with Yielded m => [m] | _ => [] end) (fst g).
Definition calls {A} (g : Gen A) : list (string * kwargs) :=
  flat_map (fun ev => match ev with Called fn kw => [(fn, kw)] | _ => [] end)
           (fst g).
Definition escaped {A} (g : Gen A) : option exn :=
  match snd g with
  | Raised e => Some e
  | _ => None
  end.

(* ------------------------------------------------------------------ *)
(** ** The library interface *)

(** The node classes of [sqlglot.exp] that the tools search for. *)
Module exp.
Inductive node_class : Type :=
| Table | Column | Select | Func | Join | Subquery | Where | Group | Order.
End exp.

(** The object returned by [sqlglot.executor.execute], as the Execute
    tool inspects it: its [columns] and [rows] attributes ([None] when
    [hasattr] is false), and the run of the loop [for row in result]:
    the rows that the loop gets through, in order, and the exception
    that ends it, if one does.  That exception is raised by the iterator
    (before any row, when the object cannot be iterated over) or inside
    the body of the loop by the row that comes next; the tool treats
    both alike.  [None] is the end of an iteration that is exhausted. *)
Record ResultObj : Type := mk_ResultObj {
  columns : option (list string);
  rows : option (list pyval);
  iterate : list pyval * option exn
}.

(** Everything the tools call that lives outside the repository.
    Keyword arguments are passed as they are written at the call site,
    [None] as [PNone].  Calls that run the tokenizer, parser, generator,
    optimizer or executor may raise; attribute reads do not.  An
    [Expression] is an immutable value: the optimizer works on a copy of
    its argument. *)
Class Library : Type := {
  (** [sqlglot.Expression] *)
  Expr : Type;
  (** builtin [str] on floats, lists, tuples and dicts *)
  str_other : pyval -> string;
  (** [list(x)] for an object of another class, given by its text, that
      has [__iter__] (a set, bytes, a range); [None] when it has not *)
  iter_other : string -> option (list pyval);
  (** [json.loads] *)
  json_loads : pyval -> result pyval;
  (** [sqlglot.parse_one(sql, dialect=...)] *)
  parse_one : pyval -> kwargs -> result (option Expr);
  (** [sqlglot.parse(sql, dialect=...)] *)
  parse : pyval -> kwargs -> result (list (option Expr));
  (** [sqlglot.transpile(sql, read=..., write=..., pretty=...)] *)
  transpile : pyval -> kwargs -> result (list string);
  (** [sqlglot.optimizer.optimize(expression, ...)] *)
  optimize : Expr -> kwargs -> result Expr;
  (** [sqlglot.executor.execute(sql, tables=..., dialect=...)] *)
  execute : pyval -> kwargs -> result (option ResultObj);
  (** [expression.find_all(cls)], in the order of the traversal *)
  find_all : Expr -> exp.node_class -> list Expr;
  (** [type(expression).__name__] *)
  type_name : Expr -> string;
  (** [hasattr(expression, attr)] *)
  hasattr : Expr -> string -> bool;
  (** a text attribute: [name], [alias], [alias_or_name], [table], [db],
      [catalog], [kind] *)
  getattr_str : Expr -> string -> string;
  (** [expression.this] *)
  this : Expr -> Expr;
  (** [expression.expressions] *)
  expressions : Expr -> list Expr;
  (** [expression.args.get(key)] for a child expression *)
  args_get_expr : Expr -> string -> option Expr;
  (** [expression.args.get(key, default)] for a plain value *)
  args_get : Expr -> string -> pyval -> pyval;
  (** [expression.sql(...)] *)
  sql : Expr -> kwargs -> result string;
  (** [str(expression)] *)
  expr_str : Expr -> result string
}.

Section Builtins.
Context {L : Library}.

(** builtin [str], also what an f-string applies to a value *)
Definition py_str (v : pyval) : string :=
  match v with
  | PNone => "None"
  | PBool true => "True"
  | PBool false => "False"
  | PInt z => str_of_Z z
  | PStr s => s
  | POther s => s
  | _ => str_other v
  end.

(** [len(xs)] as a Python int *)
Definition len {A} (xs : list A) : pyval := PInt (Z.of_nat (List.length xs)).

(** [x if x else None] on a text attribute *)
Definition or_None (s : string) : option string :=
  match s with
  | EmptyString => None
  | _ => Some s
  end.

Definition opt_json (o : option string) : pyval :=
  match o with
  | Some s => PStr s
  | None => PNone
  end.

(** [dialect if dialect else None] *)
Definition dialect_or_None (dialect : pyval) : pyval :=
  if truthy dialect then dialect else PNone.

(** [dialect if dialect else "auto-detected"] *)
Definition dialect_or_auto (dialect : pyval) : pyval :=
  if truthy dialect then dialect else PStr "auto-detected".

(** [e.this.sql() if hasattr(e, 'this') else str(e)] *)
Definition this_sql_or_str (e : Expr) : result string :=
  if hasattr e "this" then sql (this e) [] else expr_str e.

(** The payload both outer handlers of every tool build, with the
    [success] or [valid] flag as its first key. *)
Definition error_response (flag : string) (error_type : string) (e : exn)
  (sql_ : pyval) : pyval :=
  PDict [(flag, PBool false);
         ("error_type", PStr error_type);
         ("error_message", PStr (exn_str e));
         ("original_sql", sql_)].

(** [[x for x in xs if x is not None]] *)
Definition not_None {A} (xs : list (option A)) : list A :=
  flat_map (fun o => match o with Some x => [x] | None => [] end) xs.

(** The fenced block every tool that emits SQL text yields. *)
Definition sql_block (title : string) (text : string) : string :=
  nl ++ "**" ++ title ++ ":**" ++ nl ++ "```sql" ++ nl ++ text ++ nl ++ "```".

End Builtins.

(* ------------------------------------------------------------------ *)
(** ** tools/analyze_sql.py *)

Module AnalyzeSqlTool.
Section Tool.
Context {L : Library}.

(** The entries of [tables] and [columns].  Their values are text or
    [None], so Python's [==] on the dicts is equality of the records. *)
Record table_info : Type := mk_table_info {
  ti_name : string;
  ti_alias : option string;
  ti_db : option string;
  ti_catalog : option string
}.

Record column_info : Type := mk_column_info {
  ci_name : string;
  ci_table : option string;
  ci_alias_or_name : string
}.

Definition table_info_eq_dec (a b : table_info) : {a = b} + {a <> b}.
Proof. repeat decide equality. Defined.

Definition column_info_eq_dec (a b : column_info) : {a = b} + {a <> b}.
Proof. repeat decide equality. Defined.

(** [if info not in acc: acc.append(info)] *)
Definition append_new {A} (eq_dec : forall a b : A, {a = b} + {a <> b})
  (acc : list A) (info : A) : list A :=
  if in_dec eq_dec info acc then acc else (acc ++ [info])%list.

Definition make_table_info (table : Expr) : table_info :=
  {| ti_name := getattr_str table "name";
     ti_alias := or_None (getattr_str table "alias");
     ti_db := if hasattr table "db" then or_None (getattr_str table "db")
              else None;
     ti_catalog := if hasattr table "catalog"
                   then or_None (getattr_str table "catalog") else None |}.

Definition make_column_info (column : Expr) : column_info :=
  {| ci_name := getattr_str column "name";
     ci_table := or_None (getattr_str column "table");
     ci_alias_or_name := getattr_str column "alias_or_name" |}.

Definition extract_tables (parsed : Expr) : list table_info :=
  fold_left (fun acc table => append_new table_info_eq_dec acc
                                          (make_table_info table))
            (find_all parsed exp.Table) [].

Definition extract_columns (parsed : Expr) : list column_info :=
  fold_left (fun acc column => append_new column_info_eq_dec acc
                                           (make_column_info column))
            (find_all parsed exp.Column) [].

Definition table_info_json (t : table_info) : pyval :=
  PDict [("name", PStr (ti_name t));
         ("alias", opt_json (ti_alias t));
         ("db", opt_json (ti_db t));
         ("catalog", opt_json (ti_catalog t))].

Definition column_info_json (c : column_info) : pyval :=
  PDict [("name", PStr (ci_name c));
         ("table", opt_json (ci_table c));
         ("alias_or_name", PStr (ci_alias_or_name c))].

(** Aliases of the projections of every SELECT. *)
Definition has_alias (projection : Expr) : bool :=
  hasattr projection "alias" &&
  truthy (PStr (getattr_str projection "alias")).

Definition alias_entry (projection : Expr) : result pyval :=
  match this_sql_or_str projection with
  | Err e => Err e
  | Ok s => Ok (PDict [("alias", PStr (getattr_str projection "alias"));
                       ("expression", PStr s)])
  end.

Definition extract_aliases (parsed : Expr) : result (list pyval) :=
  map_result alias_entry
    (filter has_alias
       (flat_map expressions (find_all parsed exp.Select))).

(** Functions, one entry per class name; [func.sql()] is only called
    for a name not seen before. *)
Fixpoint extract_functions_from (funcs : list Expr)
  (functions : list (string * string)) : result (list (string * string)) :=
  match funcs with
  | [] => Ok functions
  | func :: rest =>
      let func_name := type_name func in
      if in_dec string_dec func_name (map fst functions)
      then extract_functions_from rest functions
      else match sql func [] with
           | Err e => Err e
           | Ok s => extract_functions_from rest
                       (functions ++ [(func_name, s)])%list
           end
  end.

Definition extract_functions (parsed : Expr) : result (list (string * string)) :=
  extract_functions_from (find_all parsed exp.Func) [].

Definition function_json (f : string * string) : pyval :=
  PDict [("name", PStr (fst f)); ("sql", PStr (snd f))].

(** Joins: one entry per join node. *)
Definition join_type (join_ : Expr) : string :=
  if hasattr join_ "kind" && truthy (PStr (getattr_str join_ "kind"))
  then getattr_str join_ "kind" else "INNER".

Definition join_info (join_ : Expr) : result pyval :=
  match (if hasattr (this join_) "name"
         then Ok (getattr_str (this join_) "name")
         else expr_str (this join_)) with
  | Err e => Err e
  | Ok table =>
      match (match args_get_expr join_ "on" with
             | Some on => match sql on [] with
                          | Err e => Err e
                          | Ok s => Ok (PStr s)
                          end
             | None => Ok PNone
             end) with
      | Err e => Err e
      | Ok on_condition =>
          Ok (PDict [("type", PStr (join_type join_));
                     ("table", PStr table);
                     ("on_condition", on_condition)])
      end
  end.

Definition extract_joins (parsed : Expr) : result (list pyval) :=
  map_result join_info (find_all parsed exp.Join).

Definition subquery_entry (subquery : Expr) : result pyval :=
  match this_sql_or_str subquery with
  | Err e => Err e
  | Ok s => Ok (PDict [("alias", opt_json (or_None (getattr_str subquery "alias")));
                       ("sql", PStr s)])
  end.

Definition extract_subqueries (parsed : Expr) : result (list pyval) :=
  map_result subquery_entry (find_all parsed exp.Subquery).

Definition where_entry (where_ : Expr) : result pyval :=
  match this_sql_or_str where_ with
  | Err e => Err e
  | Ok s => Ok (PStr s)
  end.

Definition extract_where (parsed : Expr) : result (list pyval) :=
  map_result where_entry (find_all parsed exp.Where).

Definition group_entry (expr : Expr) : result pyval :=
  match sql expr [] with
  | Err e => Err e
  | Ok s => Ok (PStr s)
  end.

Definition extract_group_by (parsed : Expr) : result (list pyval) :=
  map_result group_entry (flat_map expressions (find_all parsed exp.Group)).

Definition order_entry (expr : Expr) : result pyval :=
  match this_sql_or_str expr with
  | Err e => Err e
  | Ok s => Ok (PDict [("expression", PStr s);
                       ("desc", args_get expr "desc" (PBool false))])
  end.

Definition extract_order_by (parsed : Expr) : result (list pyval) :=
  map_result order_entry (flat_map expressions (find_all parsed exp.Order)).

(** The success path after a statement was parsed: the summary text
    and the response. *)
Definition summary (query_type : string) (tables : list table_info)
  (columns_ : list column_info) (joins functions : list pyval) : string :=
  "SQL Analysis:" ++ nl ++ "- " ++
  join (nl ++ "- ")
    ["Query Type: " ++ query_type;
     "Tables: " ++ py_str (len tables);
     "Columns: " ++ py_str (len columns_);
     "Joins: " ++ py_str (len joins);
     "Functions: " ++ py_str (len functions)].

Definition analyze (parsed : Expr) (sql_ dialect : pyval) : Gen unit :=
  let tables := extract_tables parsed in
  let columns_ := extract_columns parsed in
  aliases <- call (extract_aliases parsed) ;;
  functions <- call (extract_functions parsed) ;;
  joins <- call (extract_joins parsed) ;;
  subqueries <- call (extract_subqueries parsed) ;;
  let query_type := type_name parsed in
  where_conditions <- call (extract_where parsed) ;;
  group_by <- call (extract_group_by parsed) ;;
  order_by <- call (extract_order_by parsed) ;;
  let response :=
    PDict [("query_type", PStr query_type);
           ("tables", PList (map table_info_json tables));
           ("columns", PList (map column_info_json columns_));
           ("aliases", PList aliases);
           ("functions", PList (map function_json functions));
           ("joins", PList joins);
           ("subqueries", PList subqueries);
           ("where_conditions", PList where_conditions);
           ("group_by", PList group_by);
           ("order_by", PList order_by);
           ("dialect", dialect_or_auto dialect);
           ("original_sql", sql_)] in
  yield (create_text_message
           (summary query_type tables columns_ joins
                    (map function_json functions))) ;;;
  yield (create_json_message response).

Definition on_error (e : exn) (sql_ : pyval) : Gen unit :=
  if is_ParseError e then
    yield (create_text_message ("SQL Parse Error: " ++ exn_str e)) ;;;
    yield (create_json_message (error_response "success" "ParseError" e sql_))
  else
    yield (create_text_message ("Error analyzing SQL: " ++ exn_str e)) ;;;
    yield (create_json_message
             (error_response "success" (exn_type_name e) e sql_)).

(** The [try] block. *)
Definition try_body (sql_ dialect : pyval) : Gen unit :=
  let parse_dialect := dialect_or_None dialect in
  parsed <- lib_call "parse_one" [("dialect", parse_dialect)]
              (parse_one sql_ [("dialect", parse_dialect)]) ;;
  match parsed with
  | None =>
      yield (create_text_message "Failed to parse SQL query.") ;;;
      return_
  | Some parsed => analyze parsed sql_ dialect
  end.

Definition _invoke (tool_parameters : kwargs) : Gen unit :=
  let sql_ := dict_get tool_parameters "sql" (PStr EmptyString) in
  let dialect := dict_get tool_parameters "dialect" (PStr EmptyString) in
  if negb (truthy sql_) then
    yield (create_text_message "SQL query is required.") ;;; return_
  else
    try_except (try_body sql_ dialect) (fun e => on_error e sql_).

End Tool.
End AnalyzeSqlTool.

(* ------------------------------------------------------------------ *)
(** ** tools/format_sql.py *)

Module FormatSqlTool.
Section Tool.
Context {L : Library}.

Definition on_error (e : exn) (sql_ : pyval) : Gen unit :=
  if is_ParseError e then
    yield (create_text_message ("SQL Parse Error: " ++ exn_str e)) ;;;
    yield (create_json_message (error_response "success" "ParseError" e sql_))
  else
    yield (create_text_message ("Error formatting SQL: " ++ exn_str e)) ;;;
    yield (create_json_message
             (error_response "success" (exn_type_name e) e sql_)).

(** The [try] block. *)
Definition try_body (sql_ dialect identify normalize : pyval) : Gen unit :=
  let parse_dialect := dialect_or_None dialect in
  parsed <- lib_call "parse" [("dialect", parse_dialect)]
              (parse sql_ [("dialect", parse_dialect)]) ;;
  match parsed with
  | [] =>
      yield (create_text_message "Failed to parse SQL query.") ;;;
      return_
  | _ =>
      formatted_statements <-
        map_gen
          (fun statement =>
             let kw := [("dialect", parse_dialect);
                        ("pretty", PBool true);
                        ("identify", identify);
                        ("normalize", normalize)] in
             lib_call "sql" kw (sql statement kw))
          (not_None parsed) ;;
      match formatted_statements with
      | [] =>
          yield (create_text_message "No valid SQL statements found.") ;;;
          return_
      | _ =>
          let result_sql := join (";" ++ nl ++ nl) formatted_statements in
          let response :=
            PDict [("original_sql", sql_);
                   ("formatted_sql", PStr result_sql);
                   ("dialect", dialect_or_auto dialect);
                   ("options", PDict [("identify", identify);
                                      ("normalize", normalize)]);
                   ("statement_count", len formatted_statements)] in
          yield (create_text_message
                   ("Successfully formatted " ++
                    py_str (len formatted_statements) ++
                    " SQL statement(s)")) ;;;
          yield (create_text_message
                   (sql_block "Formatted SQL" result_sql)) ;;;
          yield (create_json_message response)
      end
  end.

Definition _invoke (tool_parameters : kwargs) : Gen unit :=
  let sql_ := dict_get tool_parameters "sql" (PStr EmptyString) in
  let dialect := dict_get tool_parameters "dialect" (PStr EmptyString) in
  let identify := dict_get tool_parameters "identify" (PBool false) in
  let normalize := dict_get tool_parameters "normalize" (PBool false) in
  if negb (truthy sql_) then
    yield (create_text_message "SQL query is required.") ;;; return_
  else
    try_except (try_body sql_ dialect identify normalize)
               (fun e => on_error e sql_).

End Tool.
End FormatSqlTool.

(* ------------------------------------------------------------------ *)
(** ** tools/transpile_sql.py *)

Module TranspileSqlTool.
Section Tool.
Context {L : Library}.

Definition on_error (e : exn) (sql_ : pyval) : Gen unit :=
  if is_ParseError e then
    yield (create_text_message ("SQL Parse Error: " ++ exn_str e)) ;;;
    yield (create_json_message (error_response "success" "ParseError" e sql_))
  else
    yield (create_text_message ("Error transpiling SQL: " ++ exn_str e)) ;;;
    yield (create_json_message
             (error_response "success" (exn_type_name e) e sql_)).

(** The [try] block. *)
Definition try_body (sql_ source_dialect target_dialect pretty : pyval)
  : Gen unit :=
  let read_dialect := dialect_or_None source_dialect in
  let kw := [("read", read_dialect);
             ("write", target_dialect);
             ("pretty", pretty)] in
  transpiled <- lib_call "transpile" kw (transpile sql_ kw) ;;
  match transpiled with
  | [] =>
      yield (create_text_message "Failed to transpile SQL query.") ;;;
      return_
  | first :: rest =>
      let result_sql :=
        match rest with
        | [] => first
        | _ => join (";" ++ nl ++ nl) transpiled
        end in
      let response :=
        PDict [("original_sql", sql_);
               ("transpiled_sql", PStr result_sql);
               ("source_dialect", dialect_or_auto source_dialect);
               ("target_dialect", target_dialect);
               ("statement_count", len transpiled)] in
      yield (create_text_message
               ("Successfully transpiled SQL from " ++
                py_str (dialect_or_auto source_dialect) ++ " to " ++
                py_str target_dialect)) ;;;
      yield (create_text_message
               (sql_block "Transpiled SQL" result_sql)) ;;;
      yield (create_json_message response)
  end.

Definition _invoke (tool_parameters : kwargs) : Gen unit :=
  let sql_ := dict_get tool_parameters "sql" (PStr EmptyString) in
  let source_dialect :=
    dict_get tool_parameters "source_dialect" (PStr EmptyString) in
  let target_dialect :=
    dict_get tool_parameters "target_dialect" (PStr EmptyString) in
  let pretty := dict_get tool_parameters "pretty" (PBool true) in
  if negb (truthy sql_) then
    yield (create_text_message "SQL query is required.") ;;; return_
  else if negb (truthy target_dialect) then
    yield (create_text_message "Target dialect is required.") ;;; return_
  else
    try_except (try_body sql_ source_dialect target_dialect pretty)
               (fun e => on_error e sql_).

End Tool.
End TranspileSqlTool.

(* ------------------------------------------------------------------ *)
(** ** tools/validate_sql.py *)

Module ValidateSqlTool.
Section Tool.
Context {L : Library}.

(** [enumerate(valid_statements)], building [statement_info]; [i] is the
    index of the first statement of [stmts]. *)
Fixpoint statement_info_from (i : nat) (stmts : list Expr)
  : Gen (list (list (string * pyval))) :=
  match stmts with
  | [] => pure []
  | stmt :: rest =>
      let stmt_type := type_name stmt in
      s <- lib_call "sql" [("pretty", PBool true)]
             (sql stmt [("pretty", PBool true)]) ;;
      infos <- statement_info_from (S i) rest ;;
      pure ([("index", PInt (Z.of_nat i + 1));
             ("type", PStr stmt_type);
             ("sql", PStr s)] :: infos)
  end.

(** One entry of [error_details], for an element of [e.errors] that is
    a dict, read with its [get]; other elements are skipped. *)
Definition error_fields (get : string -> pyval -> pyval) : pyval :=
  PDict [("description", get "description" (PStr "Unknown error"));
         ("line", get "line" PNone);
         ("col", get "col" PNone);
         ("start_context", get "start_context" (PStr EmptyString));
         ("highlight", get "highlight" (PStr EmptyString));
         ("end_context", get "end_context" (PStr EmptyString))].

Definition error_detail (err : pyval) : list pyval :=
  match err with
  | PDict d => [error_fields (dict_get d)]
  | PMap d => [error_fields (map_get d)]
  | _ => []
  end.

Definition error_info (e : exn) (sql_ dialect : pyval) : list (string * pyval) :=
  let info :=
    [("valid", PBool false);
     ("error_type", PStr "ParseError");
     ("error_message", PStr (exn_str e));
     ("original_sql", sql_);
     ("dialect", dialect_or_auto dialect)] in
  match exn_errors e with
  | Some (err :: errs) =>
      dict_set info "error_details" (PList (flat_map error_detail (err :: errs)))
  | _ => info
  end.

Definition on_error (e : exn) (sql_ dialect : pyval) : Gen unit :=
  if is_ParseError e then
    yield (create_text_message ("✗ SQL Validation Failed: " ++ exn_str e)) ;;;
    yield (create_json_message (PDict (error_info e sql_ dialect)))
  else
    yield (create_text_message ("Error validating SQL: " ++ exn_str e)) ;;;
    yield (create_json_message
             (error_response "valid" (exn_type_name e) e sql_)).

(** The [try] block. *)
Definition try_body (sql_ dialect : pyval) : Gen unit :=
  let parse_dialect := dialect_or_None dialect in
  parsed <- lib_call "parse" [("dialect", parse_dialect)]
              (parse sql_ [("dialect", parse_dialect)]) ;;
  let valid_statements := not_None parsed in
  match valid_statements with
  | [] =>
      yield (create_text_message
               "No valid SQL statements found in the query.") ;;;
      yield (create_json_message
               (PDict [("valid", PBool false);
                       ("error", PStr "No valid SQL statements found");
                       ("original_sql", sql_)])) ;;;
      return_
  | _ =>
      let warnings : list pyval := [] in
      statement_info <- statement_info_from 0 valid_statements ;;
      let response :=
        PDict [("valid", PBool true);
               ("dialect", dialect_or_auto dialect);
               ("statement_count", len valid_statements);
               ("statements", PList (map PDict statement_info));
               ("warnings", PList warnings);
               ("original_sql", sql_)] in
      let summary :=
        "✓ SQL is valid! Found " ++ py_str (len valid_statements) ++
        " statement(s)." in
      let summary :=
        if truthy (PList warnings)
        then summary ++ " (" ++ py_str (len warnings) ++ " warning(s))"
        else summary in
      yield (create_text_message summary) ;;;
      let stmt_types :=
        map (fun s => py_str (dict_get s "type" PNone)) statement_info in
      yield (create_text_message
               ("Statement types: " ++ join ", " stmt_types)) ;;;
      yield (create_json_message response)
  end.

Definition _invoke (tool_parameters : kwargs) : Gen unit :=
  let sql_ := dict_get tool_parameters "sql" (PStr EmptyString) in
  let dialect := dict_get tool_parameters "dialect" (PStr EmptyString) in
  if negb (truthy sql_) then
    yield (create_text_message "SQL query is required.") ;;; return_
  else
    try_except (try_body sql_ dialect) (fun e => on_error e sql_ dialect).

End Tool.
End ValidateSqlTool.

(* ------------------------------------------------------------------ *)
(** ** tools/optimize_sql.py *)

Module OptimizeSqlTool.
Section Tool.
Context {L : Library}.

Definition on_error (e : exn) (sql_ : pyval) : Gen unit :=
  if is_ParseError e then
    yield (create_text_message ("SQL Parse Error: " ++ exn_str e)) ;;;
    yield (create_json_message (error_response "success" "ParseError" e sql_))
  else
    yield (create_text_message ("Error optimizing SQL: " ++ exn_str e)) ;;;
    yield (create_json_message
             (error_response "success" (exn_type_name e) e sql_)).

(** [schema = None; if schema_str: schema = json.loads(schema_str)],
    with the handler of the decoding error. *)
Definition load_schema (schema_str : pyval) : Gen pyval :=
  if truthy schema_str then
    try_except (call (json_loads schema_str))
      (fun e =>
         if is_JSONDecodeError e then
           yield (create_text_message ("Invalid schema JSON: " ++ exn_str e)) ;;;
           return_
         else raise e)
  else pure PNone.

(** The keywords of the call of the optimizer. *)
Definition optimize_kwargs (schema parse_dialect : pyval) : kwargs :=
  if truthy schema
  then [("schema", schema); ("dialect", parse_dialect)]
  else [("dialect", parse_dialect)].

Definition note_text (opt_error : exn) : string :=
  "Note: Full optimization requires schema. Basic formatting applied. (" ++
  exn_str opt_error ++ ")".

(** The inner [try] around the optimizer: the optimized expression and
    the note. *)
Definition run_optimizer (parsed : Expr) (schema parse_dialect : pyval)
  : Gen (Expr * pyval) :=
  let kw := optimize_kwargs schema parse_dialect in
  try_except
    (optimized <- lib_call "optimize" kw (optimize parsed kw) ;;
     pure (optimized, PNone))
    (fun opt_error => pure (parsed, PStr (note_text opt_error))).

(** What follows the optimizer: rendering and the three messages. *)
Definition respond (sql_ dialect schema parse_dialect : pyval)
  (optimized : Expr) (optimization_note : pyval) : Gen unit :=
  let kw := [("dialect", parse_dialect); ("pretty", PBool true)] in
  optimized_sql <- lib_call "sql" kw (sql optimized kw) ;;
  let response :=
    [("original_sql", sql_);
     ("optimized_sql", PStr optimized_sql);
     ("dialect", dialect_or_auto dialect);
     ("schema_provided", PBool (truthy schema));
     ("optimization_applied", PBool true)] in
  let response :=
    if truthy optimization_note
    then dict_set response "note" optimization_note
    else response in
  let summary := "Successfully optimized SQL query" in
  let summary :=
    if truthy optimization_note
    then summary ++ nl ++ py_str optimization_note
    else summary in
  yield (create_text_message summary) ;;;
  yield (create_text_message (sql_block "Optimized SQL" optimized_sql)) ;;;
  yield (create_json_message (PDict response)).

(** The [try] block. *)
Definition try_body (sql_ dialect schema_str : pyval) : Gen unit :=
  let parse_dialect := dialect_or_None dialect in
  parsed <- lib_call "parse_one" [("dialect", parse_dialect)]
              (parse_one sql_ [("dialect", parse_dialect)]) ;;
  match parsed with
  | None =>
      yield (create_text_message "Failed to parse SQL query.") ;;;
      return_
  | Some parsed =>
      schema <- load_schema schema_str ;;
      optimized_note <- run_optimizer parsed schema parse_dialect ;;
      respond sql_ dialect schema parse_dialect
              (fst optimized_note) (snd optimized_note)
  end.

Definition _invoke (tool_parameters : kwargs) : Gen unit :=
  let sql_ := dict_get tool_parameters "sql" (PStr EmptyString) in
  let dialect := dict_get tool_parameters "dialect" (PStr EmptyString) in
  let schema_str := dict_get tool_parameters "schema" (PStr EmptyString) in
  if negb (truthy sql_) then
    yield (create_text_message "SQL query is required.") ;;; return_
  else
    try_except (try_body sql_ dialect schema_str) (fun e => on_error e sql_).

End Tool.
End OptimizeSqlTool.

(* ------------------------------------------------------------------ *)
(** ** tools/execute_sql.py *)

Module ExecuteSqlTool.
Section Tool.
Context {L : Library}.

(** [_serialize_value] *)
Fixpoint _serialize_value (val : pyval) : pyval :=
  match val with
  | PNone => PNone
  | PStr _ | PInt _ | PFloat _ | PBool _ => val
  | PList l | PTuple l => PList (map _serialize_value l)
  | PDict d => PDict (map (fun kv => (fst kv, _serialize_value (snd kv))) d)
  | PMap d => PMap (map (fun kv => (fst kv, _serialize_value (snd kv))) d)
  | POther repr => PStr repr
  end.

(** The dict built for one row: for every column, in order, the value
    at its index, or [None] past the end of the row. *)
Definition row_to_dict (columns_ : list string) (row : list pyval)
  : list (string * pyval) :=
  fold_left
    (fun row_dict ic =>
       dict_set row_dict (snd ic) (_serialize_value (nth (fst ic) row PNone)))
    (combine (seq 0 (List.length columns_)) columns_) [].

Definition value_dict (row : pyval) : list (string * pyval) :=
  [("value", _serialize_value row)].

(** A row of [result.rows] *)
Definition convert_row (columns_ : list string) (row : pyval)
  : list (string * pyval) :=
  match row with
  | PTuple items => row_to_dict columns_ items
  | _ => value_dict row
  end.

(** [list(row)] for a row that has [__iter__] and is not text; [None]
    for the rows that are text or cannot be iterated over.  The list of
    a dict is its keys. *)
Definition row_list (row : pyval) : option (list pyval) :=
  match row with
  | PList items | PTuple items => Some items
  | PDict d => Some (map (fun kv => PStr (fst kv)) d)
  | PMap d => Some (map fst d)
  | POther repr => iter_other repr
  | _ => None
  end.

(** A row met when iterating over the result itself.  A tuple is
    indexed as it is when there are columns, and goes through [list(row)]
    like every other iterable when there are none; both give the same
    dict. *)
Definition convert_iterated_row (columns_ : list string) (row : pyval)
  : list (string * pyval) :=
  match row_list row with
  | Some row_list_ => row_to_dict columns_ row_list_
  | None => value_dict row
  end.

(** [columns] and [result_data] for what the executor returned.  The
    rows converted before a [TypeError] ended the iteration are kept; any
    other exception leaves the [try] block. *)
Definition convert_result (result_ : option ResultObj)
  : result (list string * list (list (string * pyval))) :=
  match result_ with
  | None => Ok ([], [])
  | Some r =>
      let columns_ := match columns r with Some cs => cs | None => [] end in
      match rows r with
      | Some rs => Ok (columns_, map (convert_row columns_) rs)
      | None =>
          let result_data :=
            map (convert_iterated_row columns_) (fst (iterate r)) in
          match snd (iterate r) with
          | None => Ok (columns_, result_data)
          | Some e =>
              if is_TypeError e then Ok (columns_, result_data) else Err e
          end
      end
  end.

(** The markdown table of the first 50 rows. *)
Definition table_str (columns_ : list string)
  (result_data : list (list (string * pyval))) : string :=
  let header := "| " ++ join " | " columns_ ++ " |" in
  let separator := "| " ++ join " | " (map (fun _ => "---") columns_) ++ " |" in
  let rows_ :=
    map (fun row =>
           "| " ++
           join " | "
             (map (fun col => py_str (dict_get row col (PStr EmptyString)))
                  columns_) ++
           " |")
        (firstn 50 result_data) in
  let table := join nl (header :: separator :: rows_) in
  if (50 <? List.length result_data)%nat
  then table ++ nl ++ "... and " ++
       str_of_Z (Z.of_nat (List.length result_data) - 50) ++ " more rows"
  else table.

(** The check of the shape of [tables]: every table a list, every row a
    dict. *)
Definition check_rows (table_name : string) (table_data : list pyval)
  : Gen unit :=
  for_each table_data
    (fun row =>
       match row with
       | PDict _ | PMap _ => pure tt
       | _ =>
           yield (create_text_message
                    ("Each row in table '" ++ table_name ++
                     "' must be an object.")) ;;;
           return_
       end).

Definition check_tables (tables : list (string * pyval)) : Gen unit :=
  for_each tables
    (fun item =>
       let table_name := fst item in
       match snd item with
       | PList table_data => check_rows table_name table_data
       | _ =>
           yield (create_text_message
                    ("Table '" ++ table_name ++
                     "' must be an array of row objects.")) ;;;
           return_
       end).

Definition load_tables (tables_str : pyval) : Gen pyval :=
  try_except (call (json_loads tables_str))
    (fun e =>
       if is_JSONDecodeError e then
         yield (create_text_message ("Invalid tables JSON: " ++ exn_str e)) ;;;
         return_
       else raise e).

(** The inner [try] around the executor. *)
Definition run_query (sql_ tables parse_dialect : pyval)
  : Gen (option ResultObj) :=
  let kw := [("tables", tables); ("dialect", parse_dialect)] in
  try_except (lib_call "execute" kw (execute sql_ kw))
    (fun exec_error =>
       yield (create_text_message
                ("Query execution failed: " ++ exn_str exec_error)) ;;;
       yield (create_json_message
                (PDict [("success", PBool false);
                        ("error", PStr (exn_str exec_error));
                        ("original_sql", sql_)])) ;;;
       return_).

Definition on_error (e : exn) (sql_ : pyval) : Gen unit :=
  if is_ParseError e then
    yield (create_text_message ("SQL Parse Error: " ++ exn_str e)) ;;;
    yield (create_json_message (error_response "success" "ParseError" e sql_))
  else
    yield (create_text_message ("Error executing SQL: " ++ exn_str e)) ;;;
    yield (create_json_message
             (error_response "success" (exn_type_name e) e sql_)).

(** What follows a successful execution: the summary, the markdown
    table when there is data, and the response. *)
Definition respond (sql_ dialect : pyval) (columns_ : list string)
  (result_data : list (list (string * pyval))) : Gen unit :=
  let response :=
    PDict [("success", PBool true);
           ("row_count", len result_data);
           ("columns", PList (map PStr columns_));
           ("data", PList (map PDict result_data));
           ("original_sql", sql_);
           ("dialect", dialect_or_auto dialect)] in
  yield (create_text_message
           ("Query executed successfully. Returned " ++
            py_str (len result_data) ++ " row(s).")) ;;;
  (match result_data, columns_ with
   | _ :: _, _ :: _ =>
       yield (create_text_message
                (nl ++ "**Results:**" ++ nl ++ table_str columns_ result_data))
   | _, _ => pure tt
   end) ;;;
  yield (create_json_message response).

(** [tables.items()] when [tables] is a dict, each table under the text
    of its name, as the f-strings of the check show it. *)
Definition table_items (tables : pyval) : option (list (string * pyval)) :=
  match tables with
  | PDict items => Some items
  | PMap items => Some (map (fun kv => (py_str (fst kv), snd kv)) items)
  | _ => None
  end.

(** The [try] block. *)
Definition try_body (sql_ tables_str dialect : pyval) : Gen unit :=
  tables <- load_tables tables_str ;;
  match table_items tables with
  | Some items =>
      check_tables items ;;;
      let parse_dialect := dialect_or_None dialect in
      result_ <- run_query sql_ tables parse_dialect ;;
      converted <- call (convert_result result_) ;;
      respond sql_ dialect (fst converted) (snd converted)
  | None =>
      yield (create_text_message
               "Tables must be a JSON object with table names as keys.") ;;;
      return_
  end.

Definition _invoke (tool_parameters : kwargs) : Gen unit :=
  let sql_ := dict_get tool_parameters "sql" (PStr EmptyString) in
  let tables_str := dict_get tool_parameters "tables" (PStr EmptyString) in
  let dialect := dict_get tool_parameters "dialect" (PStr EmptyString) in
  if negb (truthy sql_) then
    yield (create_text_message "SQL query is required.") ;;; return_
  else if negb (truthy tables_str) then
    yield (create_text_message "Data tables are required.") ;;; return_
  else
    try_except (try_body sql_ tables_str dialect) (fun e => on_error e sql_).

End Tool.
End ExecuteSqlTool.

(* ------------------------------------------------------------------ *)
(** ** provider/sqlglot.py *)

Module SqlglotProvider.
Section Provider.
Context {L : Library}.

(** [isinstance(e, ImportError)], and how [import sqlglot] ends. *)
Variable is_ImportError : exn -> bool.
Variable import_sqlglot : result unit.

(** [ToolProviderCredentialValidationError(message)] *)
Definition ToolProviderCredentialValidationError (message : string) : exn :=
  {| exn_class_of := OtherException;
     exn_type_name := "ToolProviderCredentialValidationError";
     exn_str := message;
     exn_errors := None |}.

(** The [try] block: the import, the test transpilation and the check
    of its result. *)
Definition try_body : result unit :=
  match import_sqlglot with
  | Err e => Err e
  | Ok _ =>
      let test_sql := PStr "SELECT 1" in
      match transpile test_sql [("read", PStr "mysql");
                                ("write", PStr "postgres")] with
      | Err e => Err e
      | Ok [] =>
          Err (ToolProviderCredentialValidationError
                 ("SQLGlot library validation failed: " ++
                  "unable to transpile test query"))
      | Ok (_ :: _) => Ok tt
      end
  end.

Definition _validate_credentials (credentials : kwargs) : result unit :=
  match try_body with
  | Ok tt => Ok tt
  | Err e =>
      if is_ImportError e then
        Err (ToolProviderCredentialValidationError
               ("SQLGlot library is not installed: " ++ exn_str e))
      else
        Err (ToolProviderCredentialValidationError
               ("SQLGlot validation failed: " ++ exn_str e))
  end.

End Provider.
End SqlglotProvider.

(* ------------------------------------------------------------------ *)
(** ** A small library instance

    An implementation of [Library] on which the tools can be run: a
    handful of statements it can parse, two texts it rejects, an
    executor for three queries, a decoder for two JSON texts.  It is the
    test double of the development; the theorems hold for every library
    and only the evaluations on the samples run this one. *)

Module Fixture.

Inductive node : Type :=
| Node (cls : option exp.node_class) (type_ : string) (text : string)
       (attrs : list (string * string)) (children : list node).

Definition node_cls (n : node) := let (c, _, _, _, _) := n in c.
Definition node_type (n : node) := let (_, t, _, _, _) := n in t.
Definition node_text (n : node) := let (_, _, t, _, _) := n in t.
Definition node_attrs (n : node) := let (_, _, _, a, _) := n in a.
Definition node_children (n : node) := let (_, _, _, _, c) := n in c.

Definition class_eqb (a b : exp.node_class) : bool :=
  match a, b with
  | exp.Table, exp.Table | exp.Column, exp.Column | exp.Select, exp.Select
  | exp.Func, exp.Func | exp.Join, exp.Join | exp.Subquery, exp.Subquery
  | exp.Where, exp.Where | exp.Group, exp.Group | exp.Order, exp.Order => true
  | _, _ => false
  end.

Fixpoint attr (attrs : list (string * string)) (key : string) : string :=
  match attrs with
  | [] => EmptyString
  | (k, v) :: rest => if String.eqb k key then v else attr rest key
  end.

Fixpoint walk (n : node) : list node :=
  match n with
  | Node _ _ _ _ children => n :: flat_map walk children
  end.

Definition fx_find_all (n : node) (c : exp.node_class) : list node :=
  filter (fun m => match node_cls m with
                   | Some c' => class_eqb c c'
                   | None => false
                   end) (walk n).

(** The child stored under a key of [args]. *)
Definition arg (n : node) (key : string) : list node :=
  filter (fun m => String.eqb (attr (node_attrs m) "arg") key)
         (node_children n).

Definition fx_hasattr (n : node) (a : string) : bool :=
  existsb (String.eqb a) ["name"; "alias"; "alias_or_name"; "this"] ||
  existsb (fun kv => String.eqb (fst kv) a) (node_attrs n).

Definition fx_this (n : node) : node := hd n (arg n "this").

Definition column (table name : string) : node :=
  Node (Some exp.Column) "Column" (table ++ "." ++ name)
       [("name", name); ("table", table); ("alias_or_name", name);
        ("arg", "expressions")] [].

Definition table (name alias : string) (role : string) : node :=
  Node (Some exp.Table) "Table" name
       [("name", name); ("alias", alias); ("alias_or_name", name);
        ("db", EmptyString); ("catalog", EmptyString); ("arg", role)] [].

Definition select_1 : node :=
  Node (Some exp.Select) "Select" "SELECT 1" []
       [Node None "Literal" "1" [("name", "1"); ("arg", "expressions")] []].

Definition select_twice : node :=
  Node (Some exp.Select) "Select" "SELECT a.x, a.x FROM t AS a" []
       [column "a" "x"; column "a" "x"; table "t" "a" "from"].

Definition select_join : node :=
  Node (Some exp.Select) "Select" "SELECT * FROM a JOIN b ON a.id = b.id" []
       [Node None "Star" "*" [("arg", "expressions")] [];
        table "a" EmptyString "from";
        Node (Some exp.Join) "Join" "JOIN b ON a.id = b.id"
             [("kind", EmptyString); ("arg", "joins")]
             [table "b" EmptyString "this";
              Node None "EQ" "a.id = b.id" [("arg", "on")]
                   [column "a" "id"; column "b" "id"]]].

Definition sum_query : string := "SELECT SUM(v) AS total FROM t".

Definition statements : list (string * node) :=
  [("SELECT 1", select_1);
   ("SELECT a.x, a.x FROM t a", select_twice);
   ("SELECT * FROM a JOIN b ON a.id=b.id", select_join)].

Fixpoint lookup {A} (table_ : list (string * A)) (key : string) : option A :=
  match table_ with
  | [] => None
  | (k, v) :: rest => if String.eqb k key then Some v else lookup rest key
  end.

(** The error of the parser on [SELECT FROM].  After [FROM] the parser
    finds no table name and reports the last token it read: one entry,
    with the line of [FROM] and the column on which it ends, and
    [SELECT ] and [FROM] as the context.  The message repeats the entry
    and shows the context, the token underlined by terminal escapes. *)
Definition esc : string := String (ascii_of_nat 27) EmptyString.

Definition parse_error_entry : list (string * pyval) :=
  [("description", PStr "Expected table name but got None");
   ("line", PInt 1);
   ("col", PInt 11);
   ("start_context", PStr "SELECT ");
   ("highlight", PStr "FROM");
   ("end_context", PStr EmptyString);
   ("into_expression", PNone)].

Definition parse_error : exn :=
  {| exn_class_of := ParseError;
     exn_type_name := "ParseError";
     exn_str := "Expected table name but got None. Line 1, Col: 11." ++ nl ++
                "  SELECT " ++ esc ++ "[4mFROM" ++ esc ++ "[0m";
     exn_errors := Some [PDict parse_error_entry] |}.

Definition other_error (name msg : string) : exn :=
  {| exn_class_of := OtherException;
     exn_type_name := name;
     exn_str := msg;
     exn_errors := None |}.

(** The error of the tokenizer on [SELECT 'abc], a string that is not
    closed.  A [TokenError] is no [ParseError] and has no [errors]. *)
Definition token_error : exn :=
  other_error "TokenError" "Error tokenizing 'SELECT 'ab'".

(** The texts that the fixture rejects as sqlglot does. *)
Definition rejected : list (string * exn) :=
  [("SELECT FROM", parse_error);
   ("SELECT 'abc", token_error)].

(** What the fixture answers to a text that is not in its tables. *)
Definition unknown_text : exn :=
  other_error "NotImplementedError" "text unknown to the fixture".

Definition fx_parse_one (sql_ : pyval) (kw : kwargs) : result (option node) :=
  match sql_ with
  | PStr text =>
      match lookup statements text, lookup rejected text with
      | Some n, _ => Ok (Some n)
      | None, Some e => Err e
      | None, None => Err unknown_text
      end
  | _ => Err (other_error "TypeError" "sql must be text")
  end.

Definition fx_parse (sql_ : pyval) (kw : kwargs) : result (list (option node)) :=
  match fx_parse_one sql_ kw with
  | Ok n => Ok [n]
  | Err e => Err e
  end.

Definition fx_transpile (sql_ : pyval) (kw : kwargs) : result (list string) :=
  match fx_parse_one sql_ kw with
  | Ok (Some n) => Ok [node_text n]
  | Ok None => Ok []
  | Err e => Err e
  end.

(** The tables of the executor example, and the JSON text that stands
    for them. *)
Definition dq : string := String (ascii_of_nat 34) EmptyString.

Definition tables_text : string :=
  "{" ++ dq ++ "t" ++ dq ++ ":[{" ++ dq ++ "id" ++ dq ++ ":1," ++
  dq ++ "v" ++ dq ++ ":10},{" ++ dq ++ "id" ++ dq ++ ":2," ++
  dq ++ "v" ++ dq ++ ":20}]}".

Definition tables_value : pyval :=
  PDict [("t", PList [PDict [("id", PInt 1); ("v", PInt 10)];
                      PDict [("id", PInt 2); ("v", PInt 20)]])].

Definition fx_json_loads (text : pyval) : result pyval :=
  match text with
  | PStr s =>
      if String.eqb s tables_text then Ok tables_value
      else if String.eqb s "{}" then Ok (PDict [])
      else Err {| exn_class_of := JSONDecodeError;
                  exn_type_name := "JSONDecodeError";
                  exn_str := "Expecting value: line 1 column 1 (char 0)";
                  exn_errors := None |}
  | _ => Err {| exn_class_of := TypeError;
               exn_type_name := "TypeError";
               exn_str := "the JSON object must be str, bytes or bytearray";
               exn_errors := None |}
  end.

(** The executor.  It knows three queries: the sum of column [v] over
    the rows of table [t], the constant [SELECT 1], and a query on a
    table that [tables] does not hold, on which it raises as the
    executor of sqlglot does when it cannot resolve a column. *)
Definition missing_query : string := "SELECT x FROM missing".

Definition unresolved_column : exn :=
  other_error "OptimizeError"
    ("Column '" ++ dq ++ "x" ++ dq ++ "' could not be resolved").

Definition sum_v (rows_ : list pyval) : Z :=
  fold_left (fun acc row =>
               match row with
               | PDict d => match dict_get d "v" PNone with
                            | PInt z => acc + z
                            | _ => acc
                            end
               | _ => acc
               end) rows_ 0.

(** A table object of sqlglot: it has [columns] and [rows], and
    iterating over it gives its rows. *)
Definition table_object (columns_ : list string) (rows_ : list pyval)
  : ResultObj :=
  {| columns := Some columns_; rows := Some rows_; iterate := (rows_, None) |}.

Definition fx_execute (sql_ : pyval) (kw : kwargs) : result (option ResultObj) :=
  match sql_, dict_get kw "tables" PNone with
  | PStr text, PDict tables =>
      if String.eqb text "SELECT 1" then
        Ok (Some (table_object ["1"] [PTuple [PInt 1]]))
      else if String.eqb text missing_query then
        match dict_get tables "missing" PNone with
        | PList _ => Err unknown_text
        | _ => Err unresolved_column
        end
      else
        match String.eqb text sum_query, dict_get tables "t" PNone with
        | true, PList rows_ =>
            Ok (Some (table_object ["total"] [PTuple [PInt (sum_v rows_)]]))
        | _, _ => Err unknown_text
        end
  | _, _ => Err unknown_text
  end.

(** The objects of other classes that the fixture can iterate over. *)
Definition fx_iter_other (repr : string) : option (list pyval) :=
  if String.eqb repr "{1, 2}" then Some [PInt 1; PInt 2]
  else if String.eqb repr "range(0, 3)" then Some [PInt 0; PInt 1; PInt 2]
  else None.

(** The fixture; its optimizer succeeds or fails as the flag says. *)
Definition library (optimizer_works : bool) : Library :=
  {| Expr := node;
     str_other := fun _ => "<object>";
     iter_other := fx_iter_other;
     json_loads := fx_json_loads;
     parse_one := fx_parse_one;
     parse := fx_parse;
     transpile := fx_transpile;
     optimize := fun n _ =>
                   if optimizer_works then Ok n
                   else Err (other_error "OptimizeError"
                                         "Unknown column: x");
     execute := fx_execute;
     find_all := fx_find_all;
     type_name := node_type;
     hasattr := fx_hasattr;
     getattr_str := fun n a => attr (node_attrs n) a;
     this := fx_this;
     expressions := fun n => arg n "expressions";
     args_get_expr := fun n key => hd_error (arg n key);
     args_get := fun _ _ default => default;
     sql := fun n _ => Ok (node_text n);
     expr_str := fun n => Ok (node_text n) |}.

End Fixture.

(** A second test double: a library whose parser, transpiler, executor,
    JSON decoder, renderer and optimizer answer as scripted, over the
    nodes of the fixture. *)
Module Scripted.

Record script : Type := mk_script {
  on_parse : result (list (option Fixture.node));
  on_transpile : result (list string);
  on_execute : result (option ResultObj);
  on_json_loads : result pyval;
  on_sql : Fixture.node -> result string;
  on_optimize : Fixture.node -> kwargs -> result Fixture.node
}.

(** The script in which everything succeeds on one statement. *)
Definition default : script :=
  {| on_parse := Ok [Some Fixture.select_1];
     on_transpile := Ok ["SELECT 1"];
     on_execute := Ok None;
     on_json_loads := Ok (PDict []);
     on_sql := fun n => Ok (Fixture.node_text n);
     on_optimize := fun n _ => Ok n |}.

Definition library (s : script) : Library :=
  {| Expr := Fixture.node;
     str_other := fun _ => "<object>";
     iter_other := Fixture.fx_iter_other;
     json_loads := fun _ => on_json_loads s;
     parse_one := fun _ _ =>
                    match on_parse s with
                    | Ok stmts => Ok (hd None stmts)
                    | Err e => Err e
                    end;
     parse := fun _ _ => on_parse s;
     transpile := fun _ _ => on_transpile s;
     optimize := on_optimize s;
     execute := fun _ _ => on_execute s;
     find_all := Fixture.fx_find_all;
     type_name := Fixture.node_type;
     hasattr := Fixture.fx_hasattr;
     getattr_str := fun n a => Fixture.attr (Fixture.node_attrs n) a;
     this := Fixture.fx_this;
     expressions := fun n => Fixture.arg n "expressions";
     args_get_expr := fun n key => hd_error (Fixture.arg n key);
     args_get := fun _ _ default => default;
     sql := fun n _ => on_sql s n;
     expr_str := fun n => on_sql s n |}.

End Scripted.

(** Inputs on which the properties are run. *)
Module Samples.

Definition func (type_ text : string) : Fixture.node :=
  Fixture.Node (Some exp.Func) type_ text [("arg", "expressions")] [].

(** [SELECT SUM(v), SUM(w), COUNT(x) FROM t] *)
Definition select_functions : Fixture.node :=
  Fixture.Node (Some exp.Select) "Select"
    "SELECT SUM(v), SUM(w), COUNT(x) FROM t" []
    [func "Sum" "SUM(v)"; func "Sum" "SUM(w)"; func "Count" "COUNT(x)";
     Fixture.table "t" EmptyString "from"].

(** [SELECT SUM(v) AS total, t.x FROM t] *)
Definition select_aliased : Fixture.node :=
  Fixture.Node (Some exp.Select) "Select"
    "SELECT SUM(v) AS total, t.x FROM t" []
    [Fixture.Node None "Alias" "SUM(v) AS total"
       [("alias", "total"); ("alias_or_name", "total");
        ("arg", "expressions")]
       [Fixture.Node (Some exp.Func) "Sum" "SUM(v)" [("arg", "this")] []];
     Fixture.column "t" "x";
     Fixture.table "t" EmptyString "from"].

(** A renderer that fails on [SUM(w)] and on nothing else. *)
Definition fragile_render (n : Fixture.node) : result string :=
  if String.eqb (Fixture.node_text n) "SUM(w)"
  then Err (Fixture.other_error "UnsupportedError" "cannot render SUM(w)")
  else Ok (Fixture.node_text n).

Definition fragile : Scripted.script :=
  {| Scripted.on_parse := Ok [Some select_functions];
     Scripted.on_transpile := Ok ["SELECT 1"];
     Scripted.on_execute := Ok None;
     Scripted.on_json_loads := Ok (PDict []);
     Scripted.on_sql := fragile_render;
     Scripted.on_optimize := fun n _ => Ok n |}.

(** A script of three statements, the second of which is [None]. *)
Definition three_statements : Scripted.script :=
  {| Scripted.on_parse := Ok [Some Fixture.select_1; None;
                              Some Fixture.select_join];
     Scripted.on_transpile := Ok ["SELECT 1"; "SELECT 2"];
     Scripted.on_execute := Ok None;
     Scripted.on_json_loads := Ok (PDict []);
     Scripted.on_sql := fun n => Ok (Fixture.node_text n);
     Scripted.on_optimize := fun n _ => Ok n |}.

(** A script whose parser returns [None] alone and whose transpiler
    returns nothing. *)
Definition nothing : Scripted.script :=
  {| Scripted.on_parse := Ok [None];
     Scripted.on_transpile := Ok [];
     Scripted.on_execute := Ok None;
     Scripted.on_json_loads := Ok (PList []);
     Scripted.on_sql := fun n => Ok (Fixture.node_text n);
     Scripted.on_optimize := fun n _ => Ok n |}.




(** An object without [rows] over which the iteration gives two rows, a
    tuple and a set, and is then ended by a [TypeError]. *)
Definition type_error : exn :=
  {| exn_class_of := TypeError;
     exn_type_name := "TypeError";
     exn_str := "'NoneType' object is not subscriptable";
     exn_errors := None |}.

Definition cut_short : ResultObj :=
  {| columns := Some ["a"]; rows := None;
     iterate := ([PTuple [POther "2024-01-01"]; POther "{1, 2}"],
                 Some type_error) |}.



Definition misshapen : Scripted.script :=
  {| Scripted.on_parse := Ok [Some Fixture.select_1];
     Scripted.on_transpile := Ok ["SELECT 1"];
     Scripted.on_execute := Ok None;
     Scripted.on_json_loads :=
       Ok (PDict [("t", PList [PDict []]); ("u", PInt 1)]);
     Scripted.on_sql := fun n => Ok (Fixture.node_text n);
     Scripted.on_optimize := fun n _ => Ok n |}.

(** [isinstance(e, ImportError)], by the name of the class. *)
Definition is_ImportError (e : exn) : bool :=
  String.eqb (exn_type_name e) "ImportError" ||
  String.eqb (exn_type_name e) "ModuleNotFoundError".

Definition module_not_found : exn :=
  Fixture.other_error "ModuleNotFoundError" "No module named 'sqlglot'".

End Samples.

(* ------------------------------------------------------------------ *)
(** ** The vocabulary of the properties *)

(** The parameter is missing from [tool_parameters], or is the empty
    string. *)
Definition absent_or_empty (tool_parameters : kwargs) (key : string) : Prop :=
  dict_get tool_parameters key (PStr EmptyString) = PStr EmptyString.

(** The invocation yielded this one text, called nothing and returned. *)
Definition only_says {A} (text : string) (g : Gen A) : Prop :=
  messages g = [TextMessage text] /\ calls g = [] /\ snd g = Returned.

(** The first library call of a run, if any. *)
Definition first_call {A} (g : Gen A) : option (string * kwargs) :=
  hd_error (calls g).


(** The generator has yielded something by the time it returns. *)
Definition loud {A} (g : Gen A) : Prop :=
  snd g = Returned -> messages g <> [].

(** The generator has yielded something unless it raised. *)
Definition speaks {A} (g : Gen A) : Prop :=
  (forall e, snd g <> Raised e) -> messages g <> [].

(** The error type a handler of a tool reports for an exception. *)
Definition error_type (e : exn) : string :=
  if is_ParseError e then "ParseError" else exn_type_name e.

(** The message is a structured error payload for the exception: a JSON
    object with the error type, the error message and the original SQL. *)
Definition structured_error (e : exn) (sql_ : pyval) (m : ToolInvokeMessage)
  : Prop :=
  exists d, m = JsonMessage (PDict d) /\
            dict_get d "error_type" PNone = PStr (error_type e) /\
            dict_get d "error_message" PNone = PStr (exn_str e) /\
            dict_get d "original_sql" PNone = sql_.

(** The invocation yields and lets no exception escape. *)
Definition answers (g : Gen unit) : Prop :=
  messages g <> [] /\ escaped g = None.

(** Whenever the [try] block of the invocation raises, the messages of
    the block are followed by a text and a structured error payload. *)
Definition reports (body g : Gen unit) (sql_ : pyval) : Prop :=
  forall e, snd body = Raised e ->
  exists text m,
    messages g = (messages body ++ [TextMessage text; m])%list /\
    structured_error e sql_ m.

(** What the tool reports of one error of the parser: its description,
    its line and column as the parser counted them, and the text before
    the failure point, the highlighted token and the text after it. *)
Definition detail_of (d : list (string * pyval)) : pyval :=
  PDict [("description", dict_get d "description" (PStr "Unknown error"));
         ("line", dict_get d "line" PNone);
         ("col", dict_get d "col" PNone);
         ("start_context", dict_get d "start_context" (PStr EmptyString));
         ("highlight", dict_get d "highlight" (PStr EmptyString));
         ("end_context", dict_get d "end_context" (PStr EmptyString))].

(** The entry of [errors] counts its line and its column from 1. *)
Definition one_based (d : list (string * pyval)) : Prop :=
  exists line col,
    dict_get d "line" PNone = PInt line /\
    dict_get d "col" PNone = PInt col /\
    1 <= line /\ 1 <= col.

(** The value is built from [None], booleans, numbers, text, lists and
    dicts only, keys included: no tuple and no object of another
    class. *)
Fixpoint plain (v : pyval) : bool :=
  match v with
  | PNone | PBool _ | PInt _ | PFloat _ | PStr _ => true
  | PList l => forallb plain l
  | PDict d => forallb (fun kv => plain (snd kv)) d
  | PMap d => forallb (fun kv => plain (fst kv) && plain (snd kv)) d
  | PTuple _ | POther _ => false
  end.

(** The same, but for the keys of the dicts, which may be anything:
    outside of keys there is no tuple and no object of another class. *)
Fixpoint plain_but_keys (v : pyval) : bool :=
  match v with
  | PNone | PBool _ | PInt _ | PFloat _ | PStr _ => true
  | PList l => forallb plain_but_keys l
  | PDict d => forallb (fun kv => plain_but_keys (snd kv)) d
  | PMap d => forallb (fun kv => plain_but_keys (snd kv)) d
  | PTuple _ | POther _ => false
  end.

(** The keys of the dicts of the value are plain: of the dicts met at
    any depth through lists, tuples and the values of dicts. *)
Fixpoint keys_plain (v : pyval) : bool :=
  match v with
  | PList l | PTuple l => forallb keys_plain l
  | PDict d => forallb (fun kv => keys_plain (snd kv)) d
  | PMap d => forallb (fun kv => plain (fst kv) && keys_plain (snd kv)) d
  | _ => true
  end.

Definition is_text (m : ToolInvokeMessage) : bool :=
  match m with TextMessage _ => true | JsonMessage _ => false end.

(** Texts, then at most one JSON message, which is the last. *)
Fixpoint texts_then_json (ms : list ToolInvokeMessage) : bool :=
  match ms with
  | [] => true
  | TextMessage _ :: rest => texts_then_json rest
  | JsonMessage _ :: rest => match rest with [] => true | _ => false end
  end.

(** The message, if it is a JSON message, is an object that holds the
    query under [original_sql]. *)
Definition echoes (sql_ : pyval) (m : ToolInvokeMessage) : Prop :=
  match m with
  | TextMessage _ => True
  | JsonMessage (PDict d) =>
      dict_has d "original_sql" = true /\
      dict_get d "original_sql" PNone = sql_
  | JsonMessage _ => False
  end.

(** A call that names a dialect under the keyword names this one. *)
Definition passes (key : string) (dialect : pyval) (c : string * kwargs)
  : Prop :=
  dict_has (snd c) key = true -> dict_get (snd c) key PNone = dialect.

(** The generator has yielded nothing unless it returned. *)
Definition quiet {A} (g : Gen A) : Prop :=
  snd g <> Returned -> messages g = [].

(** The generator had yielded nothing if it raised. *)
Definition raises_silently {A} (g : Gen A) : Prop :=
  forall e, snd g = Raised e -> messages g = [].

(** The generator does not raise. *)
Definition never_raises {A} (g : Gen A) : Prop :=
  forall e, snd g <> Raised e.

(** Only texts so far, or the JSON message came last and the generator
    returned on it. *)
Definition settled {A} (g : Gen A) : Prop :=
  forallb is_text (messages g) = true \/
  (texts_then_json (messages g) = true /\ snd g = Returned).

(** Only texts so far, or the JSON message came last and the generator
    did not raise after it. *)
Definition orderly {A} (g : Gen A) : Prop :=
  forallb is_text (messages g) = true \/
  (texts_then_json (messages g) = true /\ forall e, snd g <> Raised e).

(** The keys of a dict, in order. *)
Definition keys (d : list (string * pyval)) : list string := map fst d.

(** The loop that fills the dict of a row, from any starting dict and
    any first index. *)
Definition fill (row : list pyval) (start : list (string * pyval))
  (indexed : list (nat * string)) : list (string * pyval) :=
  fold_left
    (fun row_dict ic =>
       dict_set row_dict (snd ic) (ExecuteSqlTool._serialize_value (nth (fst ic) row PNone)))
    indexed start.

Definition is_dict (v : pyval) : bool :=
  match v with PDict _ | PMap _ => true | _ => false end.

(** An entry of [tables] that the Execute tool accepts: a list of
    dicts. *)
Definition well_shaped (item : string * pyval) : bool :=
  match snd item with
  | PList table_data => forallb is_dict table_data
  | _ => false
  end.

(** The text with which the Execute tool turns down an entry of
    [tables]. *)
Definition shape_complaint (item : string * pyval) : string :=
  match snd item with
  | PList _ => "Each row in table '" ++ fst item ++ "' must be an object."
  | _ => "Table '" ++ fst item ++ "' must be an array of row objects."
  end.

(** The line that closes the markdown table of a result of more than 50
    rows. *)
Definition overflow_line (n : nat) : string :=
  nl ++ "... and " ++ str_of_Z (Z.of_nat n - 50) ++ " more rows".

Section Vocabulary.
Context {L : Library}.

(** The response of a run of [analyze] that reached its end. *)
Definition response_of (parsed : Expr) (sql_ dialect : pyval)
  (aliases : list pyval) (functions : list (string * string))
  (joins subqueries where_conditions group_by order_by : list pyval)
  : list (string * pyval) :=
  [("query_type", PStr (type_name parsed));
   ("tables", PList (map AnalyzeSqlTool.table_info_json (AnalyzeSqlTool.extract_tables parsed)));
   ("columns", PList (map AnalyzeSqlTool.column_info_json (AnalyzeSqlTool.extract_columns parsed)));
   ("aliases", PList aliases);
   ("functions", PList (map AnalyzeSqlTool.function_json functions));
   ("joins", PList joins);
   ("subqueries", PList subqueries);
   ("where_conditions", PList where_conditions);
   ("group_by", PList group_by);
   ("order_by", PList order_by);
   ("dialect", dialect_or_auto dialect);
   ("original_sql", sql_)].

(** The join kind is unspecified: the attribute is missing or empty. *)
Definition kind_unspecified (join_ : Expr) : Prop :=
  hasattr join_ "kind" = false \/ getattr_str join_ "kind" = EmptyString.

(** The response of a successful run of the Optimize tool, before the
    note is attached. *)
Definition optimized_response (sql_ dialect schema : pyval) (text : string)
  : list (string * pyval) :=
  [("original_sql", sql_);
   ("optimized_sql", PStr text);
   ("dialect", dialect_or_auto dialect);
   ("schema_provided", PBool (truthy schema));
   ("optimization_applied", PBool true)].

(** The events of the [try] block of the Optimize tool once the
    statement is parsed and the schema loaded. *)
Definition optimize_events (sql_ dialect schema : pyval) (text : string)
  (note : list (string * pyval)) (summary : string) : list event :=
  let parse_dialect := dialect_or_None dialect in
  [Called "parse_one" [("dialect", parse_dialect)];
   Called "optimize" (OptimizeSqlTool.optimize_kwargs schema parse_dialect);
   Called "sql" [("dialect", parse_dialect); ("pretty", PBool true)];
   Yielded (TextMessage summary);
   Yielded (TextMessage (sql_block "Optimized SQL" text));
   Yielded (JsonMessage
              (PDict (optimized_response sql_ dialect schema text ++ note)))].

(** The entries of [statements] in the response of the Validate tool,
    for the statements and their renderings, numbered from [i + 1]. *)
Fixpoint statement_entries (i : nat) (stmts : list Expr) (texts : list string)
  : list (list (string * pyval)) :=
  match stmts, texts with
  | stmt :: stmts', text :: texts' =>
      [("index", PInt (Z.of_nat i + 1));
       ("type", PStr (type_name stmt));
       ("sql", PStr text)] :: statement_entries (S i) stmts' texts'
  | _, _ => []
  end.

(** The keyword arguments with which the Format tool renders a
    statement. *)
Definition format_kwargs (p : kwargs) : kwargs :=
  [("dialect", dialect_or_None (dict_get p "dialect" (PStr EmptyString)));
   ("pretty", PBool true);
   ("identify", dict_get p "identify" (PBool false));
   ("normalize", dict_get p "normalize" (PBool false))].



End Vocabulary.

(* ------------------------------------------------------------------ *)
(** ** Generators: how events and outcomes compose *)

Section GenLemmas.

Lemma fst_bind {A B} (m : Gen A) (k : A -> Gen B) :
  fst (bind m k) =
  (fst m ++ match snd m with Normal a => fst (k a) | _ => [] end)%list.
Proof.
  unfold bind. destruct m as [events [a| |e]]; cbn; rewrite ?app_nil_r; auto.
  now destruct (k a).
Qed.

Lemma snd_bind {A B} (m : Gen A) (k : A -> Gen B) :
  snd (bind m k) =
  match snd m with
  | Normal a => snd (k a)
  | Returned => Returned
  | Raised e => Raised e
  end.
Proof.
  unfold bind. destruct m as [events [a| |e]]; cbn; auto. now destruct (k a).
Qed.

Lemma fst_try_except {A} (body : Gen A) (h : exn -> Gen A) :
  fst (try_except body h) =
  (fst body ++ match snd body with Raised e => fst (h e) | _ => [] end)%list.
Proof.
  unfold try_except. destruct body as [evs [a| |e]]; cbn;
    rewrite ?app_nil_r; auto.
  now destruct (h e).
Qed.

Lemma snd_try_except {A} (body : Gen A) (h : exn -> Gen A) :
  snd (try_except body h) =
  match snd body with Raised e => snd (h e) | o => o end.
Proof.
  unfold try_except. destruct body as [evs [a| |e]]; cbn; auto.
  now destruct (h e).
Qed.

Lemma messages_app {A B C} (g : Gen A) (g1 : Gen B) (g2 : Gen C) :
  fst g = (fst g1 ++ fst g2)%list ->
  messages g = (messages g1 ++ messages g2)%list.
Proof. unfold messages. intros ->. apply flat_map_app. Qed.

(** A handler that does not raise lets nothing escape. *)
Lemma try_except_contains {A} (body : Gen A) (h : exn -> Gen A) :
  (forall e, escaped (h e) = None) -> escaped (try_except body h) = None.
Proof.
  intros Hh. unfold escaped. rewrite snd_try_except.
  destruct (snd body) as [a| |e]; auto. apply Hh.
Qed.

(** When the body raises, the handler's messages follow the body's. *)
Lemma try_except_raised {A} (body : Gen A) (h : exn -> Gen A) (e : exn) :
  snd body = Raised e ->
  messages (try_except body h) = (messages body ++ messages (h e))%list.
Proof.
  intros He. apply messages_app. rewrite fst_try_except, He. reflexivity.
Qed.

Lemma try_except_passed {A} (body : Gen A) (h : exn -> Gen A) :
  (forall e, snd body <> Raised e) -> try_except body h = body.
Proof.
  intros He. unfold try_except. destruct body as [evs [a| |e]]; auto.
  now destruct (He e).
Qed.

End GenLemmas.

(* ------------------------------------------------------------------ *)
(** ** Required parameters *)

Section Required.
Context {L : Library}.

Lemma say_and_return (text : string) :
  only_says text (yield (create_text_message text) ;;; @return_ unit).
Proof. repeat split. Qed.

Lemma transpile_requires_target (p : kwargs) :
  truthy (dict_get p "sql" (PStr EmptyString)) = true ->
  absent_or_empty p "target_dialect" ->
  only_says "Target dialect is required." (TranspileSqlTool._invoke p).
Proof.
  unfold absent_or_empty. intros Hsql Htarget. unfold TranspileSqlTool._invoke.
  rewrite Hsql, Htarget. cbn [truthy negb]. apply say_and_return.
Qed.

(** C10. When [sql] is absent or the empty string, each of the six tools
    yields exactly the message [SQL query is required.] and returns
    without a single call of the parser, optimizer or executor, whatever
    the library would have answered.  With a query given, Execute does
    the same with [Data tables are required.] when [tables] is absent or
    empty, and Transpile with [Target dialect is required.] when
    [target_dialect] is. *)
Theorem required_parameters_checked_first (p : kwargs) :
  (absent_or_empty p "sql" ->
   only_says "SQL query is required." (AnalyzeSqlTool._invoke p) /\
   only_says "SQL query is required." (FormatSqlTool._invoke p) /\
   only_says "SQL query is required." (TranspileSqlTool._invoke p) /\
   only_says "SQL query is required." (ValidateSqlTool._invoke p) /\
   only_says "SQL query is required." (OptimizeSqlTool._invoke p) /\
   only_says "SQL query is required." (ExecuteSqlTool._invoke p)) /\
  (truthy (dict_get p "sql" (PStr EmptyString)) = true ->
   absent_or_empty p "tables" ->
   only_says "Data tables are required." (ExecuteSqlTool._invoke p)) /\
  (truthy (dict_get p "sql" (PStr EmptyString)) = true ->
   absent_or_empty p "target_dialect" ->
   only_says "Target dialect is required." (TranspileSqlTool._invoke p)).
Proof.
  unfold absent_or_empty. split; [|split].
  - intros Hsql.
    unfold AnalyzeSqlTool._invoke, FormatSqlTool._invoke,
      TranspileSqlTool._invoke, ValidateSqlTool._invoke,
      OptimizeSqlTool._invoke, ExecuteSqlTool._invoke.
    rewrite Hsql. cbn [truthy negb].
    repeat split.
  - intros Hsql Htables. unfold ExecuteSqlTool._invoke.
    rewrite Hsql, Htables. cbn [truthy negb]. apply say_and_return.
  - apply transpile_requires_target.
Qed.

End Required.

Lemma required_parameters_checked_first_witness :
  only_says "SQL query is required."
    (AnalyzeSqlTool._invoke (L := Fixture.library true)
       [("dialect", PStr "mysql")]) /\
  only_says "Data tables are required."
    (ExecuteSqlTool._invoke (L := Fixture.library true)
       [("sql", PStr "SELECT 1"); ("tables", PStr EmptyString)]) /\
  only_says "Target dialect is required."
    (TranspileSqlTool._invoke (L := Fixture.library true)
       [("sql", PStr "SELECT 1")]).
Proof.
  split; [|split].
  - apply (proj1 (required_parameters_checked_first
                    (L := Fixture.library true) [("dialect", PStr "mysql")])).
    reflexivity.
  - apply (proj1 (proj2 (required_parameters_checked_first
                           (L := Fixture.library true)
                           [("sql", PStr "SELECT 1");
                            ("tables", PStr EmptyString)])));
      reflexivity.
  - apply (proj2 (proj2 (required_parameters_checked_first
                           (L := Fixture.library true)
                           [("sql", PStr "SELECT 1")])));
      reflexivity.
Defined.

(* ------------------------------------------------------------------ *)
(** ** Metadata extraction *)

Section Loops.
Context {A B : Type}.

Lemma map_result_length (f : A -> result B) (xs : list A) (ys : list B) :
  map_result f xs = Ok ys -> List.length ys = List.length xs.
Proof.
  revert ys. induction xs as [|x xs IH]; cbn; intros ys H.
  - now inversion H.
  - destruct (f x); [|discriminate].
    destruct (map_result f xs); [|discriminate].
    inversion H; subst. cbn. f_equal. now apply IH.
Qed.

Lemma map_result_nth (f : A -> result B) (xs : list A) (ys : list B) :
  map_result f xs = Ok ys ->
  forall i x, nth_error xs i = Some x ->
  exists y, nth_error ys i = Some y /\ f x = Ok y.
Proof.
  revert ys. induction xs as [|x xs IH]; cbn; intros ys H i x' Hi.
  - destruct i; discriminate.
  - destruct (f x) as [b|] eqn:Ef; [|discriminate].
    destruct (map_result f xs) as [bs|]; [|discriminate].
    inversion H; subst.
    destruct i as [|i]; cbn in *.
    + inversion Hi; subst. eauto.
    + now apply IH.
Qed.

Lemma map_result_total (f : A -> result B) (xs : list A) :
  (forall x, In x xs -> exists y, f x = Ok y) ->
  exists ys, map_result f xs = Ok ys.
Proof.
  induction xs as [|x xs IH]; cbn; intros H; eauto.
  destruct (H x) as [y ->]; auto.
  destruct IH as [ys ->]; eauto.
Qed.

(** The loop [for x in xs: if f x not in acc: acc.append(f x)]. *)
Variable eq_dec : forall a b : B, {a = b} + {a <> b}.
Variable f : A -> B.

Let collect (xs : list A) (acc : list B) : list B :=
  fold_left (fun acc x => AnalyzeSqlTool.append_new eq_dec acc (f x)) xs acc.

Lemma collect_NoDup (xs : list A) (acc : list B) :
  NoDup acc -> NoDup (collect xs acc).
Proof.
  revert acc. induction xs as [|x xs IH]; cbn; intros acc Hacc; auto.
  apply IH. unfold AnalyzeSqlTool.append_new.
  destruct (in_dec eq_dec (f x) acc) as [Hin|Hout]; auto.
  apply NoDup_app; auto.
  - repeat constructor. intros [].
  - intros b Hb [<-|[]]. contradiction.
Qed.

Lemma collect_In (xs : list A) (acc : list B) (b : B) :
  In b (collect xs acc) <-> In b acc \/ In b (map f xs).
Proof.
  revert acc. induction xs as [|x xs IH]; cbn; intros acc.
  - tauto.
  - unfold collect in IH. rewrite IH. unfold AnalyzeSqlTool.append_new.
    destruct (in_dec eq_dec (f x) acc) as [Hin|Hout].
    + split; [tauto|]. intros [H|[<-|H]]; auto.
    + rewrite in_app_iff. cbn. tauto.
Qed.

Lemma collect_once (xs : list A) (x : A) :
  In x xs -> count_occ eq_dec (collect xs []) (f x) = 1%nat.
Proof.
  intros Hx. apply NoDup_count_occ'.
  - apply collect_NoDup. constructor.
  - apply collect_In. right. now apply in_map.
Qed.

End Loops.

Section Extraction.
Context {L : Library}.

Import AnalyzeSqlTool.

(** [analyze] either raises, or yields the summary and the response
    built from what the ten extractions returned. *)
Lemma analyze_completes (parsed : Expr) (sql_ dialect : pyval) :
  (exists e, snd (analyze parsed sql_ dialect) = Raised e /\
             fst (analyze parsed sql_ dialect) = []) \/
  (exists aliases functions joins subqueries where_conditions group_by
          order_by text,
     extract_aliases parsed = Ok aliases /\
     extract_functions parsed = Ok functions /\
     extract_joins parsed = Ok joins /\
     extract_subqueries parsed = Ok subqueries /\
     extract_where parsed = Ok where_conditions /\
     extract_group_by parsed = Ok group_by /\
     extract_order_by parsed = Ok order_by /\
     analyze parsed sql_ dialect =
       ([Yielded (TextMessage text);
         Yielded (JsonMessage
                    (PDict (response_of parsed sql_ dialect aliases functions
                              joins subqueries where_conditions group_by
                              order_by)))],
        Normal tt)).
Proof.
  unfold analyze.
  destruct (extract_aliases parsed) as [aliases|e]; [|left; exists e; split; reflexivity].
  destruct (extract_functions parsed) as [functions|e]; [|left; exists e; split; reflexivity].
  destruct (extract_joins parsed) as [joins|e]; [|left; exists e; split; reflexivity].
  destruct (extract_subqueries parsed) as [subqueries|e]; [|left; exists e; split; reflexivity].
  destruct (extract_where parsed) as [where_conditions|e]; [|left; exists e; split; reflexivity].
  destruct (extract_group_by parsed) as [group_by|e]; [|left; exists e; split; reflexivity].
  destruct (extract_order_by parsed) as [order_by|e]; [|left; exists e; split; reflexivity].
  right. do 8 eexists. repeat (split; [reflexivity|]). reflexivity.
Qed.

Lemma column_info_json_inj (a b : column_info) :
  column_info_json a = column_info_json b -> a = b.
Proof.
  destruct a as [n1 [t1|] a1], b as [n2 [t2|] a2]; cbn; intros H;
    inversion H; reflexivity.
Qed.

(** C4. Column references are deduplicated on (name, table qualifier,
    alias-or-name): whatever column nodes the traversal of the statement
    finds, and however often a qualified column occurs among them, the
    extracted list holds exactly one entry for the key of each of them,
    and so does the [columns] entry of the response the tool yields. *)
Theorem columns_deduplicated (parsed column : Expr) (sql_ dialect : pyval) :
  In column (find_all parsed exp.Column) ->
  count_occ column_info_eq_dec (extract_columns parsed)
            (make_column_info column) = 1%nat /\
  NoDup (map column_info_json (extract_columns parsed)) /\
  (snd (analyze parsed sql_ dialect) = Normal tt ->
   exists text d,
     messages (analyze parsed sql_ dialect) =
       [TextMessage text; JsonMessage (PDict d)] /\
     dict_get d "columns" PNone =
       PList (map column_info_json (extract_columns parsed))).
Proof.
  intros Hin. split; [|split].
  - unfold extract_columns. now apply collect_once.
  - apply Injective_map_NoDup.
    + intros a b. apply column_info_json_inj.
    + unfold extract_columns. apply collect_NoDup. constructor.
  - intros Hend.
    destruct (analyze_completes parsed sql_ dialect)
      as [(e & He & _)|(al & fu & jo & su & wh & gr & or & text & H)].
    + rewrite He in Hend. discriminate.
    + destruct H as (_ & _ & _ & _ & _ & _ & _ & ->).
      exists text. eexists. split; reflexivity.
Qed.

Lemma join_info_type (join_ : Expr) (entry : pyval) :
  join_info join_ = Ok entry ->
  exists table on_condition,
    entry = PDict [("type", PStr (join_type join_));
                   ("table", PStr table);
                   ("on_condition", on_condition)].
Proof.
  unfold join_info.
  destruct (if hasattr (this join_) "name" then _ else _) as [table|];
    [|discriminate].
  destruct (match args_get_expr join_ "on" with Some _ => _ | None => _ end)
    as [on_condition|]; [|discriminate].
  intros H. inversion H. eauto.
Qed.

Lemma join_type_default (join_ : Expr) :
  kind_unspecified join_ -> join_type join_ = "INNER".
Proof.
  unfold join_type. intros [H|H]; rewrite H; cbn;
    now rewrite ?andb_false_r.
Qed.

(** C6. The extraction reports one join entry per join node, in the
    order of the traversal, and the entry of a join whose kind is
    unspecified has type [INNER]; the list is the [joins] entry of the
    response.  The extraction produces the list whenever rendering the
    join's relation and condition does not raise. *)
Theorem joins_one_per_node_default_inner (parsed : Expr) (sql_ dialect : pyval) :
  ((forall join_, In join_ (find_all parsed exp.Join) ->
      exists entry, join_info join_ = Ok entry) ->
   exists joins, extract_joins parsed = Ok joins) /\
  (forall joins, extract_joins parsed = Ok joins ->
     List.length joins = List.length (find_all parsed exp.Join) /\
     (forall i join_,
        nth_error (find_all parsed exp.Join) i = Some join_ ->
        kind_unspecified join_ ->
        exists d, nth_error joins i = Some (PDict d) /\
                  dict_get d "type" PNone = PStr "INNER")) /\
  (snd (analyze parsed sql_ dialect) = Normal tt ->
   exists joins text d,
     extract_joins parsed = Ok joins /\
     messages (analyze parsed sql_ dialect) =
       [TextMessage text; JsonMessage (PDict d)] /\
     dict_get d "joins" PNone = PList joins).
Proof.
  split; [|split].
  - apply map_result_total.
  - intros joins Hjoins. split.
    + now apply map_result_length with (f := join_info).
    + intros i join_ Hi Hkind.
      destruct (map_result_nth _ _ Hjoins _ Hi) as (entry & Hentry & Hinfo).
      apply join_info_type in Hinfo as (table & on_condition & ->).
      eexists. split; [exact Hentry|].
      cbn. now rewrite (join_type_default Hkind).
  - intros Hend.
    destruct (analyze_completes parsed sql_ dialect)
      as [(e & He & _)|(al & fu & jo & su & wh & gr & or & text & H)].
    + rewrite He in Hend. discriminate.
    + destruct H as (_ & _ & Hjo & _ & _ & _ & _ & ->).
      exists jo, text. eexists. repeat split; auto.
Qed.

End Extraction.

(** The statement of the specification, [SELECT a.x, a.x FROM t a], on
    the fixture: two column nodes, one entry. *)
Lemma columns_deduplicated_witness :
  In (Fixture.column "a" "x")
     (find_all (Library := Fixture.library true) Fixture.select_twice
               exp.Column) /\
  count_occ AnalyzeSqlTool.column_info_eq_dec
    (AnalyzeSqlTool.extract_columns (L := Fixture.library true)
       Fixture.select_twice)
    (AnalyzeSqlTool.make_column_info (L := Fixture.library true)
       (Fixture.column "a" "x")) = 1%nat /\
  exists text d,
    messages (AnalyzeSqlTool.analyze (L := Fixture.library true)
                Fixture.select_twice (PStr "SELECT a.x, a.x FROM t a")
                (PStr EmptyString)) =
      [TextMessage text; JsonMessage (PDict d)] /\
    dict_get d "columns" PNone =
      PList [PDict [("name", PStr "x"); ("table", PStr "a");
                    ("alias_or_name", PStr "x")]].
Proof.
  assert (Hin : In (Fixture.column "a" "x")
                   (find_all (Library := Fixture.library true)
                             Fixture.select_twice exp.Column))
    by (left; reflexivity).
  destruct (columns_deduplicated (L := Fixture.library true)
              Fixture.select_twice (Fixture.column "a" "x")
              (PStr "SELECT a.x, a.x FROM t a") (PStr EmptyString) Hin)
    as (Hcount & _ & Hresponse).
  split; [exact Hin|]. split; [exact Hcount|].
  destruct (Hresponse eq_refl) as (text & d & Hm & Hd).
  exists text, d. split; [exact Hm|]. rewrite Hd. reflexivity.
Defined.

(** The statement of the specification,
    [SELECT * FROM a JOIN b ON a.id=b.id], on the fixture: one join, of
    type [INNER]. *)
Lemma joins_one_per_node_default_inner_witness :
  exists joins d,
    AnalyzeSqlTool.extract_joins (L := Fixture.library true)
      Fixture.select_join = Ok joins /\
    List.length joins = 1%nat /\
    nth_error joins 0 = Some (PDict d) /\
    dict_get d "type" PNone = PStr "INNER".
Proof.
  destruct (joins_one_per_node_default_inner (L := Fixture.library true)
              Fixture.select_join
              (PStr "SELECT * FROM a JOIN b ON a.id=b.id") (PStr EmptyString))
    as (Htotal & Hjoins & Hresponse).
  assert (Hrender : forall join_,
             In join_ (find_all (Library := Fixture.library true)
                                Fixture.select_join exp.Join) ->
             exists entry,
               AnalyzeSqlTool.join_info (L := Fixture.library true) join_ =
                 Ok entry)
    by (intros join_ [<-|[]]; eexists; reflexivity).
  destruct (Htotal Hrender) as (joins & Hextract).
  destruct (Hresponse eq_refl) as (joins' & text & d' & Hextract' & _ & _).
  destruct (Hjoins joins Hextract) as (Hlen & Hkind).
  destruct (Hkind 0%nat
              (hd Fixture.select_join
                  (find_all (Library := Fixture.library true)
                            Fixture.select_join exp.Join))
              eq_refl (or_intror eq_refl))
    as (d & Hnth & Htype).
  exists joins, d. repeat split; assumption.
Defined.

(* ------------------------------------------------------------------ *)
(** ** Optimization *)

Section Optimization.
Context {L : Library}.

Import OptimizeSqlTool.

Lemma note_text_truthy (e : exn) : truthy (PStr (note_text e)) = true.
Proof. reflexivity. Qed.

(** The run of the tool when the optimizer returns. *)
Lemma try_body_optimized (sql_ dialect schema_str schema : pyval)
  (parsed optimized : Expr) (text : string) :
  let parse_dialect := dialect_or_None dialect in
  parse_one sql_ [("dialect", parse_dialect)] = Ok (Some parsed) ->
  load_schema schema_str = ([], Normal schema) ->
  optimize parsed (optimize_kwargs schema parse_dialect) = Ok optimized ->
  sql optimized [("dialect", parse_dialect); ("pretty", PBool true)] = Ok text ->
  try_body sql_ dialect schema_str =
    (optimize_events sql_ dialect schema text []
       "Successfully optimized SQL query", Normal tt).
Proof.
  intros parse_dialect Hparse Hschema Hopt Hrender.
  unfold try_body, optimize_events. fold parse_dialect.
  unfold lib_call at 1. rewrite Hparse. cbn [bind].
  rewrite Hschema. cbn [bind].
  unfold run_optimizer, lib_call. rewrite Hopt.
  cbn [bind try_except pure fst snd app].
  unfold respond, lib_call. rewrite Hrender. reflexivity.
Qed.

(** The run of the tool when the optimizer raises. *)
Lemma try_body_not_optimized (sql_ dialect schema_str schema : pyval)
  (parsed : Expr) (opt_error : exn) (text : string) :
  let parse_dialect := dialect_or_None dialect in
  parse_one sql_ [("dialect", parse_dialect)] = Ok (Some parsed) ->
  load_schema schema_str = ([], Normal schema) ->
  optimize parsed (optimize_kwargs schema parse_dialect) = Err opt_error ->
  sql parsed [("dialect", parse_dialect); ("pretty", PBool true)] = Ok text ->
  try_body sql_ dialect schema_str =
    (optimize_events sql_ dialect schema text
       [("note", PStr (note_text opt_error))]
       ("Successfully optimized SQL query" ++ nl ++ note_text opt_error),
     Normal tt).
Proof.
  intros parse_dialect Hparse Hschema Hopt Hrender.
  unfold try_body, optimize_events. fold parse_dialect.
  unfold lib_call at 1. rewrite Hparse. cbn [bind].
  rewrite Hschema. cbn [bind].
  unfold run_optimizer, lib_call. rewrite Hopt.
  cbn [bind try_except pure fst snd app].
  unfold respond, lib_call. rewrite Hrender. reflexivity.
Qed.

Lemma invoke_try_body (p : kwargs) :
  truthy (dict_get p "sql" (PStr EmptyString)) = true ->
  _invoke p =
    try_except (try_body (dict_get p "sql" (PStr EmptyString))
                         (dict_get p "dialect" (PStr EmptyString))
                         (dict_get p "schema" (PStr EmptyString)))
               (fun e => on_error e (dict_get p "sql" (PStr EmptyString))).
Proof. intros H. unfold _invoke. now rewrite H. Qed.

(** C3. When the optimizer cannot carry out the optimization of a parsed
    statement and raises, with or without a schema, the tool does not
    report an error: it renders the parsed statement itself, and the
    [optimized_sql] it emits is that rendering; the failure is only
    recorded in the note.  (The rendering of the parsed statement is
    assumed not to raise.) *)
Theorem optimizer_failure_keeps_statement (p : kwargs) (parsed : Expr)
  (schema : pyval) (opt_error : exn) (text : string) :
  let sql_ := dict_get p "sql" (PStr EmptyString) in
  let dialect := dict_get p "dialect" (PStr EmptyString) in
  let parse_dialect := dialect_or_None dialect in
  truthy sql_ = true ->
  parse_one sql_ [("dialect", parse_dialect)] = Ok (Some parsed) ->
  load_schema (dict_get p "schema" (PStr EmptyString)) = ([], Normal schema) ->
  optimize parsed (optimize_kwargs schema parse_dialect) = Err opt_error ->
  sql parsed [("dialect", parse_dialect); ("pretty", PBool true)] = Ok text ->
  snd (_invoke p) = Normal tt /\
  messages (_invoke p) =
    [TextMessage ("Successfully optimized SQL query" ++ nl ++
                  note_text opt_error);
     TextMessage (sql_block "Optimized SQL" text);
     JsonMessage
       (PDict [("original_sql", sql_);
               ("optimized_sql", PStr text);
               ("dialect", dialect_or_auto dialect);
               ("schema_provided", PBool (truthy schema));
               ("optimization_applied", PBool true);
               ("note", PStr (note_text opt_error))])].
Proof.
  cbv zeta. intros Hsql Hparse Hschema Hopt Hrender.
  rewrite (invoke_try_body p Hsql).
  rewrite (try_body_not_optimized _ _ _ Hparse Hschema Hopt Hrender).
  split; reflexivity.
Qed.

(** C2, as the code has it.  For a statement that parses, with no
    schema supplied, the Optimize tool returns a successful response (no
    error type, [optimization_applied] true, the rendering of the result
    as [optimized_sql]) provided the rendering does not raise.  The
    response carries a note exactly when the optimizer raised: the note
    then says that full optimization requires a schema and that basic
    formatting was applied, and quotes the optimizer's error.  When the
    optimizer returned there is no note. *)
Theorem optimize_without_schema (p : kwargs) (parsed : Expr) (text : string) :
  let sql_ := dict_get p "sql" (PStr EmptyString) in
  let dialect := dict_get p "dialect" (PStr EmptyString) in
  let parse_dialect := dialect_or_None dialect in
  let optimized := optimize parsed [("dialect", parse_dialect)] in
  truthy sql_ = true ->
  absent_or_empty p "schema" ->
  parse_one sql_ [("dialect", parse_dialect)] = Ok (Some parsed) ->
  sql (match optimized with Ok o => o | Err _ => parsed end)
      [("dialect", parse_dialect); ("pretty", PBool true)] = Ok text ->
  exists summary d,
    snd (_invoke p) = Normal tt /\
    messages (_invoke p) =
      [TextMessage summary;
       TextMessage (sql_block "Optimized SQL" text);
       JsonMessage (PDict d)] /\
    dict_has d "error_type" = false /\
    dict_get d "optimization_applied" PNone = PBool true /\
    dict_get d "optimized_sql" PNone = PStr text /\
    dict_get d "schema_provided" PNone = PBool false /\
    match optimized with
    | Ok _ =>
        dict_has d "note" = false /\
        summary = "Successfully optimized SQL query"
    | Err opt_error =>
        dict_get d "note" PNone = PStr (note_text opt_error) /\
        summary = "Successfully optimized SQL query" ++ nl ++
                  note_text opt_error
    end.
Proof.
  cbv zeta. intros Hsql Hschema Hparse Hrender.
  assert (Hload : load_schema (dict_get p "schema" (PStr EmptyString)) =
                  ([], Normal PNone)) by now rewrite Hschema.
  rewrite (invoke_try_body p Hsql).
  destruct (optimize parsed _) as [o|opt_error] eqn:Hopt.
  - rewrite (try_body_optimized _ _ _ Hparse Hload Hopt Hrender).
    do 2 eexists. repeat split.
  - rewrite (try_body_not_optimized _ _ _ Hparse Hload Hopt Hrender).
    do 2 eexists. repeat split.
Qed.

End Optimization.

Lemma optimizer_failure_keeps_statement_witness :
  messages (OptimizeSqlTool._invoke (L := Fixture.library false)
              [("sql", PStr "SELECT 1")]) =
    [TextMessage ("Successfully optimized SQL query" ++ nl ++
                  "Note: Full optimization requires schema. " ++
                  "Basic formatting applied. (Unknown column: x)");
     TextMessage (sql_block "Optimized SQL" "SELECT 1");
     JsonMessage
       (PDict [("original_sql", PStr "SELECT 1");
               ("optimized_sql", PStr "SELECT 1");
               ("dialect", PStr "auto-detected");
               ("schema_provided", PBool false);
               ("optimization_applied", PBool true);
               ("note", PStr ("Note: Full optimization requires schema. " ++
                              "Basic formatting applied. " ++
                              "(Unknown column: x)"))])].
Proof.
  exact (proj2 (@optimizer_failure_keeps_statement
                  (Fixture.library false) [("sql", PStr "SELECT 1")]
                  Fixture.select_1 PNone
                  (Fixture.other_error "OptimizeError" "Unknown column: x")
                  "SELECT 1"
                  eq_refl eq_refl eq_refl eq_refl eq_refl)).
Defined.

(** [SELECT 1] parses, no schema is supplied, the optimizer returns: the
    tool answers without any note, in the summary or in the response. *)
Lemma optimize_without_schema_no_note :
  parse_one (Library := Fixture.library true) (PStr "SELECT 1")
            [("dialect", PNone)] = Ok (Some Fixture.select_1) /\
  OptimizeSqlTool._invoke (L := Fixture.library true)
    [("sql", PStr "SELECT 1")] =
    ([Called "parse_one" [("dialect", PNone)];
      Called "optimize" [("dialect", PNone)];
      Called "sql" [("dialect", PNone); ("pretty", PBool true)];
      Yielded (TextMessage "Successfully optimized SQL query");
      Yielded (TextMessage (sql_block "Optimized SQL" "SELECT 1"));
      Yielded (JsonMessage
                 (PDict [("original_sql", PStr "SELECT 1");
                         ("optimized_sql", PStr "SELECT 1");
                         ("dialect", PStr "auto-detected");
                         ("schema_provided", PBool false);
                         ("optimization_applied", PBool true)]))],
     Normal tt) /\
  dict_has [("original_sql", PStr "SELECT 1");
            ("optimized_sql", PStr "SELECT 1");
            ("dialect", PStr "auto-detected");
            ("schema_provided", PBool false);
            ("optimization_applied", PBool true)] "note" = false.
Proof. repeat split. Qed.

Lemma optimize_without_schema_witness :
  exists summary d,
    messages (OptimizeSqlTool._invoke (L := Fixture.library true)
                [("sql", PStr "SELECT 1")]) =
      [TextMessage summary;
       TextMessage (sql_block "Optimized SQL" "SELECT 1");
       JsonMessage (PDict d)] /\
    dict_has d "error_type" = false /\
    dict_has d "note" = false.
Proof.
  destruct (@optimize_without_schema
              (Fixture.library true) [("sql", PStr "SELECT 1")]
              Fixture.select_1 "SELECT 1"
              eq_refl eq_refl eq_refl eq_refl)
    as (summary & d & _ & Hm & Herr & _ & _ & _ & Hnote & _).
  exists summary, d. repeat split; assumption.
Defined.

(* ------------------------------------------------------------------ *)
(** ** Execution *)

Section Execution.
Context {L : Library}.

Import ExecuteSqlTool.

Lemma invoke_try_body_execute (p : kwargs) :
  truthy (dict_get p "sql" (PStr EmptyString)) = true ->
  truthy (dict_get p "tables" (PStr EmptyString)) = true ->
  _invoke p =
    try_except (try_body (dict_get p "sql" (PStr EmptyString))
                         (dict_get p "tables" (PStr EmptyString))
                         (dict_get p "dialect" (PStr EmptyString)))
               (fun e => on_error e (dict_get p "sql" (PStr EmptyString))).
Proof. intros H1 H2. unfold _invoke. now rewrite H1, H2. Qed.

(** The run of the [try] block when the tables decode to a dict that
    passes the shape check and the executor returns a table object with
    [columns] and [rows]. *)
Lemma try_body_executed (sql_ tables_str dialect : pyval)
  (items : list (string * pyval)) (r : ResultObj)
  (columns_ : list string) (rows_ : list pyval) :
  let parse_dialect := dialect_or_None dialect in
  json_loads tables_str = Ok (PDict items) ->
  check_tables items = ([], Normal tt) ->
  execute sql_ [("tables", PDict items); ("dialect", parse_dialect)] =
    Ok (Some r) ->
  columns r = Some columns_ ->
  rows r = Some rows_ ->
  try_body sql_ tables_str dialect =
    bind ([Called "execute"
             [("tables", PDict items); ("dialect", parse_dialect)]],
          Normal tt)
         (fun _ => respond sql_ dialect columns_
                           (map (convert_row columns_) rows_)).
Proof.
  intros parse_dialect Hjson Hcheck Hexec Hcolumns Hrows.
  unfold try_body, load_tables, call. rewrite Hjson.
  cbn [bind try_except pure table_items]. rewrite Hcheck. cbn [bind].
  fold parse_dialect. unfold run_query, lib_call. rewrite Hexec.
  cbn [bind try_except convert_result call pure].
  rewrite Hcolumns, Hrows. cbn [bind pure fst snd app]. 
  destruct (respond sql_ dialect columns_ (map (convert_row columns_) rows_)).
  reflexivity.
Qed.

End Execution.

(* ------------------------------------------------------------------ *)
(** ** Validation *)

Section Validation.
Context {L : Library}.

Import ValidateSqlTool.

Lemma error_details_of_dicts (ds : list (list (string * pyval))) :
  flat_map error_detail (map PDict ds) = map detail_of ds.
Proof.
  induction ds as [|d ds IH]; cbn; [reflexivity|]. now rewrite IH.
Qed.

Lemma detail_keeps_position (d : list (string * pyval)) :
  one_based d -> exists d', detail_of d = PDict d' /\ one_based d'.
Proof.
  intros (line & col & Hline & Hcol & Hl & Hc).
  eexists. split; [reflexivity|].
  exists line, col. cbn. auto.
Qed.

(** C8, as the code has it.  When the parser rejects the input of the
    Validate tool, what the tool reports depends on the class of the
    exception.  For a [ParseError] it yields the failure text and a
    payload with [valid] false, the error type, the message, the
    original SQL and the dialect, and, when the exception lists its
    underlying errors, under [error_details] one entry for each of them,
    in order, that holds the description, the line, the column and the
    three parts of the context window (the text before the failure
    point, the highlighted token and the text after it), each copied
    from the parser's entry: a line and a column that the parser counts
    from 1 are reported as such.  For an exception of any other class,
    as the [TokenError] of the tokenizer on a string that is not closed,
    it yields the text and the payload of the general handler, which
    hold the name of the class, the message and the original SQL, and no
    description, line, column or context. *)
Theorem parse_errors_reported (p : kwargs) (e : exn) :
  let sql_ := dict_get p "sql" (PStr EmptyString) in
  let dialect := dict_get p "dialect" (PStr EmptyString) in
  truthy sql_ = true ->
  parse sql_ [("dialect", dialect_or_None dialect)] = Err e ->
  snd (_invoke p) = Normal tt /\
  (is_ParseError e = true ->
   forall ds : list (list (string * pyval)),
     exn_errors e = Some (map PDict ds) \/ exn_errors e = None /\ ds = [] ->
     messages (_invoke p) =
       [TextMessage ("✗ SQL Validation Failed: " ++ exn_str e);
        JsonMessage
          (PDict ([("valid", PBool false);
                   ("error_type", PStr "ParseError");
                   ("error_message", PStr (exn_str e));
                   ("original_sql", sql_);
                   ("dialect", dialect_or_auto dialect)] ++
                  match ds with
                  | [] => []
                  | _ => [("error_details", PList (map detail_of ds))]
                  end))] /\
     (Forall one_based ds ->
      Forall (fun entry => exists d, entry = PDict d /\ one_based d)
             (map detail_of ds))) /\
  (is_ParseError e = false ->
   messages (_invoke p) =
     [TextMessage ("Error validating SQL: " ++ exn_str e);
      JsonMessage (PDict [("valid", PBool false);
                          ("error_type", PStr (exn_type_name e));
                          ("error_message", PStr (exn_str e));
                          ("original_sql", sql_)])]).
Proof.
  cbv zeta. intros Hsql Hparse.
  unfold _invoke. rewrite Hsql. cbn [negb].
  unfold try_body, lib_call. rewrite Hparse. cbn [bind try_except].
  unfold on_error. split; [|split].
  - now destruct (is_ParseError e).
  - intros -> ds Herrors. split.
    + unfold error_info.
      destruct Herrors as [Herrors|[Herrors ->]]; rewrite Herrors;
        [|reflexivity].
      destruct ds as [|d ds]; [reflexivity|].
      change (map PDict (d :: ds)) with (PDict d :: map PDict ds).
      rewrite <- (error_details_of_dicts (d :: ds)). reflexivity.
    + intros Hbased. apply Forall_map.
      apply Forall_impl with (2 := Hbased).
      intros d Hd. now apply detail_keeps_position.
  - intros ->. reflexivity.
Qed.

End Validation.

(** [SELECT FROM] on the fixture: the one error of the parser, with the
    keyword [FROM] highlighted and its line and column counted from
    1. *)
Lemma parse_errors_reported_witness :
  messages (ValidateSqlTool._invoke (L := Fixture.library true)
              [("sql", PStr "SELECT FROM")]) =
    [TextMessage ("✗ SQL Validation Failed: " ++
                  exn_str Fixture.parse_error);
     JsonMessage
       (PDict [("valid", PBool false);
               ("error_type", PStr "ParseError");
               ("error_message", PStr (exn_str Fixture.parse_error));
               ("original_sql", PStr "SELECT FROM");
               ("dialect", PStr "auto-detected");
               ("error_details",
                PList [PDict [("description",
                               PStr "Expected table name but got None");
                              ("line", PInt 1);
                              ("col", PInt 11);
                              ("start_context", PStr "SELECT ");
                              ("highlight", PStr "FROM");
                              ("end_context", PStr EmptyString)]])])] /\
  Forall (fun entry => exists d, entry = PDict d /\ one_based d)
         (map detail_of [Fixture.parse_error_entry]).
Proof.
  destruct (@parse_errors_reported
              (Fixture.library true) [("sql", PStr "SELECT FROM")]
              Fixture.parse_error eq_refl eq_refl) as (_ & Hparse & _).
  destruct (Hparse eq_refl [Fixture.parse_error_entry]
                   (or_introl eq_refl)) as (Hmessages & Hbased).
  split; [exact Hmessages|].
  apply Hbased. constructor; [|constructor].
  exists 1, 11. repeat split; reflexivity || discriminate.
Defined.

(** A malformed input that is reported without a position: the string
    of [SELECT 'abc] is not closed, the tokenizer raises a [TokenError],
    and the payload of the Validate tool has no error details, no line
    and no column. *)
Lemma unclosed_string_without_position :
  parse (Library := Fixture.library true) (PStr "SELECT 'abc")
    [("dialect", PNone)] = Err Fixture.token_error /\
  ValidateSqlTool._invoke (L := Fixture.library true)
    [("sql", PStr "SELECT 'abc")] =
    ([Called "parse" [("dialect", PNone)];
      Yielded (TextMessage ("Error validating SQL: " ++
                            exn_str Fixture.token_error));
      Yielded (JsonMessage
                 (PDict [("valid", PBool false);
                         ("error_type", PStr "TokenError");
                         ("error_message",
                          PStr (exn_str Fixture.token_error));
                         ("original_sql", PStr "SELECT 'abc")]))],
     Normal tt) /\
  existsb (dict_has [("valid", PBool false);
                     ("error_type", PStr "TokenError");
                     ("error_message", PStr (exn_str Fixture.token_error));
                     ("original_sql", PStr "SELECT 'abc")])
          ["error_details"; "description"; "line"; "col";
           "start_context"; "highlight"; "end_context"] = false.
Proof. repeat split. Qed.

(* ------------------------------------------------------------------ *)
(** ** Properties of all the events of a generator *)

Section Events.

Lemma messages_bind {A B} (m : Gen A) (k : A -> Gen B) :
  messages (bind m k) =
  (messages m ++ match snd m with Normal a => messages (k a) | _ => [] end)%list.
Proof.
  unfold messages at 1 2. rewrite fst_bind, flat_map_app.
  now destruct (snd m).
Qed.

Lemma calls_bind {A B} (m : Gen A) (k : A -> Gen B) :
  calls (bind m k) =
  (calls m ++ match snd m with Normal a => calls (k a) | _ => [] end)%list.
Proof.
  unfold calls at 1 2. rewrite fst_bind, flat_map_app.
  now destruct (snd m).
Qed.

Lemma calls_try_except {A} (body : Gen A) (h : exn -> Gen A) :
  calls (try_except body h) =
  (calls body ++ match snd body with Raised e => calls (h e) | _ => [] end)%list.
Proof.
  unfold calls at 1 2. rewrite fst_try_except, flat_map_app.
  now destruct (snd body).
Qed.

Variable P : string * kwargs -> Prop.

Lemma all_calls_bind {A B} (m : Gen A) (k : A -> Gen B) :
  Forall P (calls m) -> (forall a, Forall P (calls (k a))) ->
  Forall P (calls (bind m k)).
Proof.
  intros Hm Hk. rewrite calls_bind. apply Forall_app. split; auto.
  destruct (snd m); auto.
Qed.

Lemma all_calls_try_except {A} (body : Gen A) (h : exn -> Gen A) :
  Forall P (calls body) -> (forall e, Forall P (calls (h e))) ->
  Forall P (calls (try_except body h)).
Proof.
  intros Hm Hk. rewrite calls_try_except. apply Forall_app. split; auto.
  destruct (snd body); auto.
Qed.

Lemma all_calls_lib_call {A} (fn : string) (kw : kwargs) (r : result A) :
  P (fn, kw) -> Forall P (calls (lib_call fn kw r)).
Proof. intros H. repeat constructor. exact H. Qed.

Lemma all_calls_call {A} (r : result A) : Forall P (calls (call r)).
Proof. destruct r; constructor. Qed.

Lemma all_calls_for_each {A} (xs : list A) (body : A -> Gen unit) :
  (forall x, Forall P (calls (body x))) ->
  Forall P (calls (for_each xs body)).
Proof.
  intros H. induction xs as [|x xs IH]; cbn [for_each].
  - constructor.
  - apply all_calls_bind; auto.
Qed.

Lemma all_calls_map_gen {A B} (f : A -> Gen B) (xs : list A) :
  (forall x, Forall P (calls (f x))) ->
  Forall P (calls (map_gen f xs)).
Proof.
  intros H. induction xs as [|x xs IH]; cbn [map_gen].
  - constructor.
  - apply all_calls_bind; [apply H|]. intros b.
    apply all_calls_bind; [apply IH|]. intros bs. constructor.
Qed.

End Events.

Ltac all_calls :=
  repeat match goal with
  | |- Forall _ (calls (bind _ _)) => apply all_calls_bind; [|intros ?]
  | |- Forall _ (calls (try_except _ _)) =>
      apply all_calls_try_except; [|intros ?]
  | |- Forall _ (calls (lib_call _ _ _)) => apply all_calls_lib_call
  | |- Forall _ (calls (call _)) => apply all_calls_call
  | |- Forall _ (calls (for_each _ _)) => apply all_calls_for_each; intros ?
  | |- Forall _ (calls (map_gen _ _)) => apply all_calls_map_gen; intros ?
  | |- Forall _ (calls (yield _)) => constructor
  | |- Forall _ (calls (pure _)) => constructor
  | |- Forall _ (calls return_) => constructor
  | |- Forall _ (calls (raise _)) => constructor
  | |- Forall _ (calls (match ?x with _ => _ end)) => destruct x
  end.

(* ------------------------------------------------------------------ *)
(** ** The dialect selector *)

Section Dialect.
Context {L : Library}.




Lemma first_call_try_bind {A B} (fn : string) (kw : kwargs) (r : result A)
  (k : A -> Gen B) (h : exn -> Gen B) :
  first_call (try_except (bind (lib_call fn kw r) k) h) = Some (fn, kw).
Proof.
  unfold first_call. rewrite calls_try_except, calls_bind. reflexivity.
Qed.



End Dialect.


(* ------------------------------------------------------------------ *)
(** ** Failures *)

Section Speaking.

Lemma app_not_nil_r {A} (xs ys : list A) : ys <> [] -> (xs ++ ys)%list <> [].
Proof. intros H E. apply app_eq_nil in E. tauto. Qed.

Lemma app_not_nil_l {A} (xs ys : list A) : xs <> [] -> (xs ++ ys)%list <> [].
Proof. intros H E. apply app_eq_nil in E. tauto. Qed.

Lemma loud_bind {A B} (m : Gen A) (k : A -> Gen B) :
  loud m -> (forall a, loud (k a)) -> loud (bind m k).
Proof.
  unfold loud. intros Hm Hk. rewrite snd_bind, messages_bind.
  destruct (snd m) as [a| |e]; intros H.
  - apply app_not_nil_r. now apply Hk.
  - rewrite app_nil_r. now apply Hm.
  - discriminate.
Qed.

Lemma speaks_bind {A B} (m : Gen A) (k : A -> Gen B) :
  loud m -> (forall a, speaks (k a)) -> speaks (bind m k).
Proof.
  unfold loud, speaks. intros Hm Hk. rewrite snd_bind, messages_bind.
  destruct (snd m) as [a| |e]; intros H.
  - apply app_not_nil_r. now apply Hk.
  - rewrite app_nil_r. now apply Hm.
  - now destruct (H e).
Qed.

Lemma yield_bind_speaks {A} (m : ToolInvokeMessage) (k : unit -> Gen A) :
  messages (bind (yield m) k) <> [].
Proof. rewrite messages_bind. discriminate. Qed.

Lemma loud_try_except {A} (body : Gen A) (h : exn -> Gen A) :
  loud body -> (forall e, loud (h e)) -> loud (try_except body h).
Proof.
  unfold loud. intros Hm Hk.
  rewrite snd_try_except.
  unfold messages. rewrite fst_try_except, flat_map_app.
  destruct (snd body) as [a| |e]; intros H.
  - discriminate.
  - cbn. rewrite app_nil_r. now apply Hm.
  - apply app_not_nil_r. now apply Hk.
Qed.

Lemma loud_lib_call {A} (fn : string) (kw : kwargs) (r : result A) :
  loud (lib_call fn kw r).
Proof. unfold loud. now destruct r. Qed.

Lemma loud_call {A} (r : result A) : loud (call r).
Proof. unfold loud. now destruct r. Qed.

Lemma loud_for_each {A} (xs : list A) (body : A -> Gen unit) :
  (forall x, loud (body x)) -> loud (for_each xs body).
Proof.
  intros H. induction xs as [|x xs IH]; cbn [for_each].
  - discriminate.
  - apply loud_bind; auto.
Qed.

Lemma loud_map_gen {A B} (f : A -> Gen B) (xs : list A) :
  (forall x, loud (f x)) -> loud (map_gen f xs).
Proof.
  intros H. induction xs as [|x xs IH]; cbn [map_gen].
  - discriminate.
  - apply loud_bind; [apply H|]. intros b.
    apply loud_bind; [apply IH|]. discriminate.
Qed.

(** A [try] whose body speaks and whose handler yields has yielded
    something in every case. *)
Lemma try_except_speaks {A} (body : Gen A) (h : exn -> Gen A) :
  speaks body -> (forall e, messages (h e) <> []) ->
  messages (try_except body h) <> [].
Proof.
  unfold speaks. intros Hbody Hh.
  unfold messages. rewrite fst_try_except, flat_map_app.
  destruct (snd body) as [a| |e] eqn:E.
  - apply app_not_nil_l. apply Hbody. discriminate.
  - apply app_not_nil_l. apply Hbody. discriminate.
  - apply app_not_nil_r. apply Hh.
Qed.

End Speaking.

Ltac loud :=
  repeat match goal with
  | |- loud (bind (yield _) _) => intros _; apply yield_bind_speaks
  | |- loud (bind _ _) => apply loud_bind; [|intros ?]
  | |- loud (try_except _ _) => apply loud_try_except; [|intros ?]
  | |- loud (lib_call _ _ _) => apply loud_lib_call
  | |- loud (call _) => apply loud_call
  | |- loud (for_each _ _) => apply loud_for_each; intros ?
  | |- loud (map_gen _ _) => apply loud_map_gen; intros ?
  | |- loud (pure _) => discriminate
  | |- loud (raise _) => discriminate
  | |- loud (yield _) => discriminate
  | |- loud (match ?x with _ => _ end) => destruct x
  end.

Ltac speaks :=
  repeat match goal with
  | |- speaks (bind (yield _) _) => intros _; apply yield_bind_speaks
  | |- speaks (bind _ _) => apply speaks_bind; [loud|intros ?]
  | |- speaks (match ?x with _ => _ end) => destruct x
  end.

Section Failures.
Context {L : Library}.

(** The common shape of the six tools: a [try] block and a handler that
    yields a text and a payload. *)
Lemma handled (body : Gen unit) (h : exn -> Gen unit) (sql_ : pyval) :
  speaks body ->
  (forall e, exists text m,
     h e = ([Yielded (TextMessage text); Yielded m], Normal tt) /\
     structured_error e sql_ m) ->
  answers (try_except body h) /\ reports body (try_except body h) sql_.
Proof.
  intros Hbody Hh. split; [split|].
  - apply try_except_speaks; auto.
    intros e. destruct (Hh e) as (text & m & -> & _). discriminate.
  - apply try_except_contains.
    intros e. now destruct (Hh e) as (text & m & -> & _).
  - intros e He. destruct (Hh e) as (text & m & Hhe & Hm).
    exists text, m. split; auto.
    rewrite (try_except_raised _ _ He), Hhe. reflexivity.
Qed.

Ltac handler :=
  intros e; unfold structured_error, error_type;
  destruct (is_ParseError e);
  (do 2 eexists; split; [reflexivity|]; eexists; repeat split).

Lemma analyze_handles (sql_ dialect : pyval) :
  let g := try_except (AnalyzeSqlTool.try_body sql_ dialect)
                      (fun e => AnalyzeSqlTool.on_error e sql_) in
  answers g /\ reports (AnalyzeSqlTool.try_body sql_ dialect) g sql_.
Proof.
  apply handled.
  - unfold AnalyzeSqlTool.try_body, AnalyzeSqlTool.analyze. speaks.
  - unfold AnalyzeSqlTool.on_error. handler.
Qed.

Lemma format_handles (sql_ dialect identify normalize : pyval) :
  let body := FormatSqlTool.try_body sql_ dialect identify normalize in
  let g := try_except body (fun e => FormatSqlTool.on_error e sql_) in
  answers g /\ reports body g sql_.
Proof.
  apply handled.
  - unfold FormatSqlTool.try_body. speaks.
  - unfold FormatSqlTool.on_error. handler.
Qed.

Lemma transpile_handles (sql_ source_dialect target_dialect pretty : pyval) :
  let body :=
    TranspileSqlTool.try_body sql_ source_dialect target_dialect pretty in
  let g := try_except body (fun e => TranspileSqlTool.on_error e sql_) in
  answers g /\ reports body g sql_.
Proof.
  apply handled.
  - unfold TranspileSqlTool.try_body. speaks.
  - unfold TranspileSqlTool.on_error. handler.
Qed.

Lemma loud_statement_info (i : nat) (stmts : list Expr) :
  loud (ValidateSqlTool.statement_info_from i stmts).
Proof.
  revert i. induction stmts as [|stmt rest IH]; intros i;
    cbn [ValidateSqlTool.statement_info_from].
  - discriminate.
  - loud. apply IH.
Qed.

Lemma validate_handles (sql_ dialect : pyval) :
  let body := ValidateSqlTool.try_body sql_ dialect in
  let g := try_except body
             (fun e => ValidateSqlTool.on_error e sql_ dialect) in
  answers g /\ reports body g sql_.
Proof.
  apply handled.
  - unfold ValidateSqlTool.try_body. speaks. apply loud_statement_info.
  - unfold ValidateSqlTool.on_error, ValidateSqlTool.error_info.
    intros e; unfold structured_error, error_type.
    destruct (is_ParseError e);
      [destruct (exn_errors e) as [[|err errs]|]|];
      (do 2 eexists; split; [reflexivity|]; eexists; repeat split).
Qed.

Lemma optimize_handles (sql_ dialect schema_str : pyval) :
  let body := OptimizeSqlTool.try_body sql_ dialect schema_str in
  let g := try_except body (fun e => OptimizeSqlTool.on_error e sql_) in
  answers g /\ reports body g sql_.
Proof.
  apply handled.
  - unfold OptimizeSqlTool.try_body, OptimizeSqlTool.load_schema,
      OptimizeSqlTool.run_optimizer, OptimizeSqlTool.respond.
    speaks.
  - unfold OptimizeSqlTool.on_error. handler.
Qed.

Lemma execute_handles (sql_ tables_str dialect : pyval) :
  let body := ExecuteSqlTool.try_body sql_ tables_str dialect in
  let g := try_except body (fun e => ExecuteSqlTool.on_error e sql_) in
  answers g /\ reports body g sql_.
Proof.
  apply handled.
  - unfold ExecuteSqlTool.try_body, ExecuteSqlTool.load_tables,
      ExecuteSqlTool.check_tables, ExecuteSqlTool.check_rows,
      ExecuteSqlTool.run_query, ExecuteSqlTool.respond.
    speaks.
  - unfold ExecuteSqlTool.on_error. handler.
Qed.

Lemma say_and_return_answers (text : string) :
  answers (yield (create_text_message text) ;;; return_).
Proof. split; [discriminate|reflexivity]. Qed.

(** The failure of the executor is handled inside the [try] block, by
    a handler of its own. *)
Lemma executor_failure (p : kwargs) (items : list (string * pyval)) (e : exn) :
  let sql_ := dict_get p "sql" (PStr EmptyString) in
  let tables_str := dict_get p "tables" (PStr EmptyString) in
  let dialect := dict_get p "dialect" (PStr EmptyString) in
  truthy sql_ = true ->
  truthy tables_str = true ->
  json_loads tables_str = Ok (PDict items) ->
  ExecuteSqlTool.check_tables items = ([], Normal tt) ->
  execute sql_ [("tables", PDict items);
                ("dialect", dialect_or_None dialect)] = Err e ->
  ExecuteSqlTool._invoke p =
    ([Called "execute" [("tables", PDict items);
                        ("dialect", dialect_or_None dialect)];
      Yielded (TextMessage ("Query execution failed: " ++ exn_str e));
      Yielded (JsonMessage (PDict [("success", PBool false);
                                   ("error", PStr (exn_str e));
                                   ("original_sql", sql_)]))],
     Returned).
Proof.
  cbv zeta. intros Hsql Htables Hjson Hcheck Hexec.
  rewrite (invoke_try_body_execute p Hsql Htables).
  unfold ExecuteSqlTool.try_body, ExecuteSqlTool.load_tables, call.
  rewrite Hjson. cbn [bind try_except pure ExecuteSqlTool.table_items].
  rewrite Hcheck. cbn [bind].
  unfold ExecuteSqlTool.run_query, lib_call. rewrite Hexec. reflexivity.
Qed.

(** C1, as the code has it.  Every invocation of each of the six tools
    yields at least one message and lets no exception escape.  When the
    [try] block of a tool raises, whatever the exception and wherever in
    the block, the messages yielded so far are followed by a text and a
    structured error payload with the error type ([ParseError], or the
    name of the class of the exception), the error message and the
    original SQL.  A failure of the executor does not reach that
    handler: the Execute tool answers it with a text and a payload that
    holds [success] false, the message under [error] and the original
    SQL, and no error type. *)
Theorem failures_are_reported (p : kwargs) :
  let get key := dict_get p key (PStr EmptyString) in
  let sql_ := get "sql" in
  (answers (AnalyzeSqlTool._invoke p) /\
   answers (FormatSqlTool._invoke p) /\
   answers (TranspileSqlTool._invoke p) /\
   answers (ValidateSqlTool._invoke p) /\
   answers (OptimizeSqlTool._invoke p) /\
   answers (ExecuteSqlTool._invoke p)) /\
  (truthy sql_ = true ->
   reports (AnalyzeSqlTool.try_body sql_ (get "dialect"))
           (AnalyzeSqlTool._invoke p) sql_ /\
   reports (FormatSqlTool.try_body sql_ (get "dialect")
              (dict_get p "identify" (PBool false))
              (dict_get p "normalize" (PBool false)))
           (FormatSqlTool._invoke p) sql_ /\
   reports (ValidateSqlTool.try_body sql_ (get "dialect"))
           (ValidateSqlTool._invoke p) sql_ /\
   reports (OptimizeSqlTool.try_body sql_ (get "dialect") (get "schema"))
           (OptimizeSqlTool._invoke p) sql_ /\
   (truthy (get "target_dialect") = true ->
    reports (TranspileSqlTool.try_body sql_ (get "source_dialect")
               (get "target_dialect") (dict_get p "pretty" (PBool true)))
            (TranspileSqlTool._invoke p) sql_) /\
   (truthy (get "tables") = true ->
    reports (ExecuteSqlTool.try_body sql_ (get "tables") (get "dialect"))
            (ExecuteSqlTool._invoke p) sql_)) /\
  (forall (items : list (string * pyval)) (e : exn),
     truthy sql_ = true ->
     truthy (get "tables") = true ->
     json_loads (get "tables") = Ok (PDict items) ->
     ExecuteSqlTool.check_tables items = ([], Normal tt) ->
     execute sql_ [("tables", PDict items);
                   ("dialect", dialect_or_None (get "dialect"))] = Err e ->
     snd (ExecuteSqlTool._invoke p) = Returned /\
     messages (ExecuteSqlTool._invoke p) =
       [TextMessage ("Query execution failed: " ++ exn_str e);
        JsonMessage (PDict [("success", PBool false);
                            ("error", PStr (exn_str e));
                            ("original_sql", sql_)])]).
Proof.
  cbv zeta. split; [|split].
  - unfold AnalyzeSqlTool._invoke, FormatSqlTool._invoke,
      TranspileSqlTool._invoke, ValidateSqlTool._invoke,
      OptimizeSqlTool._invoke, ExecuteSqlTool._invoke.
    destruct (truthy (dict_get p "sql" (PStr EmptyString))); cbn [negb];
      [|repeat split; discriminate].
    split; [apply analyze_handles|].
    split; [apply format_handles|].
    split; [|split; [apply validate_handles|split; [apply optimize_handles|]]].
    + destruct (truthy (dict_get p "target_dialect" (PStr EmptyString)));
        cbn [negb]; [apply transpile_handles|apply say_and_return_answers].
    + destruct (truthy (dict_get p "tables" (PStr EmptyString)));
        cbn [negb]; [apply execute_handles|apply say_and_return_answers].
  - intros Hsql.
    unfold AnalyzeSqlTool._invoke, FormatSqlTool._invoke,
      TranspileSqlTool._invoke, ValidateSqlTool._invoke,
      OptimizeSqlTool._invoke, ExecuteSqlTool._invoke.
    rewrite Hsql. cbn [negb].
    split; [apply analyze_handles|].
    split; [apply format_handles|].
    split; [apply validate_handles|].
    split; [apply optimize_handles|].
    split; intros ->; cbn [negb];
      [apply transpile_handles|apply execute_handles].
  - intros items e Hsql Htables Hjson Hcheck Hexec.
    rewrite (executor_failure p Hsql Htables Hjson Hcheck Hexec).
    split; reflexivity.
Qed.

End Failures.

(** On the fixture: [SELECT FROM] does not parse and the Analyze tool
    reports it; the executor cannot run [SELECT x FROM missing] on
    tables that hold [t] alone, and the Execute tool answers with the
    payload of its inner handler. *)
Lemma failures_are_reported_witness :
  (exists text m,
     messages (AnalyzeSqlTool._invoke (L := Fixture.library true)
                 [("sql", PStr "SELECT FROM")]) = [TextMessage text; m] /\
     structured_error Fixture.parse_error (PStr "SELECT FROM") m) /\
  messages (ExecuteSqlTool._invoke (L := Fixture.library true)
              [("sql", PStr "SELECT x FROM missing");
               ("tables", PStr Fixture.tables_text)]) =
    [TextMessage ("Query execution failed: " ++
                  exn_str Fixture.unresolved_column);
     JsonMessage (PDict [("success", PBool false);
                         ("error", PStr (exn_str Fixture.unresolved_column));
                         ("original_sql", PStr "SELECT x FROM missing")])].
Proof.
  split.
  - destruct (@failures_are_reported (Fixture.library true)
                [("sql", PStr "SELECT FROM")]) as (_ & Hreports & _).
    destruct (Hreports eq_refl) as (Hanalyze & _).
    exact (Hanalyze Fixture.parse_error eq_refl).
  - destruct (@failures_are_reported (Fixture.library true)
                [("sql", PStr "SELECT x FROM missing");
                 ("tables", PStr Fixture.tables_text)]) as (_ & _ & Hexec).
    exact (proj2 (Hexec
                    [("t", PList [PDict [("id", PInt 1); ("v", PInt 10)];
                                  PDict [("id", PInt 2); ("v", PInt 20)]])]
                    Fixture.unresolved_column
                    eq_refl eq_refl eq_refl eq_refl eq_refl)).
Defined.

(** A failure whose payload has no error type: the query names a table
    that the tables do not hold, the executor raises, and the payload of
    the Execute tool holds [success], [error] and [original_sql] only. *)
Lemma executor_failure_without_error_type :
  execute (Library := Fixture.library true) (PStr "SELECT x FROM missing")
    [("tables", Fixture.tables_value); ("dialect", PNone)] =
    Err Fixture.unresolved_column /\
  ExecuteSqlTool._invoke (L := Fixture.library true)
    [("sql", PStr "SELECT x FROM missing");
     ("tables", PStr Fixture.tables_text)] =
    ([Called "execute" [("tables", Fixture.tables_value); ("dialect", PNone)];
      Yielded (TextMessage ("Query execution failed: " ++
                            exn_str Fixture.unresolved_column));
      Yielded (JsonMessage
                 (PDict [("success", PBool false);
                         ("error", PStr (exn_str Fixture.unresolved_column));
                         ("original_sql", PStr "SELECT x FROM missing")]))],
     Returned) /\
  dict_has [("success", PBool false);
            ("error", PStr (exn_str Fixture.unresolved_column));
            ("original_sql", PStr "SELECT x FROM missing")]
           "error_type" = false /\
  ~ structured_error
      Fixture.unresolved_column
      (PStr "SELECT x FROM missing")
      (JsonMessage (PDict [("success", PBool false);
                           ("error", PStr (exn_str Fixture.unresolved_column));
                           ("original_sql", PStr "SELECT x FROM missing")])).
Proof.
  repeat split.
  intros (d & Hd & Htype & _). inversion Hd; subst d. discriminate.
Qed.

(* ------------------------------------------------------------------ *)
(** ** More on the metadata extraction *)

Section Dedup.
Context {A B : Type}.
Variable eq_dec : forall a b : B, {a = b} + {a <> b}.
Variable f : A -> B.

(** On keys that do not repeat, the dedup loop drops nothing and keeps
    the order. *)
Lemma collect_distinct (xs : list A) (acc : list B) :
  NoDup (acc ++ map f xs) ->
  fold_left (fun acc x => AnalyzeSqlTool.append_new eq_dec acc (f x)) xs acc =
  (acc ++ map f xs)%list.
Proof.
  revert acc. induction xs as [|x xs IH]; cbn; intros acc Hnodup.
  - now rewrite app_nil_r.
  - unfold AnalyzeSqlTool.append_new at 2.
    destruct (in_dec eq_dec (f x) acc) as [Hin|Hout].
    + apply NoDup_remove_2 in Hnodup. destruct Hnodup.
      apply in_or_app. now left.
    + rewrite IH; rewrite <- app_assoc; cbn; auto.
Qed.

End Dedup.

Section MoreExtraction.
Context {L : Library}.

Import AnalyzeSqlTool.

Lemma table_info_json_inj (a b : table_info) :
  table_info_json a = table_info_json b -> a = b.
Proof.
  destruct a as [n1 [a1|] [d1|] [c1|]], b as [n2 [a2|] [d2|] [c2|]]; cbn;
    intros H; inversion H; reflexivity.
Qed.

(** X1. Table references are deduplicated on (name, alias, db,
    catalog): the entries of [tables] are pairwise distinct, and an
    entry is listed exactly when some table node of the statement has
    it. *)
Theorem tables_deduplicated (parsed : Expr) :
  NoDup (map table_info_json (extract_tables parsed)) /\
  (forall info,
     In info (extract_tables parsed) <->
     exists table, In table (find_all parsed exp.Table) /\
                   make_table_info table = info).
Proof.
  split.
  - apply Injective_map_NoDup.
    + intros a b. apply table_info_json_inj.
    + unfold extract_tables. apply collect_NoDup. constructor.
  - intros info. unfold extract_tables. rewrite collect_In, in_map_iff.
    cbn. split.
    + intros [[]|(table & H1 & H2)]. eauto.
    + intros (table & H1 & H2). right. eauto.
Qed.

(** X2. The extraction of columns and tables invents nothing and keeps
    the order of the traversal: every column entry is the key of a column
    node, and when no key repeats among the nodes the list of entries is
    the list of their keys, in order. *)
Theorem extraction_keeps_traversal_order (parsed : Expr) :
  (forall info,
     In info (extract_columns parsed) ->
     exists column, In column (find_all parsed exp.Column) /\
                    make_column_info column = info) /\
  (NoDup (map make_column_info (find_all parsed exp.Column)) ->
   extract_columns parsed =
     map make_column_info (find_all parsed exp.Column)) /\
  (NoDup (map make_table_info (find_all parsed exp.Table)) ->
   extract_tables parsed = map make_table_info (find_all parsed exp.Table)).
Proof.
  split; [|split].
  - intros info. unfold extract_columns. rewrite collect_In, in_map_iff.
    cbn. intros [[]|(column & H1 & H2)]. eauto.
  - intros H. unfold extract_columns. now rewrite collect_distinct.
  - intros H. unfold extract_tables. now rewrite collect_distinct.
Qed.

(** The invariant of the loop over the function nodes. *)
Lemma extract_functions_from_spec (funcs : list Expr)
  (acc functions : list (string * string)) :
  NoDup (map fst acc) ->
  extract_functions_from funcs acc = Ok functions ->
  NoDup (map fst functions) /\
  (forall name, In name (map fst acc) -> In name (map fst functions)) /\
  (forall func, In func funcs -> In (type_name func) (map fst functions)) /\
  (forall name text,
     In (name, text) functions ->
     In (name, text) acc \/
     (~ In name (map fst acc) /\
      exists func,
        find (fun f => String.eqb (type_name f) name) funcs = Some func /\
        sql func [] = Ok text)).
Proof.
  revert acc. induction funcs as [|func rest IH]; cbn; intros acc Hacc H.
  - inversion H; subst. repeat split; auto. intros _ [].
  - destruct (in_dec string_dec (type_name func) (map fst acc)) as [Hin|Hout].
    + destruct (IH acc Hacc H) as (H1 & H2 & H3 & H4).
      repeat split; auto.
      * intros func' [<-|Hf]; auto.
      * intros name text Hnt.
        destruct (H4 name text Hnt) as [Ha|(Hn & func' & Hfind & Hsql)];
          [now left|right]. split; auto.
        destruct (String.eqb_spec (type_name func) name) as [E|E].
        -- subst name. contradiction.
        -- eauto.
    + destruct (sql func []) as [s|e] eqn:Hsql; [|discriminate].
      assert (Hacc' : NoDup (map fst (acc ++ [(type_name func, s)]))).
      { rewrite map_app. cbn. apply NoDup_app; auto.
        - repeat constructor. intros [].
        - intros a Ha [<-|[]]. contradiction. }
      destruct (IH _ Hacc' H) as (H1 & H2 & H3 & H4).
      assert (Hhere : In (type_name func) (map fst functions)).
      { apply H2. rewrite map_app. apply in_or_app. right. now left. }
      repeat split; auto.
      * intros name Hn. apply H2. rewrite map_app. apply in_or_app.
        now left.
      * intros func' [<-|Hf]; auto.
      * intros name text Hnt.
        destruct (H4 name text Hnt) as [Ha|(Hn & func' & Hfind & Hsql')].
        -- apply in_app_or in Ha. destruct Ha as [Ha|[Ha|[]]]; [now left|].
           inversion Ha; subst. right. split; auto.
           exists func. now rewrite String.eqb_refl.
        -- right.
           assert (Hn' : ~ In name (map fst acc)).
           { intros Hc. apply Hn. rewrite map_app. apply in_or_app.
             now left. }
           split; auto.
           destruct (String.eqb_spec (type_name func) name) as [E|E].
           ++ subst name. exfalso. apply Hn. rewrite map_app.
              apply in_or_app. right. now left.
           ++ eauto.
Qed.

Lemma extract_functions_from_total (funcs : list Expr)
  (acc : list (string * string)) :
  (forall name func,
     ~ In name (map fst acc) ->
     find (fun f => String.eqb (type_name f) name) funcs = Some func ->
     exists text, sql func [] = Ok text) ->
  exists functions, extract_functions_from funcs acc = Ok functions.
Proof.
  revert acc. induction funcs as [|func rest IH]; cbn; intros acc H.
  - eauto.
  - destruct (in_dec string_dec (type_name func) (map fst acc)) as [Hin|Hout].
    + apply IH. intros name func' Hn Hfind. apply (H name func' Hn).
      destruct (String.eqb_spec (type_name func) name) as [E|E]; auto.
      subst name. contradiction.
    + destruct (H (type_name func) func Hout) as [text ->].
      { now rewrite String.eqb_refl. }
      apply IH. intros name func' Hn Hfind.
      assert (Hn' : ~ In name (map fst acc)).
      { intros Hc. apply Hn. rewrite map_app. apply in_or_app. now left. }
      apply (H name func' Hn').
      destruct (String.eqb_spec (type_name func) name) as [E|E]; auto.
      subst name. exfalso. apply Hn. rewrite map_app. apply in_or_app.
      right. now left.
Qed.

(** X3. Functions are listed once per class name: the names of the
    entries are pairwise distinct, every function node of the statement
    has its class listed, and the text kept for a class is the rendering
    of its first node in the traversal.  Only those first nodes are
    rendered: when each of them renders, the list is produced, whatever
    rendering a later node of the same class would do. *)
Theorem functions_one_per_class (parsed : Expr) :
  (forall functions,
     extract_functions parsed = Ok functions ->
     NoDup (map fst functions) /\
     (forall func, In func (find_all parsed exp.Func) ->
                   In (type_name func) (map fst functions)) /\
     (forall name text,
        In (name, text) functions ->
        exists func,
          find (fun f => String.eqb (type_name f) name)
               (find_all parsed exp.Func) = Some func /\
          sql func [] = Ok text)) /\
  ((forall name func,
      find (fun f => String.eqb (type_name f) name)
           (find_all parsed exp.Func) = Some func ->
      exists text, sql func [] = Ok text) ->
   exists functions, extract_functions parsed = Ok functions).
Proof.
  split.
  - intros functions H.
    destruct (@extract_functions_from_spec (find_all parsed exp.Func) []
                functions (NoDup_nil _) H)
      as (H1 & _ & H3 & H4).
    repeat split; auto.
    intros name text Hnt.
    destruct (H4 name text Hnt) as [[]|(_ & func & Hf)]. eauto.
  - intros H. apply extract_functions_from_total.
    intros name func _. apply H.
Qed.

End MoreExtraction.

(* ------------------------------------------------------------------ *)
(** ** Rows and values of the executor *)

Section Values.

(** Induction on values, through the lists and dicts they contain. *)
Lemma pyval_induction (P : pyval -> Prop) :
  P PNone ->
  (forall b, P (PBool b)) ->
  (forall z, P (PInt z)) ->
  (forall f, P (PFloat f)) ->
  (forall s, P (PStr s)) ->
  (forall l, Forall P l -> P (PList l)) ->
  (forall l, Forall P l -> P (PTuple l)) ->
  (forall d, Forall (fun kv => P (snd kv)) d -> P (PDict d)) ->
  (forall d, Forall (fun kv => P (fst kv) /\ P (snd kv)) d -> P (PMap d)) ->
  (forall s, P (POther s)) ->
  forall v, P v.
Proof.
  intros HNone HBool HInt HFloat HStr HList HTuple HDict HMap HOther.
  fix IH 1. intros [ | b | z | f | s | l | l | d | d | s].
  - exact HNone.
  - apply HBool.
  - apply HInt.
  - apply HFloat.
  - apply HStr.
  - apply HList. induction l as [|v l IHl]; constructor;
      [apply IH|exact IHl].
  - apply HTuple. induction l as [|v l IHl]; constructor;
      [apply IH|exact IHl].
  - apply HDict. induction d as [|[k v] d IHd]; constructor;
      [apply IH|exact IHd].
  - apply HMap. induction d as [|[k v] d IHd]; constructor;
      [split; apply IH|exact IHd].
  - apply HOther.
Qed.

Lemma forallb_map_in {A B} (f : A -> B) (p : B -> bool) (q : A -> bool)
  (l : list A) :
  (forall x, In x l -> p (f x) = q x) ->
  forallb p (map f l) = forallb q l.
Proof.
  induction l as [|x l IH]; cbn; intros H; [reflexivity|].
  rewrite H, IH; auto.
Qed.

Import ExecuteSqlTool.

Lemma serialize_but_keys (v : pyval) :
  plain_but_keys (_serialize_value v) = true.
Proof.
  induction v as [ | | | | | l IH | l IH | d IH | d IH | ]
    using pyval_induction; cbn; auto.
  - rewrite forallb_forall. intros x Hx. apply in_map_iff in Hx.
    destruct Hx as (y & <- & Hy). rewrite Forall_forall in IH. auto.
  - rewrite forallb_forall. intros x Hx. apply in_map_iff in Hx.
    destruct Hx as (y & <- & Hy). rewrite Forall_forall in IH. auto.
  - rewrite forallb_forall. intros x Hx. apply in_map_iff in Hx.
    destruct Hx as (y & <- & Hy). rewrite Forall_forall in IH. cbn.
    now apply IH.
  - rewrite forallb_forall. intros x Hx. apply in_map_iff in Hx.
    destruct Hx as (y & <- & Hy). rewrite Forall_forall in IH. cbn.
    now apply IH.
Qed.

Lemma serialize_of_plain (v : pyval) :
  plain_but_keys v = true -> _serialize_value v = v.
Proof.
  induction v as [ | | | | | l IH | l IH | d IH | d IH | ]
    using pyval_induction; cbn; auto; try discriminate.
  - intros H. f_equal. rewrite forallb_forall in H.
    rewrite Forall_forall in IH.
    rewrite <- (map_id l) at 2. apply map_ext_in. auto.
  - intros H. f_equal. rewrite forallb_forall in H.
    rewrite Forall_forall in IH.
    rewrite <- (map_id d) at 2. apply map_ext_in.
    intros [k v] Hkv. cbn. f_equal. apply (IH _ Hkv). apply (H _ Hkv).
  - intros H. f_equal. rewrite forallb_forall in H.
    rewrite Forall_forall in IH.
    rewrite <- (map_id d) at 2. apply map_ext_in.
    intros [k v] Hkv. cbn. f_equal. apply (IH _ Hkv). apply (H _ Hkv).
Qed.

Lemma serialize_keys (v : pyval) :
  plain (_serialize_value v) = keys_plain v.
Proof.
  induction v as [ | | | | | l IH | l IH | d IH | d IH | ]
    using pyval_induction; cbn; auto.
  - apply forallb_map_in. now rewrite Forall_forall in IH.
  - apply forallb_map_in. now rewrite Forall_forall in IH.
  - apply forallb_map_in. rewrite Forall_forall in IH.
    intros kv Hkv. cbn. now apply IH.
  - apply forallb_map_in. rewrite Forall_forall in IH.
    intros kv Hkv. cbn. f_equal. now apply IH.
Qed.

(** X4. [_serialize_value] converts the values and leaves the keys.
    In its result there is no tuple and no object of another class
    outside the keys of dicts: tuples have become lists and such objects
    their text, at every depth of lists, tuples and the values of dicts.
    A value that is already so is left as it is, so serializing twice is
    serializing once.  The keys of dicts are not converted: the result
    is built from [None], booleans, numbers, text, lists and dicts
    alone exactly when the keys of the dicts of the argument are. *)
Theorem serialize_value_converts_values (val : pyval) :
  plain_but_keys (_serialize_value val) = true /\
  (plain_but_keys val = true -> _serialize_value val = val) /\
  _serialize_value (_serialize_value val) = _serialize_value val /\
  plain (_serialize_value val) = keys_plain val.
Proof.
  split; [apply serialize_but_keys|]. split; [apply serialize_of_plain|].
  split; [apply serialize_of_plain, serialize_but_keys|].
  apply serialize_keys.
Qed.

(** [d.get(k)] after [d[key] = v] *)
Lemma dict_get_set (d : list (string * pyval)) (key k : string)
  (v default : pyval) :
  dict_get (dict_set d key v) k default =
  if String.eqb key k then v else dict_get d k default.
Proof.
  induction d as [|[k' w] d IH]; cbn.
  - reflexivity.
  - destruct (String.eqb_spec k' key) as [E|E]; cbn.
    + subst k'. now destruct (String.eqb key k).
    + destruct (String.eqb_spec k' k) as [E'|E']; auto.
      subst k'. destruct (String.eqb_spec key k) as [E''|E'']; auto.
      now subst.
Qed.

Lemma dict_set_new (d : list (string * pyval)) (key : string) (v : pyval) :
  ~ In key (keys d) -> dict_set d key v = (d ++ [(key, v)])%list.
Proof.
  induction d as [|[k w] d IH]; cbn; intros H; auto.
  destruct (String.eqb_spec k key) as [E|E]; [tauto|].
  f_equal. apply IH. tauto.
Qed.

Lemma dict_set_plain (d : list (string * pyval)) (key : string) (v : pyval) :
  plain_but_keys v = true ->
  forallb (fun kv => plain_but_keys (snd kv)) d = true ->
  forallb (fun kv => plain_but_keys (snd kv)) (dict_set d key v) = true.
Proof.
  intros Hv. induction d as [|[k w] d IH]; cbn; intros H.
  - now rewrite Hv.
  - apply andb_prop in H as [H1 H2].
    destruct (String.eqb k key); cbn.
    + now rewrite Hv, H2.
    + now rewrite H1, IH.
Qed.

Lemma fill_keeps (row : list pyval) (indexed : list (nat * string))
  (start : list (string * pyval)) (col : string) (default : pyval) :
  ~ In col (map snd indexed) ->
  dict_get (fill row start indexed) col default = dict_get start col default.
Proof.
  revert start. induction indexed as [|[j c] indexed IH]; cbn;
    intros start Hout; auto.
  unfold fill in *. cbn [fold_left fst snd]. rewrite IH by tauto.
  rewrite dict_get_set.
  destruct (String.eqb_spec c col) as [E|E]; auto. tauto.
Qed.

Lemma fill_get_last (row : list pyval) (indexed : list (nat * string))
  (start : list (string * pyval)) (i : nat) (col : string)
  (before after : list (nat * string)) (default : pyval) :
  indexed = (before ++ (i, col) :: after)%list ->
  ~ In col (map snd after) ->
  dict_get (fill row start indexed) col default =
  _serialize_value (nth i row PNone).
Proof.
  intros -> Hlast.
  assert (E : fill row start (before ++ (i, col) :: after) =
              fill row (dict_set (fill row start before) col
                          (_serialize_value (nth i row PNone))) after).
  { unfold fill. now rewrite fold_left_app. }
  rewrite E, fill_keeps by assumption.
  now rewrite dict_get_set, String.eqb_refl.
Qed.

Lemma fill_distinct (row : list pyval) (indexed : list (nat * string))
  (start : list (string * pyval)) :
  NoDup (keys start ++ map snd indexed) ->
  fill row start indexed =
  (start ++ map (fun ic => (snd ic,
                            _serialize_value (nth (fst ic) row PNone)))
                indexed)%list.
Proof.
  revert start. induction indexed as [|[i c] indexed IH]; cbn;
    intros start Hnodup.
  - now rewrite app_nil_r.
  - unfold fill in *. cbn [fold_left fst snd].
    assert (Hnew : ~ In c (keys start)).
    { apply NoDup_remove_2 in Hnodup. intros Hc. apply Hnodup.
      apply in_or_app. now left. }
    rewrite dict_set_new by exact Hnew. rewrite IH.
    + now rewrite <- app_assoc.
    + unfold keys in *. rewrite map_app. cbn. rewrite <- app_assoc. exact Hnodup.
Qed.

Lemma fill_plain (row : list pyval) (indexed : list (nat * string))
  (start : list (string * pyval)) :
  forallb (fun kv => plain_but_keys (snd kv)) start = true ->
  forallb (fun kv => plain_but_keys (snd kv)) (fill row start indexed) = true.
Proof.
  revert start. induction indexed as [|[i c] indexed IH]; cbn; intros start H.
  - exact H.
  - apply IH. apply dict_set_plain; auto using serialize_but_keys.
Qed.

Lemma combine_seq_split (columns_ : list string) (i start : nat) (col : string) :
  nth_error columns_ i = Some col ->
  combine (seq start (List.length columns_)) columns_ =
  (combine (seq start i) (firstn i columns_) ++
   (start + i, col)%nat ::
   combine (seq (S (start + i)) (List.length columns_ - S i))
           (skipn (S i) columns_))%list.
Proof.
  revert i start. induction columns_ as [|c cs IH]; intros i start Hi.
  - destruct i; discriminate.
  - destruct i as [|i]; cbn in *.
    + inversion Hi; subst. rewrite Nat.add_0_r, Nat.sub_0_r. reflexivity.
    + f_equal. rewrite (IH i (S start) Hi).
      now rewrite <- plus_n_Sm.
Qed.

Lemma map_snd_combine_seq (cs : list string) (start : nat) :
  map snd (combine (seq start (List.length cs)) cs) = cs.
Proof.
  revert start. induction cs as [|c cs IH]; cbn; intros start; auto.
  now rewrite IH.
Qed.

Lemma in_map_snd_combine (xs : list nat) (cs : list string) (c : string) :
  In c (map snd (combine xs cs)) -> In c cs.
Proof.
  revert cs. induction xs as [|x xs IH]; intros [|c' cs]; cbn; try tauto.
  intros [H|H]; auto.
Qed.

(** X5. The dict of a row holds, for a column name, the serialized
    value at the index of the last column of that name, and [None] when
    the row is too short to have one: with a name that occurs once this
    is the value under that column; with a name that occurs twice the
    later column wins. *)
Theorem row_to_dict_lookup (columns_ : list string) (row : list pyval)
  (i : nat) (col : string) (default : pyval) :
  nth_error columns_ i = Some col ->
  ~ In col (skipn (S i) columns_) ->
  dict_get (row_to_dict columns_ row) col default =
    _serialize_value (nth i row PNone) /\
  (List.length row <= i ->
   dict_get (row_to_dict columns_ row) col default = PNone)%nat.
Proof.
  intros Hi Hlast.
  assert (H : dict_get (row_to_dict columns_ row) col default =
              _serialize_value (nth i row PNone)).
  { unfold row_to_dict. fold (fill row []).
    eapply fill_get_last.
    - apply combine_seq_split with (start := 0%nat). exact Hi.
    - intros Hc. apply Hlast. eapply in_map_snd_combine. exact Hc. }
  split; auto. intros Hshort. rewrite H.
  now rewrite nth_overflow.
Qed.

(** X6. When the column names are pairwise distinct, the dict of a row
    has exactly the columns as its keys, in their order, each with the
    serialized value at its index. *)
Theorem row_to_dict_distinct_columns (columns_ : list string)
  (row : list pyval) :
  NoDup columns_ ->
  keys (row_to_dict columns_ row) = columns_ /\
  row_to_dict columns_ row =
    map (fun ic => (snd ic, _serialize_value (nth (fst ic) row PNone)))
        (combine (seq 0 (List.length columns_)) columns_).
Proof.
  intros Hnodup.
  assert (H : row_to_dict columns_ row =
              map (fun ic => (snd ic,
                              _serialize_value (nth (fst ic) row PNone)))
                  (combine (seq 0 (List.length columns_)) columns_)).
  { unfold row_to_dict. fold (fill row []). apply fill_distinct.
    cbn. now rewrite map_snd_combine_seq. }
  split; auto. rewrite H. unfold keys. rewrite map_map. cbn.
  apply map_snd_combine_seq.
Qed.

End Values.

(* ------------------------------------------------------------------ *)
(** ** More on the Execute tool *)

Section MoreExecution.
Context {L : Library}.

Import ExecuteSqlTool.

Lemma check_rows_passes (table_name : string) (table_data : list pyval) :
  forallb is_dict table_data = true ->
  check_rows table_name table_data = ([], Normal tt).
Proof.
  unfold check_rows.
  induction table_data as [|row rest IH]; cbn [forallb for_each]; intros H;
    auto.
  apply andb_prop in H as [H1 H2].
  destruct row; try discriminate; cbn [bind pure]; now rewrite IH.
Qed.

Lemma check_rows_fails (table_name : string) (table_data : list pyval) :
  forallb is_dict table_data = false ->
  check_rows table_name table_data =
    ([Yielded (TextMessage
                 ("Each row in table '" ++ table_name ++
                  "' must be an object."))], Returned).
Proof.
  unfold check_rows.
  induction table_data as [|row rest IH]; cbn [forallb for_each]; intros H;
    [discriminate|].
  destruct row; try reflexivity;
    cbn [is_dict andb] in H; cbn [bind pure]; now rewrite IH.
Qed.

Lemma check_tables_item (item : string * pyval) :
  (well_shaped item = true ->
   (match snd item with
    | PList table_data => check_rows (fst item) table_data
    | _ =>
        yield (create_text_message
                 ("Table '" ++ fst item ++
                  "' must be an array of row objects.")) ;;;
        return_
    end) = ([], Normal tt)) /\
  (well_shaped item = false ->
   (match snd item with
    | PList table_data => check_rows (fst item) table_data
    | _ =>
        yield (create_text_message
                 ("Table '" ++ fst item ++
                  "' must be an array of row objects.")) ;;;
        return_
    end) = ([Yielded (TextMessage (shape_complaint item))], Returned)).
Proof.
  unfold well_shaped, shape_complaint. destruct item as [name data]. cbn.
  destruct data; split; intros H; try discriminate; try reflexivity.
  - now apply check_rows_passes.
  - now apply check_rows_fails.
Qed.

(** The loop over the tables, by induction on them: it goes through the
    tables that are well shaped and stops at the first that is not. *)
Lemma check_tables_cases (tables : list (string * pyval)) :
  (forallb well_shaped tables = true ->
   check_tables tables = ([], Normal tt)) /\
  (forallb well_shaped tables = false ->
   exists before item after,
     tables = (before ++ item :: after)%list /\
     forallb well_shaped before = true /\
     well_shaped item = false /\
     check_tables tables =
       ([Yielded (TextMessage (shape_complaint item))], Returned)).
Proof.
  unfold check_tables.
  induction tables as [|item rest [IH1 IH2]]; cbn [for_each forallb].
  - split; [reflexivity|discriminate].
  - destruct (check_tables_item item) as [Hok Hbad].
    destruct (well_shaped item) eqn:Hitem; cbn [andb]; split; intros H.
    + rewrite (Hok eq_refl). cbn [bind]. now rewrite IH1.
    + destruct (IH2 H) as (before & item' & after & -> & Hb & Hi & Hc).
      exists (item :: before), item', after. cbn [forallb app].
      rewrite Hitem, Hb.
      repeat split; auto. rewrite (Hok eq_refl). cbn [bind]. now rewrite Hc.
    + discriminate.
    + exists [], item, rest. repeat split; auto.
      now rewrite (Hbad eq_refl).
Qed.

(** X7. The check of the tables passes, silently, exactly when every
    table is a list whose rows are all dicts.  Otherwise it yields one
    text and returns, and the text names the first table that is not:
    as not being an array when it is not a list, as having a row that
    is no object when it is. *)
Theorem check_tables_shape (tables : list (string * pyval)) :
  (forallb well_shaped tables = true ->
   check_tables tables = ([], Normal tt)) /\
  (forallb well_shaped tables = false ->
   exists before item after,
     tables = (before ++ item :: after)%list /\
     forallb well_shaped before = true /\
     well_shaped item = false /\
     check_tables tables =
       ([Yielded (TextMessage (shape_complaint item))], Returned)).
Proof.
  split; intros Hshape.
  - now apply check_tables_cases.
  - now apply check_tables_cases.
Qed.

(** X8. The Execute tool does not run a query on tables it cannot
    use.  When the tables text is not JSON, decodes to something that is
    no object, or holds a table that is not a list of objects, the
    invocation yields exactly one text, makes no call of the executor
    and returns. *)
Theorem unusable_tables_not_executed (p : kwargs) :
  let sql_ := dict_get p "sql" (PStr EmptyString) in
  let tables_str := dict_get p "tables" (PStr EmptyString) in
  truthy sql_ = true ->
  truthy tables_str = true ->
  (forall e, json_loads tables_str = Err e -> is_JSONDecodeError e = true ->
     only_says ("Invalid tables JSON: " ++ exn_str e) (_invoke p)) /\
  (forall tables, json_loads tables_str = Ok tables -> is_dict tables = false ->
     only_says "Tables must be a JSON object with table names as keys."
               (_invoke p)) /\
  (forall items, json_loads tables_str = Ok (PDict items) ->
     forallb well_shaped items = false ->
     exists text, only_says text (_invoke p)).
Proof.
  cbv zeta. intros Hsql Htables.
  rewrite (invoke_try_body_execute p Hsql Htables).
  unfold try_body, load_tables, call. split; [|split].
  - intros e -> He. cbn [bind try_except raise]. rewrite He. repeat split.
  - intros tables -> Hdict. destruct tables; try discriminate; repeat split.
  - intros items -> Hshape.
    destruct (proj2 (check_tables_cases items) Hshape)
      as (before & item & after & _ & _ & _ & Hcheck).
    exists (shape_complaint item). cbn [bind try_except pure table_items].
    rewrite Hcheck. repeat split.
Qed.

Lemma value_dict_plain (row : pyval) :
  forallb (fun kv => plain_but_keys (snd kv)) (value_dict row) = true.
Proof. unfold value_dict. cbn. now rewrite serialize_but_keys. Qed.

Lemma row_to_dict_plain (columns_ : list string) (row : list pyval) :
  forallb (fun kv => plain_but_keys (snd kv)) (row_to_dict columns_ row) =
  true.
Proof. unfold row_to_dict. fold (fill row []). now apply fill_plain. Qed.

Lemma convert_row_plain (columns_ : list string) (row : pyval) :
  forallb (fun kv => plain_but_keys (snd kv)) (convert_row columns_ row) =
  true.
Proof.
  unfold convert_row.
  destruct row; auto using value_dict_plain, row_to_dict_plain.
Qed.

Lemma convert_iterated_row_plain (columns_ : list string) (row : pyval) :
  forallb (fun kv => plain_but_keys (snd kv))
          (convert_iterated_row columns_ row) = true.
Proof.
  unfold convert_iterated_row.
  destruct (row_list row); auto using value_dict_plain, row_to_dict_plain.
Qed.

(** X9. Whatever table object the executor returns, when the
    conversion of its rows does not raise there is one converted row for
    each row of the object: for each element of [rows] when the object
    has that attribute, and otherwise for each row that the iteration
    over the object got through, which ended exhausted or by a
    [TypeError]; the rows converted before the [TypeError] are kept.  In
    the converted rows there is no tuple and no object of another class
    outside the keys of dicts. *)
Theorem converted_rows_kept (result_ : option ResultObj)
  (columns_ : list string) (result_data : list (list (string * pyval))) :
  convert_result result_ = Ok (columns_, result_data) ->
  plain_but_keys (PList (map PDict result_data)) = true /\
  List.length result_data =
    match result_ with
    | None => 0%nat
    | Some r =>
        match rows r with
        | Some rs => List.length rs
        | None => List.length (fst (iterate r))
        end
    end /\
  (forall r e,
     result_ = Some r -> rows r = None -> snd (iterate r) = Some e ->
     is_TypeError e = true).
Proof.
  unfold convert_result. intros H. split; [|split].
  - cbn. rewrite forallb_forall. intros x Hx. apply in_map_iff in Hx.
    destruct Hx as (row & <- & Hrow). cbn.
    destruct result_ as [r|]; [|inversion H; subst; destruct Hrow].
    destruct (rows r) as [rs|].
    + inversion H; subst. apply in_map_iff in Hrow.
      destruct Hrow as (y & <- & _). apply convert_row_plain.
    + assert (E : result_data =
                  map (convert_iterated_row
                         match columns r with Some cs => cs | None => [] end)
                      (fst (iterate r))).
      { destruct (snd (iterate r)) as [e|];
          [destruct (is_TypeError e)|]; now inversion H. }
      subst result_data. apply in_map_iff in Hrow.
      destruct Hrow as (y & <- & _). apply convert_iterated_row_plain.
  - destruct result_ as [r|]; [|now inversion H].
    destruct (rows r) as [rs|].
    + inversion H; subst. apply length_map.
    + destruct (snd (iterate r)) as [e|];
        [destruct (is_TypeError e)|]; inversion H; subst; apply length_map.
  - intros r e -> Hrows He. rewrite Hrows, He in H.
    now destruct (is_TypeError e).
Qed.






(** X11. The markdown table shows at most 50 rows: for a result of
    more than 50 rows it is the table of the first 50 followed by one
    line that gives the number of rows left out, and for a result of at
    most 50 rows there is no such line. *)
Theorem table_str_truncates (columns_ : list string)
  (result_data : list (list (string * pyval))) :
  ((50 < List.length result_data)%nat ->
   table_str columns_ result_data =
     table_str columns_ (firstn 50 result_data) ++
     overflow_line (List.length result_data)) /\
  ((List.length result_data <= 50)%nat ->
   table_str columns_ result_data =
     join nl
       (("| " ++ join " | " columns_ ++ " |") ::
        ("| " ++ join " | " (map (fun _ => "---") columns_) ++ " |") ::
        map (fun row =>
               "| " ++
               join " | "
                 (map (fun col => py_str (dict_get row col (PStr EmptyString)))
                      columns_) ++ " |")
            result_data)).
Proof.
  unfold table_str, overflow_line. split; intros H.
  - assert (Hlen : List.length (firstn 50 result_data) = 50%nat)
      by (rewrite length_firstn; lia).
    rewrite Hlen. rewrite firstn_firstn.
    replace (Nat.min 50 50) with 50%nat by reflexivity.
    apply Nat.ltb_lt in H. rewrite H.
    replace (50 <? 50)%nat with false by reflexivity.
    reflexivity.
  - rewrite firstn_all2 by exact H.
    apply Nat.ltb_ge in H. now rewrite H.
Qed.

End MoreExecution.

(* ------------------------------------------------------------------ *)
(** ** Statements: Format, Validate, Transpile, Optimize *)

Section Statements.
Context {L : Library}.

Lemma messages_try_except {A} (body : Gen A) (h : exn -> Gen A) :
  messages (try_except body h) =
  (messages body ++
   match snd body with Raised e => messages (h e) | _ => [] end)%list.
Proof.
  unfold messages at 1 2. rewrite fst_try_except, flat_map_app.
  now destruct (snd body).
Qed.

Lemma messages_lib_call {A} (fn : string) (kw : kwargs) (r : result A) :
  messages (lib_call fn kw r) = [].
Proof. reflexivity. Qed.

Lemma snd_lib_call {A} (fn : string) (kw : kwargs) (r : result A) :
  snd (lib_call fn kw r) =
  match r with Ok a => Normal a | Err e => Raised e end.
Proof. reflexivity. Qed.

(** A loop of recorded calls yields nothing and ends as the loop of
    the plain calls does. *)
Lemma map_gen_lib_call {A B} (fn : string) (kw : kwargs) (f : A -> result B)
  (xs : list A) :
  messages (map_gen (fun x => lib_call fn kw (f x)) xs) = [] /\
  snd (map_gen (fun x => lib_call fn kw (f x)) xs) =
    match map_result f xs with
    | Ok ys => Normal ys
    | Err e => Raised e
    end.
Proof.
  induction xs as [|x xs [IH1 IH2]]; cbn [map_gen map_result].
  - split; reflexivity.
  - rewrite messages_bind, snd_bind, messages_lib_call, snd_lib_call.
    destruct (f x) as [b|e]; [|split; reflexivity].
    rewrite messages_bind, snd_bind, IH1, IH2.
    destruct (map_result f xs); split; reflexivity.
Qed.

Lemma statement_info_run (i : nat) (stmts : list Expr) :
  messages (ValidateSqlTool.statement_info_from i stmts) = [] /\
  snd (ValidateSqlTool.statement_info_from i stmts) =
    match map_result (fun stmt => sql stmt [("pretty", PBool true)]) stmts with
    | Ok texts => Normal (statement_entries i stmts texts)
    | Err e => Raised e
    end.
Proof.
  revert i. induction stmts as [|stmt rest IH]; intros i;
    cbn [ValidateSqlTool.statement_info_from map_result].
  - split; reflexivity.
  - rewrite messages_bind, snd_bind, messages_lib_call, snd_lib_call.
    destruct (sql stmt [("pretty", PBool true)]) as [text|e];
      [|split; reflexivity].
    destruct (IH (S i)) as [IH1 IH2].
    rewrite messages_bind, snd_bind, IH1, IH2.
    destruct (map_result _ rest); split; reflexivity.
Qed.

Lemma statement_entries_nth (i : nat) (stmts : list Expr) (texts : list string)
  (k : nat) (stmt : Expr) (text : string) :
  nth_error stmts k = Some stmt -> nth_error texts k = Some text ->
  nth_error (statement_entries i stmts texts) k =
    Some [("index", PInt (Z.of_nat (i + k) + 1));
          ("type", PStr (type_name stmt));
          ("sql", PStr text)].
Proof.
  revert i texts k. induction stmts as [|s stmts IH]; intros i texts k Hs Ht.
  - destruct k; discriminate.
  - destruct texts as [|t texts]; [destruct k; discriminate|].
    destruct k as [|k]; cbn in *.
    + inversion Hs; inversion Ht; subst. now rewrite Nat.add_0_r.
    + rewrite (IH (S i) texts k Hs Ht). now rewrite <- plus_n_Sm.
Qed.

Lemma statement_entries_length (i : nat) (stmts : list Expr)
  (texts : list string) :
  List.length texts = List.length stmts ->
  List.length (statement_entries i stmts texts) = List.length stmts.
Proof.
  revert i texts. induction stmts as [|s stmts IH]; intros i [|t texts] H;
    cbn in *; auto; try discriminate;
    try (f_equal; apply IH; now inversion H).
Qed.

Lemma statement_entries_types (i : nat) (stmts : list Expr)
  (texts : list string) :
  List.length texts = List.length stmts ->
  map (fun s => py_str (dict_get s "type" PNone))
      (statement_entries i stmts texts) = map type_name stmts.
Proof.
  revert i texts. induction stmts as [|s stmts IH]; intros i [|t texts] H;
    cbn in *; auto; try discriminate;
    try (f_equal; apply IH; now inversion H).
Qed.

(** X12. The Format tool formats all the statements or none.  With
    the parser returning a non-empty list: when every statement that is
    not [None] renders, the tool yields the count, the renderings joined
    by a semicolon and a blank line, and a response whose
    [statement_count] is the number of statements that are not [None];
    when all statements are [None] it yields one text; and when the
    rendering of any statement raises, it yields the error text and the
    error payload and nothing of the statements rendered before. *)
Theorem format_all_or_nothing (p : kwargs) (stmts : list (option Expr)) :
  let sql_ := dict_get p "sql" (PStr EmptyString) in
  let dialect := dict_get p "dialect" (PStr EmptyString) in
  truthy sql_ = true ->
  parse sql_ [("dialect", dialect_or_None dialect)] = Ok stmts ->
  stmts <> [] ->
  match map_result (fun statement => sql statement (format_kwargs p))
                   (not_None stmts) with
  | Ok [] =>
      messages (FormatSqlTool._invoke p) =
        [TextMessage "No valid SQL statements found."]
  | Ok texts =>
      messages (FormatSqlTool._invoke p) =
        [TextMessage ("Successfully formatted " ++
                      py_str (len (not_None stmts)) ++ " SQL statement(s)");
         TextMessage (sql_block "Formatted SQL" (join (";" ++ nl ++ nl) texts));
         JsonMessage
           (PDict [("original_sql", sql_);
                   ("formatted_sql", PStr (join (";" ++ nl ++ nl) texts));
                   ("dialect", dialect_or_auto dialect);
                   ("options",
                    PDict [("identify", dict_get p "identify" (PBool false));
                           ("normalize",
                            dict_get p "normalize" (PBool false))]);
                   ("statement_count", len (not_None stmts))])]
  | Err e =>
      messages (FormatSqlTool._invoke p) =
        [TextMessage ((if is_ParseError e then "SQL Parse Error: "
                       else "Error formatting SQL: ") ++ exn_str e);
         JsonMessage (error_response "success" (error_type e) e sql_)]
  end.
Proof.
  cbv zeta. intros Hsql Hparse Hstmts.
  unfold FormatSqlTool._invoke. rewrite Hsql. cbn [negb].
  unfold FormatSqlTool.try_body. cbv zeta.
  rewrite messages_try_except, messages_bind, snd_bind, messages_lib_call,
    snd_lib_call, Hparse.
  destruct stmts as [|stmt stmts]; [contradiction|]. clear Hstmts.
  cbv beta iota.
  set (valid := not_None (stmt :: stmts)).
  destruct (map_gen_lib_call "sql" (format_kwargs p)
              (fun statement => sql statement (format_kwargs p)) valid)
    as [Hm Hs].
  unfold format_kwargs in *.
  rewrite messages_bind, snd_bind, Hm, Hs.
  destruct (map_result _ valid) as [texts|e] eqn:Hrender.
  - assert (Hlen := map_result_length _ _ Hrender).
    destruct texts as [|text texts]; [reflexivity|].
    unfold len. rewrite <- Hlen. reflexivity.
  - unfold FormatSqlTool.on_error, error_type.
    now destruct (is_ParseError e).
Qed.

(** X13. The statements that the Validate tool reports are numbered
    from 1 in the order of the input, statements that are [None] not
    counted: the entry at position [k] holds the index [k + 1], the class
    of the statement at that position and its rendering, the response
    counts as many statements as there are entries, and the second text
    lists their classes. *)
Theorem validate_numbers_statements (p : kwargs) (stmts : list (option Expr))
  (texts : list string) :
  let sql_ := dict_get p "sql" (PStr EmptyString) in
  let dialect := dict_get p "dialect" (PStr EmptyString) in
  let valid := not_None stmts in
  truthy sql_ = true ->
  parse sql_ [("dialect", dialect_or_None dialect)] = Ok stmts ->
  valid <> [] ->
  map_result (fun stmt => sql stmt [("pretty", PBool true)]) valid = Ok texts ->
  exists entries,
    messages (ValidateSqlTool._invoke p) =
      [TextMessage ("✓ SQL is valid! Found " ++ py_str (len valid) ++
                    " statement(s).");
       TextMessage ("Statement types: " ++ join ", " (map type_name valid));
       JsonMessage
         (PDict [("valid", PBool true);
                 ("dialect", dialect_or_auto dialect);
                 ("statement_count", len valid);
                 ("statements", PList (map PDict entries));
                 ("warnings", PList []);
                 ("original_sql", sql_)])] /\
    List.length entries = List.length valid /\
    forall k stmt text,
      nth_error valid k = Some stmt -> nth_error texts k = Some text ->
      nth_error entries k =
        Some [("index", PInt (Z.of_nat k + 1));
              ("type", PStr (type_name stmt));
              ("sql", PStr text)].
Proof.
  cbv zeta. intros Hsql Hparse Hvalid Hrender.
  assert (Hlen := map_result_length _ _ Hrender).
  exists (statement_entries 0 (not_None stmts) texts). split; [|split].
  - unfold ValidateSqlTool._invoke. rewrite Hsql. cbn [negb].
    unfold ValidateSqlTool.try_body. cbv zeta.
    rewrite messages_try_except, messages_bind, snd_bind, messages_lib_call,
      snd_lib_call, Hparse.
    cbv beta iota.
    destruct (not_None stmts) as [|stmt valid] eqn:Ev; [contradiction|].
    destruct (statement_info_run 0 (stmt :: valid)) as [Hm Hs].
    rewrite messages_bind, snd_bind, Hm, Hs, Hrender.
    cbv beta iota.
    rewrite (statement_entries_types 0 _ _ Hlen). reflexivity.
  - now apply statement_entries_length.
  - intros k stmt text Hk Ht.
    now rewrite (statement_entries_nth 0 _ _ _ Hk Ht).
Qed.

(** X14. When the parser returns no statement, or only [None], the
    Validate tool reports the input as not valid with a text and a
    payload of its own, which has no error type, and returns. *)
Theorem validate_nothing_to_validate (p : kwargs) (stmts : list (option Expr)) :
  let sql_ := dict_get p "sql" (PStr EmptyString) in
  let dialect := dict_get p "dialect" (PStr EmptyString) in
  truthy sql_ = true ->
  parse sql_ [("dialect", dialect_or_None dialect)] = Ok stmts ->
  not_None stmts = [] ->
  snd (ValidateSqlTool._invoke p) = Returned /\
  messages (ValidateSqlTool._invoke p) =
    [TextMessage "No valid SQL statements found in the query.";
     JsonMessage (PDict [("valid", PBool false);
                         ("error", PStr "No valid SQL statements found");
                         ("original_sql", sql_)])].
Proof.
  cbv zeta. intros Hsql Hparse Hnone.
  unfold ValidateSqlTool._invoke. rewrite Hsql. cbn [negb].
  unfold ValidateSqlTool.try_body, lib_call. rewrite Hparse.
  cbn [bind]. rewrite Hnone. split; reflexivity.
Qed.

Lemma join_singleton (sep text : string) : join sep [text] = text.
Proof. reflexivity. Qed.

(** X15. What Transpile yields for the list the transpiler returns:
    for an empty list one text; otherwise the statements joined by a
    semicolon and a blank line (a single statement as it is), the same
    text in the fenced block and under [transpiled_sql], and the number
    of statements under [statement_count]. *)
Theorem transpile_joins_statements (p : kwargs) (transpiled : list string) :
  let sql_ := dict_get p "sql" (PStr EmptyString) in
  let source_dialect := dict_get p "source_dialect" (PStr EmptyString) in
  let target_dialect := dict_get p "target_dialect" (PStr EmptyString) in
  let pretty := dict_get p "pretty" (PBool true) in
  truthy sql_ = true ->
  truthy target_dialect = true ->
  transpile sql_ [("read", dialect_or_None source_dialect);
                  ("write", target_dialect);
                  ("pretty", pretty)] = Ok transpiled ->
  messages (TranspileSqlTool._invoke p) =
    match transpiled with
    | [] => [TextMessage "Failed to transpile SQL query."]
    | _ =>
        [TextMessage ("Successfully transpiled SQL from " ++
                      py_str (dialect_or_auto source_dialect) ++ " to " ++
                      py_str target_dialect);
         TextMessage (sql_block "Transpiled SQL"
                                (join (";" ++ nl ++ nl) transpiled));
         JsonMessage
           (PDict [("original_sql", sql_);
                   ("transpiled_sql",
                    PStr (join (";" ++ nl ++ nl) transpiled));
                   ("source_dialect", dialect_or_auto source_dialect);
                   ("target_dialect", target_dialect);
                   ("statement_count", len transpiled)])]
    end.
Proof.
  cbv zeta. intros Hsql Htarget Htranspile.
  unfold TranspileSqlTool._invoke. rewrite Hsql, Htarget. cbn [negb].
  unfold TranspileSqlTool.try_body, lib_call. rewrite Htranspile.
  destruct transpiled as [|first [|second rest]]; reflexivity.
Qed.

(** X16. The schema text of the Optimize tool.  A text that is not
    JSON stops the invocation after the parse, with one text and without
    a call of the optimizer.  A schema that decodes to an empty value is
    treated as no schema: the optimizer is called with the dialect
    alone; any other schema is handed to the optimizer under [schema]. *)
Theorem optimize_schema_handling (p : kwargs) (parsed : Expr) :
  let sql_ := dict_get p "sql" (PStr EmptyString) in
  let dialect := dict_get p "dialect" (PStr EmptyString) in
  let schema_str := dict_get p "schema" (PStr EmptyString) in
  let parse_dialect := dialect_or_None dialect in
  truthy sql_ = true ->
  truthy schema_str = true ->
  parse_one sql_ [("dialect", parse_dialect)] = Ok (Some parsed) ->
  (forall e, json_loads schema_str = Err e -> is_JSONDecodeError e = true ->
     OptimizeSqlTool._invoke p =
       ([Called "parse_one" [("dialect", parse_dialect)];
         Yielded (TextMessage ("Invalid schema JSON: " ++ exn_str e))],
        Returned)) /\
  (forall schema, json_loads schema_str = Ok schema ->
     exists rest,
       calls (OptimizeSqlTool._invoke p) =
         ("parse_one", [("dialect", parse_dialect)]) ::
         ("optimize",
          if truthy schema
          then [("schema", schema); ("dialect", parse_dialect)]
          else [("dialect", parse_dialect)]) :: rest).
Proof.
  cbv zeta. intros Hsql Hschema Hparse.
  unfold OptimizeSqlTool._invoke. rewrite Hsql. cbn [negb].
  unfold OptimizeSqlTool.try_body, OptimizeSqlTool.load_schema.
  rewrite Hschema. split.
  - intros e Hjson He. unfold lib_call, call. rewrite Hparse, Hjson.
    cbn [bind try_except raise]. rewrite He. reflexivity.
  - intros schema Hjson.
    rewrite calls_try_except, calls_bind. unfold lib_call at 1 2.
    rewrite Hparse. cbn [snd]. unfold call. rewrite Hjson.
    cbn [try_except pure]. rewrite calls_bind. cbn [snd].
    unfold OptimizeSqlTool.run_optimizer, OptimizeSqlTool.optimize_kwargs.
    rewrite calls_bind, calls_try_except, calls_bind.
    eexists. cbn [calls fst flat_map app lib_call]. reflexivity.
Qed.

End Statements.

(* ------------------------------------------------------------------ *)
(** ** What every invocation keeps to *)

Section Quiet.

Lemma quiet_bind {A B} (m : Gen A) (k : A -> Gen B) :
  quiet m -> (forall a, quiet (k a)) -> quiet (bind m k).
Proof.
  unfold quiet. intros Hm Hk. rewrite snd_bind, messages_bind.
  destruct (snd m) as [a| |e]; intros H.
  - rewrite Hm by discriminate. now apply Hk.
  - now destruct H.
  - rewrite Hm by discriminate. reflexivity.
Qed.

Lemma quiet_try_except {A} (body : Gen A) (h : exn -> Gen A) :
  quiet body -> (forall e, quiet (h e)) -> quiet (try_except body h).
Proof.
  unfold quiet. intros Hm Hk. rewrite snd_try_except, messages_try_except.
  destruct (snd body) as [a| |e]; intros H.
  - rewrite Hm by discriminate. reflexivity.
  - now destruct H.
  - rewrite Hm by discriminate. now apply Hk.
Qed.

Lemma quiet_lib_call {A} (fn : string) (kw : kwargs) (r : result A) :
  quiet (lib_call fn kw r).
Proof. intros _. reflexivity. Qed.

Lemma quiet_call {A} (r : result A) : quiet (call r).
Proof. intros _. now destruct r. Qed.

Lemma quiet_returned {A} (g : Gen A) : snd g = Returned -> quiet g.
Proof. intros H H'. contradiction. Qed.

Lemma quiet_for_each {A} (xs : list A) (body : A -> Gen unit) :
  (forall x, quiet (body x)) -> quiet (for_each xs body).
Proof.
  intros H. induction xs as [|x xs IH]; cbn [for_each].
  - intros _. reflexivity.
  - apply quiet_bind; auto.
Qed.

Lemma quiet_map_gen {A B} (f : A -> Gen B) (xs : list A) :
  (forall x, quiet (f x)) -> quiet (map_gen f xs).
Proof.
  intros H. induction xs as [|x xs IH]; cbn [map_gen].
  - intros _. reflexivity.
  - apply quiet_bind; [apply H|]. intros b.
    apply quiet_bind; [apply IH|]. intros bs _. reflexivity.
Qed.

Lemma raises_silently_bind {A B} (m : Gen A) (k : A -> Gen B) :
  quiet m -> (forall a, raises_silently (k a)) -> raises_silently (bind m k).
Proof.
  unfold quiet, raises_silently. intros Hm Hk e.
  rewrite snd_bind, messages_bind.
  destruct (snd m) as [a| |e']; intros H.
  - rewrite Hm by discriminate. now apply (Hk a e).
  - discriminate.
  - rewrite Hm by discriminate. reflexivity.
Qed.

Lemma raises_silently_never {A} (g : Gen A) :
  never_raises g -> raises_silently g.
Proof. intros H e He. now destruct (H e). Qed.

Lemma never_raises_bind {A B} (m : Gen A) (k : A -> Gen B) :
  never_raises m -> (forall a, never_raises (k a)) -> never_raises (bind m k).
Proof.
  unfold never_raises. intros Hm Hk e. rewrite snd_bind.
  destruct (snd m) as [a| |e'] eqn:E; [apply Hk|discriminate|].
  now destruct (Hm e').
Qed.

End Quiet.

Ltac never_raises :=
  repeat match goal with
  | |- never_raises (bind _ _) => apply never_raises_bind; [|intros ?]
  | |- never_raises (yield _) => intros ?; discriminate
  | |- never_raises (pure _) => intros ?; discriminate
  | |- never_raises return_ => intros ?; discriminate
  | |- never_raises (match ?x with _ => _ end) => destruct x
  end.

Ltac quiet :=
  repeat match goal with
  | |- quiet (bind (yield _) _) => apply quiet_returned; reflexivity
  | |- quiet (bind _ _) => apply quiet_bind; [|intros ?]
  | |- quiet (try_except _ _) => apply quiet_try_except; [|intros ?]
  | |- quiet (lib_call _ _ _) => apply quiet_lib_call
  | |- quiet (call _) => apply quiet_call
  | |- quiet (for_each _ _) => apply quiet_for_each; intros ?
  | |- quiet (map_gen _ _) => apply quiet_map_gen; intros ?
  | |- quiet (pure _) => intros _; reflexivity
  | |- quiet (raise _) => intros _; reflexivity
  | |- quiet (match ?x with _ => _ end) => destruct x
  end.

Ltac raises_silently :=
  repeat match goal with
  | |- raises_silently (bind (yield _) _) =>
      apply raises_silently_never; never_raises
  | |- raises_silently (bind _ _) =>
      apply raises_silently_bind; [quiet|intros ?]
  | |- raises_silently (match ?x with _ => _ end) => destruct x
  end.

Section TwoMessages.
Context {L : Library}.










End TwoMessages.

(* ------------------------------------------------------------------ *)
(** ** The order and the content of the messages *)

Section Shape.

Lemma all_text_app (xs ys : list ToolInvokeMessage) :
  forallb is_text (xs ++ ys) = forallb is_text xs && forallb is_text ys.
Proof. apply forallb_app. Qed.

Lemma all_text_then_json (xs : list ToolInvokeMessage) :
  forallb is_text xs = true -> texts_then_json xs = true.
Proof.
  induction xs as [|[t|j] xs IH]; cbn; auto. discriminate.
Qed.

Lemma texts_then_json_app (xs ys : list ToolInvokeMessage) :
  forallb is_text xs = true -> texts_then_json ys = true ->
  texts_then_json (xs ++ ys) = true.
Proof.
  induction xs as [|[t|j] xs IH]; cbn; auto. discriminate.
Qed.

Lemma settled_bind {A B} (m : Gen A) (k : A -> Gen B) :
  settled m -> (forall a, settled (k a)) -> settled (bind m k).
Proof.
  unfold settled. intros Hm Hk. rewrite snd_bind, messages_bind.
  destruct Hm as [Hm|[Hm Hr]].
  - destruct (snd m) as [a| |e].
    + destruct (Hk a) as [Ha|[Ha Hr]].
      * left. now rewrite all_text_app, Hm, Ha.
      * right. split; auto. now apply texts_then_json_app.
    + left. now rewrite app_nil_r.
    + left. now rewrite app_nil_r.
  - rewrite Hr, app_nil_r. now right.
Qed.

Lemma orderly_bind {A B} (m : Gen A) (k : A -> Gen B) :
  settled m -> (forall a, orderly (k a)) -> orderly (bind m k).
Proof.
  unfold settled, orderly. intros Hm Hk. rewrite snd_bind, messages_bind.
  destruct Hm as [Hm|[Hm Hr]].
  - destruct (snd m) as [a| |e].
    + destruct (Hk a) as [Ha|[Ha Hr]].
      * left. now rewrite all_text_app, Hm, Ha.
      * right. split; auto. now apply texts_then_json_app.
    + left. now rewrite app_nil_r.
    + left. now rewrite app_nil_r.
  - rewrite Hr, app_nil_r. right. split; auto. discriminate.
Qed.

Lemma settled_try_except {A} (body : Gen A) (h : exn -> Gen A) :
  settled body -> (forall e, settled (h e)) -> settled (try_except body h).
Proof.
  unfold settled. intros Hm Hk.
  rewrite snd_try_except, messages_try_except.
  destruct Hm as [Hm|[Hm Hr]].
  - destruct (snd body) as [a| |e].
    + left. now rewrite app_nil_r.
    + left. now rewrite app_nil_r.
    + destruct (Hk e) as [Ha|[Ha Hr]].
      * left. now rewrite all_text_app, Hm, Ha.
      * right. split; auto. now apply texts_then_json_app.
  - rewrite Hr, app_nil_r. now right.
Qed.

Lemma orderly_try_except {A} (body : Gen A) (h : exn -> Gen A) :
  orderly body -> (forall e, orderly (h e)) -> orderly (try_except body h).
Proof.
  unfold orderly. intros Hm Hk.
  rewrite snd_try_except, messages_try_except.
  destruct Hm as [Hm|[Hm Hr]].
  - destruct (snd body) as [a| |e].
    + left. now rewrite app_nil_r.
    + left. now rewrite app_nil_r.
    + destruct (Hk e) as [Ha|[Ha Hr]].
      * left. now rewrite all_text_app, Hm, Ha.
      * right. split; auto. now apply texts_then_json_app.
  - destruct (snd body) as [a| |e].
    + rewrite app_nil_r. right. split; auto.
    + rewrite app_nil_r. right. split; auto.
    + now destruct (Hr e).
Qed.

Lemma settled_silent {A} (g : Gen A) : messages g = [] -> settled g.
Proof. intros H. left. now rewrite H. Qed.

Lemma settled_for_each {A} (xs : list A) (body : A -> Gen unit) :
  (forall x, settled (body x)) -> settled (for_each xs body).
Proof.
  intros H. induction xs as [|x xs IH]; cbn [for_each].
  - now apply settled_silent.
  - apply settled_bind; auto.
Qed.

Lemma settled_map_gen {A B} (f : A -> Gen B) (xs : list A) :
  (forall x, settled (f x)) -> settled (map_gen f xs).
Proof.
  intros H. induction xs as [|x xs IH]; cbn [map_gen].
  - now apply settled_silent.
  - apply settled_bind; [apply H|]. intros b.
    apply settled_bind; [apply IH|]. intros bs. now apply settled_silent.
Qed.

Lemma orderly_shape {A} (g : Gen A) :
  orderly g -> texts_then_json (messages g) = true.
Proof. intros [H|[H _]]; auto using all_text_then_json. Qed.

End Shape.

Ltac settled :=
  repeat match goal with
  | |- settled (bind (yield (create_json_message _)) (fun _ => return_)) =>
      right; split; reflexivity
  | |- settled (bind _ _) => apply settled_bind; [|intros ?]
  | |- settled (try_except _ _) => apply settled_try_except; [|intros ?]
  | |- settled (for_each _ _) => apply settled_for_each; intros ?
  | |- settled (map_gen _ _) => apply settled_map_gen; intros ?
  | |- settled (lib_call _ _ _) => apply settled_silent; reflexivity
  | |- settled (call ?r) => apply settled_silent; destruct r; reflexivity
  | |- settled (pure _) => apply settled_silent; reflexivity
  | |- settled (raise _) => apply settled_silent; reflexivity
  | |- settled return_ => apply settled_silent; reflexivity
  | |- settled (yield (create_text_message _)) => left; reflexivity
  | |- settled (match ?x with _ => _ end) => destruct x
  end.

Ltac orderly :=
  repeat match goal with
  | |- orderly (bind (yield (create_json_message _)) (fun _ => return_)) =>
      right; split; [reflexivity|discriminate]
  | |- orderly (bind _ _) => apply orderly_bind; [settled|intros ?]
  | |- orderly (try_except _ _) => apply orderly_try_except; [|intros ?]
  | |- orderly (yield (create_json_message _)) =>
      right; split; [reflexivity|discriminate]
  | |- orderly (yield (create_text_message _)) => left; reflexivity
  | |- orderly return_ => left; reflexivity
  | |- orderly (match ?x with _ => _ end) => destruct x
  end.

Section Order.
Context {L : Library}.

Lemma settled_statement_info (i : nat) (stmts : list Expr) :
  settled (ValidateSqlTool.statement_info_from i stmts).
Proof. apply settled_silent. apply statement_info_run. Qed.

(** X18. The messages of an invocation come in one order: any number
    of texts, then at most one JSON message, which is the last.  This
    holds for the six tools, on every input and whatever the library
    does. *)
Theorem texts_before_the_payload (p : kwargs) :
  texts_then_json (messages (AnalyzeSqlTool._invoke p)) = true /\
  texts_then_json (messages (FormatSqlTool._invoke p)) = true /\
  texts_then_json (messages (TranspileSqlTool._invoke p)) = true /\
  texts_then_json (messages (ValidateSqlTool._invoke p)) = true /\
  texts_then_json (messages (OptimizeSqlTool._invoke p)) = true /\
  texts_then_json (messages (ExecuteSqlTool._invoke p)) = true.
Proof.
  repeat split; apply orderly_shape.
  - unfold AnalyzeSqlTool._invoke, AnalyzeSqlTool.try_body,
      AnalyzeSqlTool.analyze, AnalyzeSqlTool.on_error.
    orderly.
  - unfold FormatSqlTool._invoke, FormatSqlTool.try_body,
      FormatSqlTool.on_error.
    orderly.
  - unfold TranspileSqlTool._invoke, TranspileSqlTool.try_body,
      TranspileSqlTool.on_error.
    orderly.
  - unfold ValidateSqlTool._invoke, ValidateSqlTool.try_body,
      ValidateSqlTool.on_error.
    orderly. apply settled_statement_info.
  - unfold OptimizeSqlTool._invoke, OptimizeSqlTool.try_body,
      OptimizeSqlTool.load_schema, OptimizeSqlTool.run_optimizer,
      OptimizeSqlTool.respond, OptimizeSqlTool.on_error.
    orderly.
  - unfold ExecuteSqlTool._invoke, ExecuteSqlTool.try_body,
      ExecuteSqlTool.load_tables, ExecuteSqlTool.check_tables,
      ExecuteSqlTool.check_rows, ExecuteSqlTool.run_query,
      ExecuteSqlTool.respond, ExecuteSqlTool.on_error.
    orderly.
Qed.

End Order.

Section Messages.

Variable P : ToolInvokeMessage -> Prop.

Lemma all_messages_bind {A B} (m : Gen A) (k : A -> Gen B) :
  Forall P (messages m) -> (forall a, Forall P (messages (k a))) ->
  Forall P (messages (bind m k)).
Proof.
  intros Hm Hk. rewrite messages_bind. apply Forall_app. split; auto.
  destruct (snd m); auto.
Qed.

Lemma all_messages_try_except {A} (body : Gen A) (h : exn -> Gen A) :
  Forall P (messages body) -> (forall e, Forall P (messages (h e))) ->
  Forall P (messages (try_except body h)).
Proof.
  intros Hm Hk. rewrite messages_try_except. apply Forall_app. split; auto.
  destruct (snd body); auto.
Qed.

Lemma all_messages_silent {A} (g : Gen A) :
  messages g = [] -> Forall P (messages g).
Proof. intros ->. constructor. Qed.

Lemma all_messages_yield (m : ToolInvokeMessage) :
  P m -> Forall P (messages (yield m)).
Proof. intros H. repeat constructor. exact H. Qed.

Lemma all_messages_for_each {A} (xs : list A) (body : A -> Gen unit) :
  (forall x, Forall P (messages (body x))) ->
  Forall P (messages (for_each xs body)).
Proof.
  intros H. induction xs as [|x xs IH]; cbn [for_each].
  - constructor.
  - apply all_messages_bind; auto.
Qed.

Lemma all_messages_map_gen {A B} (f : A -> Gen B) (xs : list A) :
  (forall x, Forall P (messages (f x))) ->
  Forall P (messages (map_gen f xs)).
Proof.
  intros H. induction xs as [|x xs IH]; cbn [map_gen].
  - constructor.
  - apply all_messages_bind; [apply H|]. intros b.
    apply all_messages_bind; [apply IH|]. intros bs. constructor.
Qed.

End Messages.

Ltac all_messages :=
  repeat match goal with
  | |- Forall _ (messages (bind _ _)) => apply all_messages_bind; [|intros ?]
  | |- Forall _ (messages (try_except _ _)) =>
      apply all_messages_try_except; [|intros ?]
  | |- Forall _ (messages (for_each _ _)) =>
      apply all_messages_for_each; intros ?
  | |- Forall _ (messages (map_gen _ _)) =>
      apply all_messages_map_gen; intros ?
  | |- Forall _ (messages (lib_call _ _ _)) => constructor
  | |- Forall _ (messages (call ?r)) =>
      apply all_messages_silent; destruct r; reflexivity
  | |- Forall _ (messages (pure _)) => constructor
  | |- Forall _ (messages (raise _)) => constructor
  | |- Forall _ (messages return_) => constructor
  | |- Forall _ (messages (yield _)) => apply all_messages_yield
  | |- Forall _ (messages (match ?x with _ => _ end)) => destruct x
  end.

Section Echo.
Context {L : Library}.

(** X19. Every JSON message of every tool is an object that holds the
    query it was given, unchanged, under [original_sql]: in the
    responses, in the error payloads and in the payloads of the failures
    that Execute and Validate handle themselves. *)
Theorem original_sql_echoed (p : kwargs) :
  let echo := echoes (dict_get p "sql" (PStr EmptyString)) in
  Forall echo (messages (AnalyzeSqlTool._invoke p)) /\
  Forall echo (messages (FormatSqlTool._invoke p)) /\
  Forall echo (messages (TranspileSqlTool._invoke p)) /\
  Forall echo (messages (ValidateSqlTool._invoke p)) /\
  Forall echo (messages (OptimizeSqlTool._invoke p)) /\
  Forall echo (messages (ExecuteSqlTool._invoke p)).
Proof.
  cbv zeta. repeat split.
  - unfold AnalyzeSqlTool._invoke, AnalyzeSqlTool.try_body,
      AnalyzeSqlTool.analyze, AnalyzeSqlTool.on_error.
    all_messages; repeat split.
  - unfold FormatSqlTool._invoke, FormatSqlTool.try_body,
      FormatSqlTool.on_error.
    all_messages; repeat split.
  - unfold TranspileSqlTool._invoke, TranspileSqlTool.try_body,
      TranspileSqlTool.on_error.
    all_messages; repeat split.
  - unfold ValidateSqlTool._invoke, ValidateSqlTool.try_body,
      ValidateSqlTool.on_error, ValidateSqlTool.error_info.
    all_messages; repeat split;
      try (apply all_messages_silent; apply statement_info_run);
      try (destruct (exn_errors _) as [[|? ?]|]; repeat split).
  - unfold OptimizeSqlTool._invoke, OptimizeSqlTool.try_body,
      OptimizeSqlTool.load_schema, OptimizeSqlTool.run_optimizer,
      OptimizeSqlTool.respond, OptimizeSqlTool.on_error.
    all_messages; repeat split;
      try (cbn; destruct (truthy _); repeat split).
  - unfold ExecuteSqlTool._invoke, ExecuteSqlTool.try_body,
      ExecuteSqlTool.load_tables, ExecuteSqlTool.check_tables,
      ExecuteSqlTool.check_rows, ExecuteSqlTool.run_query,
      ExecuteSqlTool.respond, ExecuteSqlTool.on_error.
    all_messages; repeat split.
Qed.

Lemma passes_given (key : string) (dialect : pyval) (fn : string)
  (kw : kwargs) :
  dict_get kw key PNone = dialect -> passes key dialect (fn, kw).
Proof. intros H _. exact H. Qed.

Lemma passes_absent (key : string) (dialect : pyval) (fn : string)
  (kw : kwargs) :
  dict_has kw key = false -> passes key dialect (fn, kw).
Proof. unfold passes. cbn [snd]. intros ->. discriminate. Qed.

Lemma statement_info_passes (key : string) (dialect : pyval) (i : nat)
  (stmts : list Expr) :
  passes key dialect ("sql", [("pretty", PBool true)]) ->
  Forall (passes key dialect)
         (calls (ValidateSqlTool.statement_info_from i stmts)).
Proof.
  intros HP. revert i.
  induction stmts as [|stmt rest IH]; intros i;
    cbn [ValidateSqlTool.statement_info_from].
  - constructor.
  - all_calls; auto.
Qed.

(** X20. A dialect that is given is the dialect that is used.  With a
    non-empty [dialect], every library call of Analyze, Format, Validate,
    Optimize and Execute that names a dialect names that one, for parsing
    and for rendering alike, and the parser is called with it; Transpile
    reads with a non-empty [source_dialect] and writes with the
    [target_dialect]. *)
Theorem given_dialect_is_used (p : kwargs) :
  let get key := dict_get p key (PStr EmptyString) in
  (truthy (get "dialect") = true ->
   let uses := passes "dialect" (get "dialect") in
   Forall uses (calls (AnalyzeSqlTool._invoke p)) /\
   Forall uses (calls (FormatSqlTool._invoke p)) /\
   Forall uses (calls (ValidateSqlTool._invoke p)) /\
   Forall uses (calls (OptimizeSqlTool._invoke p)) /\
   Forall uses (calls (ExecuteSqlTool._invoke p)) /\
   (truthy (get "sql") = true ->
    first_call (AnalyzeSqlTool._invoke p) =
      Some ("parse_one", [("dialect", get "dialect")]) /\
    first_call (FormatSqlTool._invoke p) =
      Some ("parse", [("dialect", get "dialect")]) /\
    first_call (ValidateSqlTool._invoke p) =
      Some ("parse", [("dialect", get "dialect")]) /\
    first_call (OptimizeSqlTool._invoke p) =
      Some ("parse_one", [("dialect", get "dialect")]))) /\
  (truthy (get "sql") = true ->
   truthy (get "target_dialect") = true ->
   calls (TranspileSqlTool._invoke p) =
     [("transpile",
       [("read", if truthy (get "source_dialect")
                 then get "source_dialect" else PNone);
        ("write", get "target_dialect");
        ("pretty", dict_get p "pretty" (PBool true))])]).
Proof.
  cbv zeta. split.
  - intros Hd.
    unfold AnalyzeSqlTool._invoke, FormatSqlTool._invoke,
      ValidateSqlTool._invoke, OptimizeSqlTool._invoke,
      ExecuteSqlTool._invoke.
    unfold AnalyzeSqlTool.try_body, FormatSqlTool.try_body,
      ValidateSqlTool.try_body, OptimizeSqlTool.try_body,
      ExecuteSqlTool.try_body.
    unfold dialect_or_None. rewrite Hd.
    split; [|split; [|split; [|split; [|split]]]].
    + unfold AnalyzeSqlTool.analyze, AnalyzeSqlTool.on_error.
      all_calls; now apply passes_given.
    + unfold FormatSqlTool.on_error.
      all_calls; now apply passes_given.
    + unfold ValidateSqlTool.on_error.
      all_calls; try (now apply passes_given).
      apply statement_info_passes. now apply passes_absent.
    + unfold OptimizeSqlTool.on_error, OptimizeSqlTool.load_schema,
        OptimizeSqlTool.run_optimizer, OptimizeSqlTool.respond,
        OptimizeSqlTool.optimize_kwargs, dialect_or_None.
      rewrite ?Hd.
      all_calls; try (now apply passes_given).
      apply passes_given.
      match goal with |- context [truthy ?x] => now destruct (truthy x) end.
    + unfold ExecuteSqlTool.on_error, ExecuteSqlTool.load_tables,
        ExecuteSqlTool.check_tables, ExecuteSqlTool.check_rows,
        ExecuteSqlTool.run_query, ExecuteSqlTool.respond, dialect_or_None.
      rewrite ?Hd.
      all_calls; now apply passes_given.
    + intros ->. cbn [negb]. repeat split; apply first_call_try_bind.
  - intros Hsql Htarget. unfold TranspileSqlTool._invoke.
    rewrite Hsql, Htarget. cbn [negb].
    unfold TranspileSqlTool.try_body, dialect_or_None.
    unfold lib_call, TranspileSqlTool.on_error.
    destruct (transpile _ _) as [[|first rest]|e]; try reflexivity.
    cbn [bind try_except]. now destruct (is_ParseError e).
Qed.

End Echo.

(* ------------------------------------------------------------------ *)
(** ** The provider *)

Section Credentials.
Context {L : Library}.
Variable is_ImportError : exn -> bool.
Variable import_sqlglot : result unit.

Import SqlglotProvider.

(** X21. The credentials are accepted exactly when the import of the
    library succeeds and the test query [SELECT 1] transpiles from mysql
    to postgres into at least one statement; in every other case the
    exception that is raised is a
    [ToolProviderCredentialValidationError], whatever went wrong, with a
    message that starts with [SQLGlot library is not installed: ] or
    with [SQLGlot validation failed: ]. *)
Theorem credentials_accepted_iff (credentials : kwargs) :
  let outcome :=
    _validate_credentials is_ImportError import_sqlglot credentials in
  (outcome = Ok tt <->
   (exists u, import_sqlglot = Ok u) /\
   exists first rest,
     transpile (PStr "SELECT 1")
       [("read", PStr "mysql"); ("write", PStr "postgres")] =
       Ok (first :: rest)) /\
  (forall e, outcome = Err e ->
     exn_type_name e = "ToolProviderCredentialValidationError" /\
     exists cause,
       exn_str e = "SQLGlot library is not installed: " ++ cause \/
       exn_str e = "SQLGlot validation failed: " ++ cause).
Proof.
  cbv zeta. unfold _validate_credentials, try_body.
  destruct import_sqlglot as [u|e0].
  - destruct (transpile _ _) as [[|first rest]|e1].
    + split.
      * split; [|intros (_ & first & rest & H); discriminate].
        destruct (is_ImportError _); discriminate.
      * intros e. destruct (is_ImportError _); intros H; inversion H;
          (split; [reflexivity|]); eexists;
          first [left; reflexivity|right; reflexivity].
    + split; [|discriminate]. split; eauto.
    + split.
      * split; [|intros (_ & first & rest & H); discriminate].
        destruct (is_ImportError _); discriminate.
      * intros e. destruct (is_ImportError _); intros H; inversion H;
          (split; [reflexivity|]); eexists;
          first [left; reflexivity|right; reflexivity].
  - split.
    + split; [|intros ((u & H) & _); discriminate].
      destruct (is_ImportError _); discriminate.
    + intros e. destruct (is_ImportError _); intros H; inversion H;
        (split; [reflexivity|]); eexists;
        first [left; reflexivity|right; reflexivity].
Qed.

(** X22. When the test query transpiles into nothing, the error that
    the [try] block raises for it is caught by the handler of the same
    block and wrapped again: the message that reaches the caller carries
    both prefixes. *)
Theorem empty_transpilation_wrapped_twice (credentials : kwargs) :
  (exists u, import_sqlglot = Ok u) ->
  transpile (PStr "SELECT 1")
    [("read", PStr "mysql"); ("write", PStr "postgres")] = Ok [] ->
  (forall message,
     is_ImportError (ToolProviderCredentialValidationError message) = false) ->
  _validate_credentials is_ImportError import_sqlglot credentials =
    Err (ToolProviderCredentialValidationError
           ("SQLGlot validation failed: " ++
            "SQLGlot library validation failed: " ++
            "unable to transpile test query")).
Proof.
  intros [u ->] Htranspile Hclass.
  unfold _validate_credentials, try_body. rewrite Htranspile, Hclass.
  reflexivity.
Qed.

End Credentials.

(* ------------------------------------------------------------------ *)
(** ** The aliases and the summary of the analysis *)

Section Members.
Context {A B : Type}.

Lemma map_result_from (f : A -> result B) (xs : list A) (ys : list B) :
  map_result f xs = Ok ys ->
  forall y, In y ys -> exists x, In x xs /\ f x = Ok y.
Proof.
  revert ys. induction xs as [|x xs IH]; cbn; intros ys H y Hy.
  - inversion H; subst. destruct Hy.
  - destruct (f x) as [b|] eqn:Ef; [|discriminate].
    destruct (map_result f xs) as [bs|]; [|discriminate].
    inversion H; subst. destruct Hy as [<-|Hy].
    + exists x. split; [now left|exact Ef].
    + destruct (IH bs eq_refl y Hy) as (x' & Hx' & Hf).
      exists x'. split; [now right|exact Hf].
Qed.

Lemma map_result_to (f : A -> result B) (xs : list A) (ys : list B) :
  map_result f xs = Ok ys ->
  forall x, In x xs -> exists y, In y ys /\ f x = Ok y.
Proof.
  revert ys. induction xs as [|x xs IH]; cbn; intros ys H x' Hx'.
  - destruct Hx'.
  - destruct (f x) as [b|] eqn:Ef; [|discriminate].
    destruct (map_result f xs) as [bs|]; [|discriminate].
    inversion H; subst. destruct Hx' as [<-|Hx'].
    + exists b. split; [now left|exact Ef].
    + destruct (IH bs eq_refl x' Hx') as (y & Hy & Hf).
      exists y. split; [now right|exact Hf].
Qed.

End Members.

Section Summary.
Context {L : Library}.

Import AnalyzeSqlTool.

(** X23. Under [aliases] the Analyze tool lists the projections that
    carry a non-empty alias and no other: there is one entry for each of
    them, every entry is the alias of such a projection with the
    rendering of what it names, and no entry has an empty alias. *)
Theorem aliases_only_named_projections (parsed : Expr)
  (aliases : list pyval) :
  let projections := flat_map expressions (find_all parsed exp.Select) in
  extract_aliases parsed = Ok aliases ->
  List.length aliases = List.length (filter has_alias projections) /\
  (forall entry,
     In entry aliases ->
     exists projection text,
       In projection projections /\
       getattr_str projection "alias" <> EmptyString /\
       this_sql_or_str projection = Ok text /\
       entry = PDict [("alias", PStr (getattr_str projection "alias"));
                      ("expression", PStr text)]) /\
  (forall projection,
     In projection projections ->
     has_alias projection = true ->
     exists text,
       In (PDict [("alias", PStr (getattr_str projection "alias"));
                  ("expression", PStr text)]) aliases).
Proof.
  cbv zeta. unfold extract_aliases. intros H. split; [|split].
  - eapply map_result_length; exact H.
  - intros entry Hentry.
    destruct (map_result_from _ _ H entry Hentry) as (x & Hx & Hf).
    apply filter_In in Hx. destruct Hx as [Hx Halias].
    unfold alias_entry in Hf.
    destruct (this_sql_or_str x) as [text|] eqn:Etext; [|discriminate].
    inversion Hf; subst entry. exists x, text.
    split; [exact Hx|]. split; [|split; [exact Etext|reflexivity]].
    unfold has_alias in Halias. apply andb_prop in Halias.
    destruct Halias as [_ Htruthy]. intros Eempty.
    rewrite Eempty in Htruthy. discriminate.
  - intros projection Hin Halias.
    destruct (map_result_to _ _ H projection) as (y & Hy & Hf).
    + apply filter_In. split; assumption.
    + unfold alias_entry in Hf.
      destruct (this_sql_or_str projection) as [text|]; [|discriminate].
      inversion Hf; subst y. exists text. exact Hy.
Qed.

(** A run of [analyze] raises before it has yielded anything, or yields
    the summary of the lists and the response that holds them. *)
Lemma analyze_run (parsed : Expr) (sql_ dialect : pyval) :
  (exists e, analyze parsed sql_ dialect = ([], Raised e)) \/
  (exists aliases functions joins subqueries where_conditions group_by
          order_by,
     analyze parsed sql_ dialect =
       ([Yielded (TextMessage
                    (summary (type_name parsed) (extract_tables parsed)
                             (extract_columns parsed) joins
                             (map function_json functions)));
         Yielded (JsonMessage
                    (PDict (response_of parsed sql_ dialect aliases functions
                              joins subqueries where_conditions group_by
                              order_by)))],
        Normal tt)).
Proof.
  unfold analyze.
  destruct (extract_aliases parsed) as [aliases|e];
    [|left; exists e; reflexivity].
  destruct (extract_functions parsed) as [functions|e];
    [|left; exists e; reflexivity].
  destruct (extract_joins parsed) as [joins|e];
    [|left; exists e; reflexivity].
  destruct (extract_subqueries parsed) as [subqueries|e];
    [|left; exists e; reflexivity].
  destruct (extract_where parsed) as [where_conditions|e];
    [|left; exists e; reflexivity].
  destruct (extract_group_by parsed) as [group_by|e];
    [|left; exists e; reflexivity].
  destruct (extract_order_by parsed) as [order_by|e];
    [|left; exists e; reflexivity].
  right. do 7 eexists. reflexivity.
Qed.

(** X24. The summary of an analysis counts what the response holds.
    Whenever the Analyze tool yields a payload with a [query_type], the
    invocation has exactly two messages, and the text before the payload
    gives that query type and the numbers of entries of its [tables],
    [columns], [joins] and [functions]. *)
Theorem summary_counts_the_response (p : kwargs)
  (items : list (string * pyval)) :
  In (JsonMessage (PDict items)) (messages (_invoke p)) ->
  dict_has items "query_type" = true ->
  exists query_type tables columns_ joins functions,
    dict_get items "query_type" PNone = PStr query_type /\
    dict_get items "tables" PNone = PList tables /\
    dict_get items "columns" PNone = PList columns_ /\
    dict_get items "joins" PNone = PList joins /\
    dict_get items "functions" PNone = PList functions /\
    messages (_invoke p) =
      [TextMessage
         ("SQL Analysis:" ++ nl ++ "- " ++
          join (nl ++ "- ")
            ["Query Type: " ++ query_type;
             "Tables: " ++ py_str (len tables);
             "Columns: " ++ py_str (len columns_);
             "Joins: " ++ py_str (len joins);
             "Functions: " ++ py_str (len functions)]);
       JsonMessage (PDict items)].
Proof.
  unfold _invoke.
  destruct (truthy (dict_get p "sql" (PStr EmptyString))); cbn [negb].
  2: { cbn. intros [H|[]]. discriminate. }
  unfold try_body, lib_call.
  destruct (parse_one _ _) as [[parsed|]|e].
  - cbn [bind try_except].
    destruct (analyze_run parsed (dict_get p "sql" (PStr EmptyString))
                (dict_get p "dialect" (PStr EmptyString)))
      as [(e & ->)|(aliases & functions & joins & subqueries &
                    where_conditions & group_by & order_by & ->)].
    + cbn [bind try_except]. unfold on_error, error_response.
      destruct (is_ParseError e); cbn;
        intros [H|[H|[]]] Hhas; try discriminate;
        inversion H; subst items; discriminate.
    + cbn. intros [H|[H|[]]] _; [discriminate|].
      inversion H; subst items.
      exists (type_name parsed),
             (map table_info_json (extract_tables parsed)),
             (map column_info_json (extract_columns parsed)),
             joins, (map function_json functions).
      repeat (split; [reflexivity|]).
      unfold summary, len. rewrite !length_map. reflexivity.
  - cbn. intros [H|[]]. discriminate.
  - cbn [bind try_except]. unfold on_error, error_response.
    destruct (is_ParseError e); cbn;
      intros [H|[H|[]]] Hhas; try discriminate;
      inversion H; subst items; discriminate.
Qed.

End Summary.

(* ------------------------------------------------------------------ *)
(** ** The properties on the samples *)

Lemma tables_deduplicated_witness :
  In (AnalyzeSqlTool.mk_table_info "b" None None None)
     (AnalyzeSqlTool.extract_tables (L := Fixture.library true)
        Fixture.select_join).
Proof.
  apply (proj2 (@tables_deduplicated (Fixture.library true)
                  Fixture.select_join)).
  exists (Fixture.table "b" EmptyString "this"). split; [|reflexivity].
  right; left; reflexivity.
Defined.

Lemma extraction_keeps_traversal_order_witness :
  AnalyzeSqlTool.extract_columns (L := Fixture.library true)
    Fixture.select_join =
    [AnalyzeSqlTool.mk_column_info "id" (Some "a") "id";
     AnalyzeSqlTool.mk_column_info "id" (Some "b") "id"] /\
  AnalyzeSqlTool.extract_tables (L := Fixture.library true)
    Fixture.select_join =
    [AnalyzeSqlTool.mk_table_info "a" None None None;
     AnalyzeSqlTool.mk_table_info "b" None None None] /\
  exists column,
    In column (find_all (Library := Fixture.library true)
                        Fixture.select_join exp.Column) /\
    AnalyzeSqlTool.make_column_info (L := Fixture.library true) column =
      AnalyzeSqlTool.mk_column_info "id" (Some "b") "id".
Proof.
  destruct (@extraction_keeps_traversal_order (Fixture.library true)
              Fixture.select_join) as (Hsound & Hcolumns & Htables).
  split; [|split].
  - apply Hcolumns. repeat constructor; cbn; intuition discriminate.
  - apply Htables. repeat constructor; cbn; intuition discriminate.
  - apply Hsound. right; left; reflexivity.
Defined.

(** [SUM(w)] cannot be rendered, but it is the second [Sum]: the
    functions are listed all the same. *)
Lemma functions_one_per_class_witness :
  exists functions,
    AnalyzeSqlTool.extract_functions
      (L := Scripted.library Samples.fragile) Samples.select_functions =
      Ok functions /\
    NoDup (map fst functions) /\
    In "Count" (map fst functions) /\
    exists func,
      find (fun f => String.eqb (Fixture.node_type f) "Sum")
           (Fixture.fx_find_all Samples.select_functions exp.Func) =
        Some func /\
      Samples.fragile_render func = Ok "SUM(v)".
Proof.
  destruct (@functions_one_per_class (Scripted.library Samples.fragile)
              Samples.select_functions) as (Hspec & Htotal).
  assert (Hfirst : forall name func,
             find (fun f => String.eqb (Fixture.node_type f) name)
                  (Fixture.fx_find_all Samples.select_functions exp.Func) =
               Some func ->
             exists text, Samples.fragile_render func = Ok text).
  { intros name func.
    change (find (fun f => String.eqb (Fixture.node_type f) name)
                 (Fixture.fx_find_all Samples.select_functions exp.Func))
      with (if String.eqb "Sum" name
            then Some (Samples.func "Sum" "SUM(v)")
            else if String.eqb "Sum" name
                 then Some (Samples.func "Sum" "SUM(w)")
                 else if String.eqb "Count" name
                      then Some (Samples.func "Count" "COUNT(x)")
                      else None).
    destruct (String.eqb "Sum" name);
      [intros H; inversion H; eexists; reflexivity|].
    destruct (String.eqb "Count" name);
      [intros H; inversion H; eexists; reflexivity|discriminate]. }
  destruct (Htotal Hfirst) as (functions & Hextract).
  destruct (Hspec functions Hextract) as (Hnodup & Hall & Hkept).
  exists functions. split; [exact Hextract|]. split; [exact Hnodup|].
  split.
  - apply (Hall (Samples.func "Count" "COUNT(x)")).
    right; right; left; reflexivity.
  - assert (Hsum : In "Sum" (map fst functions))
      by (apply (Hall (Samples.func "Sum" "SUM(v)")); left; reflexivity).
    apply in_map_iff in Hsum. destruct Hsum as ([name text] & Hname & Hin).
    cbn in Hname. subst name.
    destruct (Hkept "Sum" text Hin) as (func & Hfind & Hsql).
    exists func. split; [exact Hfind|].
    change (Some (Samples.func "Sum" "SUM(v)") = Some func) in Hfind.
    inversion Hfind; subst func. reflexivity.
Defined.

(** A tuple in a row becomes a list and a decimal its text; a dict keeps
    its keys, so that the key [(1, 2)] is still a tuple in the result. *)
Lemma serialize_value_converts_values_witness :
  ExecuteSqlTool._serialize_value
    (PList [PInt 1; PStr "Decimal('2.5')"; PList [PList []]]) =
    PList [PInt 1; PStr "Decimal('2.5')"; PList [PList []]] /\
  ExecuteSqlTool._serialize_value
    (PMap [(PTuple [PInt 1; PInt 2], PTuple [PInt 3])]) =
    PMap [(PTuple [PInt 1; PInt 2], PList [PInt 3])] /\
  plain (ExecuteSqlTool._serialize_value
           (PMap [(PTuple [PInt 1; PInt 2], PTuple [PInt 3])])) = false.
Proof.
  split; [|split].
  - apply (proj1 (proj2 (serialize_value_converts_values
                           (PList [PInt 1; PStr "Decimal('2.5')";
                                   PList [PList []]])))).
    reflexivity.
  - reflexivity.
  - exact (proj2 (proj2 (proj2 (serialize_value_converts_values
                                  (PMap [(PTuple [PInt 1; PInt 2],
                                          PTuple [PInt 3])]))))).
Defined.

(** Two columns of one name: the later one wins; a row of one value:
    the third column gets [None]. *)
Lemma row_to_dict_lookup_witness :
  dict_get (ExecuteSqlTool.row_to_dict ["a"; "a"; "b"] [PInt 1; PInt 2])
           "a" PNone = PInt 2 /\
  dict_get (ExecuteSqlTool.row_to_dict ["a"; "a"; "b"] [PInt 1; PInt 2])
           "b" (PStr "missing") = PNone.
Proof.
  split.
  - apply (proj1 (@row_to_dict_lookup ["a"; "a"; "b"] [PInt 1; PInt 2]
                    1%nat "a" PNone eq_refl
                    (fun H => match H with
                              | or_introl E => ltac:(discriminate E)
                              | or_intror F => F
                              end))).
  - apply (proj2 (@row_to_dict_lookup ["a"; "a"; "b"] [PInt 1; PInt 2]
                    2%nat "b" (PStr "missing") eq_refl (fun H => H))).
    apply le_n.
Defined.

Lemma row_to_dict_distinct_columns_witness :
  ExecuteSqlTool.row_to_dict ["id"; "v"; "w"] [PInt 1; PTuple [PInt 2]] =
    [("id", PInt 1); ("v", PList [PInt 2]); ("w", PNone)].
Proof.
  assert (Hnodup : NoDup ["id"; "v"; "w"])
    by (repeat constructor; cbn; intuition discriminate).
  rewrite (proj2 (@row_to_dict_distinct_columns ["id"; "v"; "w"]
                    [PInt 1; PTuple [PInt 2]] Hnodup)).
  reflexivity.
Defined.

Lemma check_tables_shape_witness :
  ExecuteSqlTool.check_tables
    [("t", PList [PDict [("id", PInt 1)]]); ("u", PList [])] =
    ([], Normal tt) /\
  exists before item after,
    [("t", PList [PDict []]); ("u", PInt 1); ("v", PList [PNone])] =
      (before ++ item :: after)%list /\
    fst item = "u" /\
    ExecuteSqlTool.check_tables
      [("t", PList [PDict []]); ("u", PInt 1); ("v", PList [PNone])] =
      ([Yielded (TextMessage "Table 'u' must be an array of row objects.")],
       Returned).
Proof.
  split.
  - apply (proj1 (check_tables_shape
                    [("t", PList [PDict [("id", PInt 1)]]);
                     ("u", PList [])])).
    reflexivity.
  - destruct (proj2 (check_tables_shape
                       [("t", PList [PDict []]); ("u", PInt 1);
                        ("v", PList [PNone])]) eq_refl)
      as (before & item & after & Hsplit & Hbefore & Hitem & Hcheck).
    exists before, item, after. split; [exact Hsplit|].
    assert (E : ([Yielded (TextMessage (shape_complaint item))],
                 @Returned unit) =
                ([Yielded (TextMessage
                             "Table 'u' must be an array of row objects.")],
                 Returned))
      by (rewrite <- Hcheck; reflexivity).
    split; [|rewrite Hcheck; exact E].
    destruct before as [|b1 [|b2 before]]; inversion Hsplit; subst.
    + discriminate Hitem.
    + reflexivity.
    + destruct before as [|b3 before]; inversion H2; subst;
        [cbn in Hbefore; discriminate Hbefore|].
      now destruct before.
Defined.

Lemma unusable_tables_not_executed_witness :
  only_says "Invalid tables JSON: Expecting value: line 1 column 1 (char 0)"
    (ExecuteSqlTool._invoke (L := Fixture.library true)
       [("sql", PStr "SELECT 1"); ("tables", PStr "t = 1")]) /\
  only_says "Tables must be a JSON object with table names as keys."
    (ExecuteSqlTool._invoke (L := Scripted.library Samples.nothing)
       [("sql", PStr "SELECT 1"); ("tables", PStr "[]")]) /\
  exists text,
    only_says text
      (ExecuteSqlTool._invoke (L := Scripted.library Samples.misshapen)
         [("sql", PStr "SELECT 1"); ("tables", PStr "{...}")]).
Proof.
  split; [|split].
  - apply (proj1 (@unusable_tables_not_executed (Fixture.library true)
                    [("sql", PStr "SELECT 1"); ("tables", PStr "t = 1")]
                    eq_refl eq_refl)
             {| exn_class_of := JSONDecodeError;
                exn_type_name := "JSONDecodeError";
                exn_str := "Expecting value: line 1 column 1 (char 0)";
                exn_errors := None |});
      reflexivity.
  - apply (proj1 (proj2 (@unusable_tables_not_executed
                           (Scripted.library Samples.nothing)
                           [("sql", PStr "SELECT 1"); ("tables", PStr "[]")]
                           eq_refl eq_refl))
             (PList []));
      reflexivity.
  - apply (proj2 (proj2 (@unusable_tables_not_executed
                           (Scripted.library Samples.misshapen)
                           [("sql", PStr "SELECT 1");
                            ("tables", PStr "{...}")]
                           eq_refl eq_refl))
             [("t", PList [PDict []]); ("u", PInt 1)]);
      reflexivity.
Defined.

(** Two rows and then a [TypeError]: the two rows are kept, the set
    read through its elements. *)
Lemma converted_rows_kept_witness :
  plain_but_keys (PList [PDict [("a", PStr "2024-01-01")];
                         PDict [("a", PInt 1)]]) = true /\
  List.length [[("a", PStr "2024-01-01")]; [("a", PInt 1)]] = 2%nat /\
  is_TypeError Samples.type_error = true.
Proof.
  destruct (@converted_rows_kept (Fixture.library true)
              (Some Samples.cut_short) ["a"]
              [[("a", PStr "2024-01-01")]; [("a", PInt 1)]] eq_refl)
    as (Hplain & Hlength & Hend).
  split; [exact Hplain|]. split; [exact Hlength|].
  exact (Hend Samples.cut_short Samples.type_error eq_refl eq_refl eq_refl).
Defined.



Lemma table_str_truncates_witness :
  ExecuteSqlTool.table_str (L := Fixture.library true) ["a"]
    (repeat [("a", PInt 7)] 51) =
    ExecuteSqlTool.table_str (L := Fixture.library true) ["a"]
      (repeat [("a", PInt 7)] 50) ++
    nl ++ "... and 1 more rows" /\
  ExecuteSqlTool.table_str (L := Fixture.library true) ["a"]
    [[("a", PInt 7)]] =
    "| a |" ++ nl ++ "| --- |" ++ nl ++ "| 7 |".
Proof.
  split.
  - apply (proj1 (@table_str_truncates (Fixture.library true) ["a"]
                    (repeat [("a", PInt 7)] 51))).
    apply Nat.ltb_lt. reflexivity.
  - apply (proj2 (@table_str_truncates (Fixture.library true) ["a"]
                    [[("a", PInt 7)]])).
    apply Nat.leb_le. reflexivity.
Defined.

Lemma format_all_or_nothing_witness :
  messages (FormatSqlTool._invoke
              (L := Scripted.library Samples.three_statements)
              [("sql", PStr "SELECT 1; ; SELECT * FROM a JOIN b ON a.id=b.id")]) =
    [TextMessage "Successfully formatted 2 SQL statement(s)";
     TextMessage (sql_block "Formatted SQL"
                    ("SELECT 1;" ++ nl ++ nl ++
                     "SELECT * FROM a JOIN b ON a.id = b.id"));
     JsonMessage
       (PDict [("original_sql",
                PStr "SELECT 1; ; SELECT * FROM a JOIN b ON a.id=b.id");
               ("formatted_sql",
                PStr ("SELECT 1;" ++ nl ++ nl ++
                      "SELECT * FROM a JOIN b ON a.id = b.id"));
               ("dialect", PStr "auto-detected");
               ("options", PDict [("identify", PBool false);
                                  ("normalize", PBool false)]);
               ("statement_count", PInt 2)])].
Proof.
  exact (@format_all_or_nothing
           (Scripted.library Samples.three_statements)
           [("sql", PStr "SELECT 1; ; SELECT * FROM a JOIN b ON a.id=b.id")]
           [Some Fixture.select_1; None; Some Fixture.select_join]
           eq_refl eq_refl
           ltac:(discriminate)).
Defined.

Lemma validate_numbers_statements_witness :
  exists entries,
    messages (ValidateSqlTool._invoke
                (L := Scripted.library Samples.three_statements)
                [("sql", PStr "SELECT 1; ; SELECT * FROM a JOIN b ON a.id=b.id")]) =
      [TextMessage "✓ SQL is valid! Found 2 statement(s).";
       TextMessage "Statement types: Select, Select";
       JsonMessage
         (PDict [("valid", PBool true);
                 ("dialect", PStr "auto-detected");
                 ("statement_count", PInt 2);
                 ("statements", PList (map PDict entries));
                 ("warnings", PList []);
                 ("original_sql",
                  PStr "SELECT 1; ; SELECT * FROM a JOIN b ON a.id=b.id")])] /\
    nth_error entries 1 =
      Some [("index", PInt 2);
            ("type", PStr "Select");
            ("sql", PStr "SELECT * FROM a JOIN b ON a.id = b.id")].
Proof.
  destruct (@validate_numbers_statements
              (Scripted.library Samples.three_statements)
              [("sql", PStr "SELECT 1; ; SELECT * FROM a JOIN b ON a.id=b.id")]
              [Some Fixture.select_1; None; Some Fixture.select_join]
              ["SELECT 1"; "SELECT * FROM a JOIN b ON a.id = b.id"]
              eq_refl eq_refl ltac:(discriminate) eq_refl)
    as (entries & Hm & _ & Hnth).
  exists entries. split; [exact Hm|].
  exact (Hnth 1%nat Fixture.select_join
              "SELECT * FROM a JOIN b ON a.id = b.id" eq_refl eq_refl).
Defined.

Lemma validate_nothing_to_validate_witness :
  messages (ValidateSqlTool._invoke (L := Scripted.library Samples.nothing)
              [("sql", PStr ";")]) =
    [TextMessage "No valid SQL statements found in the query.";
     JsonMessage (PDict [("valid", PBool false);
                         ("error", PStr "No valid SQL statements found");
                         ("original_sql", PStr ";")])].
Proof.
  exact (proj2 (@validate_nothing_to_validate
                  (Scripted.library Samples.nothing) [("sql", PStr ";")]
                  [None] eq_refl eq_refl eq_refl)).
Defined.

Lemma transpile_joins_statements_witness :
  messages (TranspileSqlTool._invoke
              (L := Scripted.library Samples.three_statements)
              [("sql", PStr "SELECT 1; SELECT 2");
               ("target_dialect", PStr "postgres")]) =
    [TextMessage "Successfully transpiled SQL from auto-detected to postgres";
     TextMessage (sql_block "Transpiled SQL"
                    ("SELECT 1;" ++ nl ++ nl ++ "SELECT 2"));
     JsonMessage
       (PDict [("original_sql", PStr "SELECT 1; SELECT 2");
               ("transpiled_sql",
                PStr ("SELECT 1;" ++ nl ++ nl ++ "SELECT 2"));
               ("source_dialect", PStr "auto-detected");
               ("target_dialect", PStr "postgres");
               ("statement_count", PInt 2)])] /\
  messages (TranspileSqlTool._invoke (L := Scripted.library Samples.nothing)
              [("sql", PStr ";"); ("target_dialect", PStr "postgres")]) =
    [TextMessage "Failed to transpile SQL query."].
Proof.
  split.
  - exact (@transpile_joins_statements
             (Scripted.library Samples.three_statements)
             [("sql", PStr "SELECT 1; SELECT 2");
              ("target_dialect", PStr "postgres")]
             ["SELECT 1"; "SELECT 2"] eq_refl eq_refl eq_refl).
  - exact (@transpile_joins_statements
             (Scripted.library Samples.nothing)
             [("sql", PStr ";"); ("target_dialect", PStr "postgres")]
             [] eq_refl eq_refl eq_refl).
Defined.

Lemma optimize_schema_handling_witness :
  OptimizeSqlTool._invoke (L := Fixture.library true)
    [("sql", PStr "SELECT 1"); ("schema", PStr "t: x")] =
    ([Called "parse_one" [("dialect", PNone)];
      Yielded (TextMessage ("Invalid schema JSON: " ++
                            "Expecting value: line 1 column 1 (char 0)"))],
     Returned) /\
  exists rest,
    calls (OptimizeSqlTool._invoke (L := Fixture.library true)
             [("sql", PStr "SELECT 1"); ("schema", PStr "{}")]) =
      ("parse_one", [("dialect", PNone)]) ::
      ("optimize", [("dialect", PNone)]) :: rest.
Proof.
  split.
  - apply (proj1 (@optimize_schema_handling (Fixture.library true)
                    [("sql", PStr "SELECT 1"); ("schema", PStr "t: x")]
                    Fixture.select_1 eq_refl eq_refl eq_refl)
             {| exn_class_of := JSONDecodeError;
                exn_type_name := "JSONDecodeError";
                exn_str := "Expecting value: line 1 column 1 (char 0)";
                exn_errors := None |});
      reflexivity.
  - exact (proj2 (@optimize_schema_handling (Fixture.library true)
                    [("sql", PStr "SELECT 1"); ("schema", PStr "{}")]
                    Fixture.select_1 eq_refl eq_refl eq_refl)
             (PDict []) eq_refl).
Defined.


Lemma given_dialect_is_used_witness :
  Forall (passes "dialect" (PStr "mysql"))
    (calls (OptimizeSqlTool._invoke (L := Fixture.library true)
              [("sql", PStr "SELECT 1"); ("dialect", PStr "mysql")])) /\
  first_call (ValidateSqlTool._invoke (L := Fixture.library true)
                [("sql", PStr "SELECT 1"); ("dialect", PStr "mysql")]) =
    Some ("parse", [("dialect", PStr "mysql")]) /\
  calls (TranspileSqlTool._invoke (L := Fixture.library true)
           [("sql", PStr "SELECT 1"); ("source_dialect", PStr "mysql");
            ("target_dialect", PStr "postgres")]) =
    [("transpile", [("read", PStr "mysql"); ("write", PStr "postgres");
                    ("pretty", PBool true)])].
Proof.
  destruct (@given_dialect_is_used (Fixture.library true)
              [("sql", PStr "SELECT 1"); ("dialect", PStr "mysql")])
    as (Hdialect & _).
  destruct (Hdialect eq_refl) as (_ & _ & _ & Hoptimize & _ & Hfirst).
  destruct (Hfirst eq_refl) as (_ & _ & Hvalidate & _).
  split; [exact Hoptimize|]. split; [exact Hvalidate|].
  exact (proj2 (@given_dialect_is_used (Fixture.library true)
                  [("sql", PStr "SELECT 1");
                   ("source_dialect", PStr "mysql");
                   ("target_dialect", PStr "postgres")])
               eq_refl eq_refl).
Defined.

Lemma credentials_accepted_iff_witness :
  SqlglotProvider._validate_credentials (L := Fixture.library true)
    Samples.is_ImportError (Ok tt) [] = Ok tt /\
  exn_type_name
    {| exn_class_of := OtherException;
       exn_type_name := "ToolProviderCredentialValidationError";
       exn_str := "SQLGlot library is not installed: " ++
                  "No module named 'sqlglot'";
       exn_errors := None |} =
    "ToolProviderCredentialValidationError".
Proof.
  destruct (@credentials_accepted_iff (Fixture.library true)
              Samples.is_ImportError (Ok tt) []) as (Haccept & _).
  split.
  - apply Haccept. split; [exists tt; reflexivity|].
    exists "SELECT 1", []. reflexivity.
  - destruct (@credentials_accepted_iff (Fixture.library true)
                Samples.is_ImportError (Err Samples.module_not_found) [])
      as (_ & Hfail).
    exact (proj1 (Hfail _ eq_refl)).
Defined.

Lemma empty_transpilation_wrapped_twice_witness :
  SqlglotProvider._validate_credentials
    (L := Scripted.library Samples.nothing)
    Samples.is_ImportError (Ok tt) [] =
    Err (SqlglotProvider.ToolProviderCredentialValidationError
           ("SQLGlot validation failed: " ++
            "SQLGlot library validation failed: " ++
            "unable to transpile test query")).
Proof.
  exact (@empty_transpilation_wrapped_twice
           (Scripted.library Samples.nothing) Samples.is_ImportError (Ok tt)
           [] (ex_intro _ tt eq_refl) eq_refl (fun _ => eq_refl)).
Defined.

Lemma aliases_only_named_projections_witness :
  List.length
    [PDict [("alias", PStr "total"); ("expression", PStr "SUM(v)")]] =
    List.length
      (filter (AnalyzeSqlTool.has_alias (L := Fixture.library true))
         (flat_map (expressions (Library := Fixture.library true))
            (find_all (Library := Fixture.library true)
                      Samples.select_aliased exp.Select))) /\
  exists text,
    In (PDict [("alias", PStr "total"); ("expression", PStr text)])
       [PDict [("alias", PStr "total"); ("expression", PStr "SUM(v)")]].
Proof.
  destruct (@aliases_only_named_projections
              (Fixture.library true) Samples.select_aliased
              [PDict [("alias", PStr "total");
                      ("expression", PStr "SUM(v)")]]
              eq_refl) as (Hlength & _ & Hlisted).
  split; [exact Hlength|].
  exact (Hlisted
           (Fixture.Node None "Alias" "SUM(v) AS total"
              [("alias", "total"); ("alias_or_name", "total");
               ("arg", "expressions")]
              [Fixture.Node (Some exp.Func) "Sum" "SUM(v)"
                 [("arg", "this")] []])
           (or_introl eq_refl) eq_refl).
Defined.

Lemma summary_counts_the_response_witness :
  exists items,
    messages (AnalyzeSqlTool._invoke (L := Fixture.library true)
                [("sql", PStr "SELECT * FROM a JOIN b ON a.id=b.id")]) =
      [TextMessage
         ("SQL Analysis:" ++ nl ++ "- Query Type: Select" ++ nl ++
          "- Tables: 2" ++ nl ++ "- Columns: 2" ++ nl ++
          "- Joins: 1" ++ nl ++ "- Functions: 0");
       JsonMessage (PDict items)].
Proof.
  exists (response_of (L := Fixture.library true) Fixture.select_join
            (PStr "SELECT * FROM a JOIN b ON a.id=b.id") (PStr EmptyString)
            [] []
            [PDict [("type", PStr "INNER"); ("table", PStr "b");
                    ("on_condition", PStr "a.id = b.id")]]
            [] [] [] []).
  destruct (@summary_counts_the_response
              (Fixture.library true)
              [("sql", PStr "SELECT * FROM a JOIN b ON a.id=b.id")]
              (response_of (L := Fixture.library true) Fixture.select_join
                 (PStr "SELECT * FROM a JOIN b ON a.id=b.id")
                 (PStr EmptyString) [] []
                 [PDict [("type", PStr "INNER"); ("table", PStr "b");
                         ("on_condition", PStr "a.id = b.id")]]
                 [] [] [] [])
              (or_intror (or_introl eq_refl)) eq_refl)
    as (query_type & tables & columns_ & joins & functions &
        Hq & Ht & Hc & Hj & Hf & Hm).
  inversion Hq; subst query_type. inversion Ht; subst tables.
  inversion Hc; subst columns_. inversion Hj; subst joins.
  inversion Hf; subst functions. exact Hm.
Defined.
